(** * ugol-trans-website: access policy, model validation and save side effects

    A shallow embedding of the Django models and admin mixins of the
    repository, with the properties of its specification proved over it.

    Conventions.
    - A Python [str] is a [string]; each character stands for one code point
      below 256.  On these code points the [\d] class of [re] is exactly
      [0-9], and [str.isspace] is the set listed in [PyStr.isspace].
    - A method that may [raise ValidationError] returns a [result]: [Ok v]
      carries the (possibly mutated) instance, [Raise e] the exception.
    - A database table is a finite map from primary keys to rows.
    - What belongs to Django itself (per-field validators, the URL validator,
      the mail transport) is a parameter of the section that uses it. *)

From Stdlib Require Import ZArith Ascii String Bool Lia.
From Stdlib Require PrimFloat.
From stdpp Require Import base option list gmap fin_maps strings pretty.

Local Open Scope string_scope.

(** string concatenation unfolds on a literal prefix *)
Arguments String.append !s1 s2 : simpl nomatch.

(** ** Python strings *)

Module PyStr.

Fixpoint filter (p : ascii -> bool) (s : string) : string :=
  match s with
  | EmptyString => EmptyString
  | String c s' => if p c then String c (filter p s') else filter p s'
  end.

Fixpoint forallb (p : ascii -> bool) (s : string) : bool :=
  match s with
  | EmptyString => true
  | String c s' => p c && forallb p s'
  end.

Fixpoint map (f : ascii -> ascii) (s : string) : string :=
  match s with
  | EmptyString => EmptyString
  | String c s' => String (f c) (map f s')
  end.

Definition in_range (lo hi : nat) (c : ascii) : bool :=
  (lo <=? nat_of_ascii c)%nat && (nat_of_ascii c <=? hi)%nat.

(** [0-9] *)
Definition isdigit (c : ascii) : bool := in_range 48 57 c.
(** [A-F], [a-f], [A-Z], [a-z] *)
Definition is_AF (c : ascii) : bool := in_range 65 70 c.
Definition is_af (c : ascii) : bool := in_range 97 102 c.
Definition is_AZ (c : ascii) : bool := in_range 65 90 c.
Definition is_az (c : ascii) : bool := in_range 97 122 c.

(** [str.isspace] and the [\s] class, on code points below 256:
    TAB LF VT FF CR, FS GS RS US, SPACE, NEL (0x85) and NBSP (0xA0). *)
Definition isspace (c : ascii) : bool :=
  in_range 9 13 c || in_range 28 32 c
  || (nat_of_ascii c =? 133)%nat || (nat_of_ascii c =? 160)%nat.

(** [str.upper] on one character: [a-z] go to [A-Z]; so do the Latin-1
    letters 0xE0-0xFE other than the division sign; 0xB5 and 0xFF have
    their upper case above 255 and 0xDF becomes two letters, so these
    three are left as they are here; [upper] is only applied to strings
    that the colour pattern accepted, which hold none of them. *)
Definition upper_char (c : ascii) : ascii :=
  if is_az c then ascii_of_nat (nat_of_ascii c - 32)
  else if in_range 224 254 c && negb (nat_of_ascii c =? 247)%nat
       then ascii_of_nat (nat_of_ascii c - 32)
  else c.

Definition upper (s : string) : string := map upper_char s.

(** [s.strip() == ''], i.e. [not s.strip()] *)
Definition strip_is_empty (s : string) : bool := forallb isspace s.

(** truth value of a [str]: non-empty *)
Definition truthy (s : string) : bool :=
  match s with EmptyString => false | String _ _ => true end.

Definition len (s : string) : nat := String.length s.

(** the string without its last character, when that one is LF *)
Fixpoint chop_newline (s : string) : option string :=
  match s with
  | EmptyString => None
  | String c EmptyString => if Ascii.eqb c "010"%char then Some EmptyString else None
  | String c s' => option_map (String c) (chop_newline s')
  end.

End PyStr.

(** ** Regular expressions of Python's [re]

    Only the operators the repository's patterns use.  [re.match(p, s)]
    anchors at the start of [s]; every pattern of the repository has the
    form [^body$], and without [re.MULTILINE] the [$] holds at the end of the
    string and also just before a line feed that ends the string. *)

Module Re.

Inductive regex : Type :=
| Void                                  (* matches nothing *)
| Eps                                   (* the empty string *)
| Class (p : ascii -> bool)             (* one character of a class *)
| Cat (r1 r2 : regex)
| Alt (r1 r2 : regex)
| Star (r : regex).

Definition Chr (c : ascii) : regex := Class (Ascii.eqb c).
Definition Opt (r : regex) : regex := Alt r Eps.          (* r? *)
Definition Plus (r : regex) : regex := Cat r (Star r).    (* r+ *)
Fixpoint Rep (n : nat) (r : regex) : regex :=             (* r{n} *)
  match n with
  | O => Eps
  | S n' => Cat r (Rep n' r)
  end.
Definition AtLeast (n : nat) (r : regex) : regex :=       (* r{n,} *)
  Cat (Rep n r) (Star r).

Fixpoint nullable (r : regex) : bool :=
  match r with
  | Void => false
  | Eps => true
  | Class _ => false
  | Cat r1 r2 => nullable r1 && nullable r2
  | Alt r1 r2 => nullable r1 || nullable r2
  | Star _ => true
  end.

(** what is left of [r] after reading [c] *)
Fixpoint deriv (c : ascii) (r : regex) : regex :=
  match r with
  | Void => Void
  | Eps => Void
  | Class p => if p c then Eps else Void
  | Cat r1 r2 =>
      if nullable r1 then Alt (Cat (deriv c r1) r2) (deriv c r2)
      else Cat (deriv c r1) r2
  | Alt r1 r2 => Alt (deriv c r1) (deriv c r2)
  | Star r1 => Cat (deriv c r1) (Star r1)
  end.

(** the whole of [s] is a word of [r] *)
Fixpoint fullmatch (r : regex) (s : string) : bool :=
  match s with
  | EmptyString => nullable r
  | String c s' => fullmatch (deriv c r) s'
  end.

(** [re.match('^body$', s) is not None] *)
Definition match_dollar (body : regex) (s : string) : bool :=
  fullmatch body s
  || match PyStr.chop_newline s with
     | Some s' => fullmatch body s'
     | None => false
     end.

(** The words of a pattern, as a proposition. *)
Inductive star (L : string -> Prop) : string -> Prop :=
| star_nil : star L EmptyString
| star_app c s1 s2 : L (String c s1) -> star L s2 -> star L (String c s1 ++ s2).

Fixpoint lang (r : regex) (s : string) : Prop :=
  match r with
  | Void => False
  | Eps => s = EmptyString
  | Class p => exists c, s = String c EmptyString /\ p c = true
  | Cat r1 r2 => exists s1 s2, s = s1 ++ s2 /\ lang r1 s1 /\ lang r2 s2
  | Alt r1 r2 => lang r1 s \/ lang r2 s
  | Star r1 => star (lang r1) s
  end.

End Re.

(** ** The parts of Django the models rely on *)

Module Django.

(** [django.core.exceptions.ValidationError]: built from one message, or
    from a dict that maps a field name to its message. *)
Inductive ValidationError : Type :=
| Message (message : string)
| ErrorDict (error_dict : gmap string (list string)).

(** [ValidationError({field: message})] *)
Definition field_error (field message : string) : ValidationError :=
  ErrorDict {[ field := [message] ]}.

Definition NON_FIELD_ERRORS : string := "__all__".

(** [e.update_error_dict(errors)] *)
Definition update_error_dict (e : ValidationError)
    (errors : gmap string (list string)) : gmap string (list string) :=
  match e with
  | Message m =>
      union_with (fun old new => Some (old ++ new)%list) errors {[ NON_FIELD_ERRORS := [m] ]}
  | ErrorDict d =>
      union_with (fun old new => Some (old ++ new)%list) errors d
  end.


Definition has_field_error (field : string) (e : ValidationError) : bool :=
  match e with
  | Message _ => false
  | ErrorDict d => bool_decide (is_Some (d !! field))
  end.

(** outcome of a method that returns normally or raises ValidationError *)
Inductive result (A : Type) : Type :=
| Ok (a : A)
| Raise (e : ValidationError).
Arguments Ok {A} a.
Arguments Raise {A} e.

Definition bind {A B} (x : result A) (k : A -> result B) : result B :=
  match x with
  | Ok a => k a
  | Raise e => Raise e
  end.

Global Instance result_bind : MBind result := fun A B k x => bind x k.
Global Instance result_ret : MRet result := fun A a => Ok a.

Definition is_ok {A} (x : result A) : bool :=
  match x with Ok _ => true | Raise _ => false end.

(** a model instance has a primary key, unset until the first insert *)
Class Model (M : Type) := {
  get_pk : M -> option Z;
  set_pk : option Z -> M -> M
}.

(** [x is None] *)
Definition is_none {A} (x : option A) : bool :=
  match x with None => true | Some _ => false end.

(** truth value of [self.pk]: [None] and [0] are false *)
Definition pk_truthy (pk : option Z) : bool :=
  match pk with
  | Some k => negb (k =? 0)%Z
  | None => false
  end.

(** the key an auto-increment column hands out next *)
Definition next_pk {M} (objects : gmap Z M) : Z :=
  (1 + map_fold (fun k _ acc => Z.max k acc) 0 objects)%Z.

(** [models.Model.save]: no validation; an instance without a key is
    inserted under a new one, an instance with a key replaces (or creates)
    the row of that key. *)
Definition Model_save {M} `{Model M} (self : M) (objects : gmap Z M)
    : M * gmap Z M :=
  match get_pk self with
  | Some k => (self, <[k := self]> objects)
  | None =>
      let k := next_pk objects in
      let self' := set_pk (Some k) self in
      (self', <[k := self']> objects)
  end.

(** [models.Model.full_clean]: the field validators and [clean] both run,
    their errors are merged, and one ValidationError is raised if there
    is any.  No model here declares a constraint or a unique field other
    than its key, so [validate_unique] looks at the key only, and only on
    an instance that was never saved and yet carries a key; such an instance
    is not told apart from a loaded one here.  The theorems that state that
    a save completes take an instance without a key, or one whose key is not
    in the table, for which that check passes either way. *)
Definition full_clean {M} (clean_fields : M -> gmap string (list string))
    (clean : M -> result M) (self : M) : result M :=
  let errors := clean_fields self in
  match clean self with
  | Ok self' =>
      if decide (errors = ∅) then Ok self' else Raise (ErrorDict errors)
  | Raise e => Raise (ErrorDict (update_error_dict e errors))
  end.

(** the message of [MaxLengthValidator] *)
Definition max_length_message (max_length : nat) (value : string) : string :=
  "Ensure this value has at most " ++ pretty max_length
  ++ " characters (it has " ++ pretty (PyStr.len value) ++ ").".

(** a [CharField(max_length=n, blank=b)] checked by [clean_fields] *)
Definition char_field (field : string) (max_length : nat) (blank : bool)
    (value : string) : gmap string (list string) :=
  if negb (PyStr.truthy value) then
    if blank then ∅ else {[ field := ["This field cannot be blank."] ]}
  else if (max_length <? PyStr.len value)%nat then
    {[ field := [max_length_message max_length value] ]}
  else ∅.

(** an [EmailField(blank=True)] checked by [clean_fields]: its validators,
    the e-mail validator and [MaxLengthValidator(254)], both run *)
Definition email_field (validate_email : string -> bool) (field : string)
    (value : string) : gmap string (list string) :=
  if negb (PyStr.truthy value) then ∅
  else
    match ((if validate_email value then [] else ["Enter a valid email address."])
           ++ (if (254 <? PyStr.len value)%nat
               then [max_length_message 254 value] else []))%list
    with
    | [] => ∅
    | messages => {[ field := messages ]}
    end.

(** a [PositiveIntegerField] checked by [clean_fields]: the validators come
    from the range of the column, 0 to 2147483647 on PostgreSQL (the engine
    of settings.py); the value is an [N], so only the upper one can fail *)
Definition positive_integer_field (field : string) (value : N)
    : gmap string (list string) :=
  if (2147483647 <? value)%N then
    {[ field := ["Ensure this value is less than or equal to 2147483647."] ]}
  else ∅.

(** a required [ForeignKey] checked by [clean_fields]: the key is set and
    is the key of a row of the related table; [model] is the verbose name
    of the related model *)
Definition foreign_key {R} (field model : string) (value : option Z)
    (related : gmap Z R) : gmap string (list string) :=
  match value with
  | None => {[ field := ["This field cannot be null."] ]}
  | Some k =>
      if bool_decide (is_Some (related !! k)) then ∅
      else {[ field := [model ++ " instance with id " ++ pretty k
                        ++ " does not exist."] ]}
  end.

(** a required [FloatField(validators=[MinValueValidator(0.0)])] checked by
    [clean_fields]; [MinValueValidator] fails when [value < limit] *)
Definition float_field_min_zero (field : string) (value : option PrimFloat.float)
    : gmap string (list string) :=
  match value with
  | None => {[ field := ["This field cannot be null."] ]}
  | Some x =>
      if PrimFloat.ltb x PrimFloat.zero then
        {[ field := ["Ensure this value is greater than or equal to 0.0."] ]}
      else ∅
  end.

End Django.

Import Django.

(** ** accounts/models.py: the user and its role *)

Module Accounts.

Record User := {
  username : string;
  role : string           (* CharField, one of ROLE_CHOICES once validated *)
}.

Definition in_list (x : string) (l : list string) : bool :=
  existsb (String.eqb x) l.

(** [User.is_staff] (a property of the role) *)
Definition is_staff (u : User) : bool :=
  in_list (role u) ["admin"; "crm_manager"; "content_manager"].

End Accounts.

(** ** core/mixins.py: admin access mixins *)

Module Mixins.

(** what the mixins read of [request.user]; [role] is
    [getattr(request.user, 'role', None)] *)
Record RequestUser := {
  is_authenticated : bool;
  is_staff : bool;
  role : option string
}.

Record HttpRequest := { user : RequestUser }.

(** a request of a logged-in [accounts.User] *)
Definition request_of (u : Accounts.User) : HttpRequest :=
  {| user := {| is_authenticated := true;
                is_staff := Accounts.is_staff u;
                role := Some (Accounts.role u) |} |}.

(** a request of Django's AnonymousUser *)
Definition anonymous_request : HttpRequest :=
  {| user := {| is_authenticated := false; is_staff := false; role := None |} |}.

(** [BaseAccessMixin.get_user_role] *)
Definition get_user_role (request : HttpRequest) : option string :=
  if negb (is_authenticated (user request)) || negb (is_staff (user request))
  then None
  else role (user request).

(** [BaseAccessMixin._has_role_permission]:
    [role in allowed_roles if role else False] *)
Definition _has_role_permission (request : HttpRequest)
    (allowed_roles : list string) : bool :=
  match get_user_role request with
  | Some role =>
      if PyStr.truthy role then Accounts.in_list role allowed_roles else false
  | None => false
  end.

(** the five permission hooks a mixin class overrides *)
Record AccessMixin := {
  has_module_permission : HttpRequest -> bool;
  has_view_permission : HttpRequest -> bool;
  has_add_permission : HttpRequest -> bool;
  has_change_permission : HttpRequest -> bool;
  has_delete_permission : HttpRequest -> bool
}.

(** a mixin whose four operations all defer to the module permission *)
Definition role_gated (allowed_roles : list string) : AccessMixin :=
  let module_permission request := _has_role_permission request allowed_roles in
  {| has_module_permission := module_permission;
     has_view_permission := module_permission;
     has_add_permission := module_permission;
     has_change_permission := module_permission;
     has_delete_permission := module_permission |}.

Definition AdminOnlyAccessMixin : AccessMixin := role_gated ["admin"].

Definition ContentManagerAccessMixin : AccessMixin :=
  role_gated ["admin"; "content_manager"].

Definition ApplicationsCRMAccessMixin : AccessMixin :=
  role_gated ["admin"; "crm_manager"].

Definition SiteSettingsAccessMixin : AccessMixin :=
  let module_permission request :=
    _has_role_permission request ["admin"; "content_manager"] in
  {| has_module_permission := module_permission;
     has_view_permission := module_permission;
     has_add_permission := fun _ => false;
     has_change_permission := module_permission;
     has_delete_permission := fun _ => false |}.

Definition HistoryAccessMixin : AccessMixin :=
  let module_permission request := _has_role_permission request ["admin"] in
  {| has_module_permission := module_permission;
     has_view_permission := module_permission;
     has_add_permission := fun _ => false;
     has_change_permission := fun _ => false;
     has_delete_permission := module_permission |}.

Inductive Operation : Type := View | Add | Change | Delete.

(** the decision for one operation: the hook the admin site calls *)
Definition can (m : AccessMixin) (op : Operation) (request : HttpRequest) : bool :=
  match op with
  | View => has_view_permission m request
  | Add => has_add_permission m request
  | Change => has_change_permission m request
  | Delete => has_delete_permission m request
  end.

(** the resource categories: one mixin class each *)
Definition all_mixins : list AccessMixin :=
  [ AdminOnlyAccessMixin; ContentManagerAccessMixin;
    ApplicationsCRMAccessMixin; SiteSettingsAccessMixin; HistoryAccessMixin ].

End Mixins.

(** ** business_analytics/models.py and admin.py *)

Module BusinessAnalytics.

Record Diagram := {
  pk : option Z;
  title : string;
  description : string;
  chart_type : string;
  measurement_unit : string;
  is_active : bool;            (* StatusModel *)
  order : N                    (* SortableModel *)
}.

Global Instance Diagram_model : Model Diagram := {|
  get_pk := pk;
  set_pk k d :=
    {| pk := k; title := title d; description := description d;
       chart_type := chart_type d; measurement_unit := measurement_unit d;
       is_active := is_active d; order := order d |}
|}.

Definition set_is_active (b : bool) (d : Diagram) : Diagram :=
  {| pk := pk d; title := title d; description := description d;
     chart_type := chart_type d; measurement_unit := measurement_unit d;
     is_active := b; order := order d |}.

Definition MAX_ACTIVE_DIAGRAMS : nat := 2.

(** [qs.filter(is_active=True)] and [qs.filter(is_active=False)] *)
Definition filter_is_active (b : bool) (qs : gmap Z Diagram) : gmap Z Diagram :=
  filter (fun kv => is_active kv.2 = b) qs.

(** [qs.exclude(pk=k)] *)
Definition exclude_pk (k : Z) (qs : gmap Z Diagram) : gmap Z Diagram :=
  delete k qs.

(** [qs.count()] *)
Definition count (qs : gmap Z Diagram) : nat := size qs.

(** the queryset [_validate_active_limit] counts *)
Definition active_qs (self : Diagram) (objects : gmap Z Diagram) : gmap Z Diagram :=
  let active_qs := filter_is_active true objects in
  if pk_truthy (pk self)
  then match pk self with
       | Some k => exclude_pk k active_qs
       | None => active_qs
       end
  else active_qs.

Definition active_limit_message (active : nat) : string :=
  "Нельзя активировать более " ++ pretty MAX_ACTIVE_DIAGRAMS ++ " диаграмм. "
  ++ "Сейчас активно: " ++ pretty active ++ ". "
  ++ "Сначала деактивируйте одну из активных диаграмм.".

(** [Diagram._validate_active_limit] *)
Definition _validate_active_limit (self : Diagram) (objects : gmap Z Diagram)
    : result Diagram :=
  if is_active self then
    if (MAX_ACTIVE_DIAGRAMS <=? count (active_qs self objects))%nat then
      Raise (field_error "is_active"
               (active_limit_message (count (active_qs self objects))))
    else Ok self
  else Ok self.

(** [Diagram._validate_measurement_unit] *)
Definition _validate_measurement_unit (self : Diagram) : result Diagram :=
  if negb (PyStr.truthy (measurement_unit self))
     || PyStr.strip_is_empty (measurement_unit self)
  then Raise (field_error "measurement_unit"
                "Единица измерения обязательна для заполнения.")
  else Ok self.

(** [Diagram.clean] *)
Definition clean (self : Diagram) (objects : gmap Z Diagram) : result Diagram :=
  self ← _validate_active_limit self objects;
  _validate_measurement_unit self.

(** [Diagram.save]: the class defines none, so this is the inherited
    [Model.save], which validates nothing *)
Definition save (self : Diagram) (objects : gmap Z Diagram)
    : Diagram * gmap Z Diagram :=
  Model_save self objects.

(** The add and change views of [DiagramAdmin], as Django's admin runs
    them: the model form validates the instance, which runs [clean], and
    [DiagramAdmin.save_model] with [obj.save()] is reached only when nothing
    was raised.  The form's own field checks, which can only turn more saves
    down, are left out. *)
Definition form_save (obj : Diagram) (objects : gmap Z Diagram)
    : result Diagram * gmap Z Diagram :=
  match clean obj objects with
  | Ok obj' => let '(saved, objects') := Model_save obj' objects in (Ok saved, objects')
  | Raise e => (Raise e, objects)
  end.

(** the rows of the queryset the admin hands to an action, given by the keys
    of the selected rows in the order of the change list *)
Definition rows_of (selected : list Z) (objects : gmap Z Diagram) : list Diagram :=
  omap (fun k => set_pk (Some k) <$> objects !! k) selected.

(** [DiagramAdmin.make_active] *)
Definition make_active (selected : list Z) (objects : gmap Z Diagram)
    : gmap Z Diagram :=
  let active_count := count (filter_is_active true objects) in
  let available_slots := (Z.of_nat MAX_ACTIVE_DIAGRAMS - Z.of_nat active_count)%Z in
  if (available_slots <=? 0)%Z then objects
  else
    let inactive_diagrams :=
      List.filter (fun d => negb (is_active d)) (rows_of selected objects) in
    let to_activate := take (Z.to_nat available_slots) inactive_diagrams in
    foldl (fun objects diagram => (Model_save (set_is_active true diagram) objects).2)
          objects to_activate.

(** [DiagramAdmin.make_inactive]:
    [queryset.filter(is_active=True).update(is_active=False)]; the rows of
    the selection that are active are rewritten with the flag cleared. *)
Definition make_inactive (selected : list Z) (objects : gmap Z Diagram)
    : gmap Z Diagram :=
  foldl (fun objects k =>
           alter (fun d => if is_active d then set_is_active false d else d) k objects)
        objects selected.

(** what the admin can do to the table of diagrams *)
Inductive AdminAction : Type :=
| FormSave (obj : Diagram)
| MakeActive (selected : list Z)
| MakeInactive (selected : list Z)
| DeleteRow (k : Z).

Definition run_action (objects : gmap Z Diagram) (a : AdminAction) : gmap Z Diagram :=
  match a with
  | FormSave obj => (form_save obj objects).2
  | MakeActive selected => make_active selected objects
  | MakeInactive selected => make_inactive selected objects
  | DeleteRow k => delete k objects
  end.

Definition run_actions (actions : list AdminAction) (objects : gmap Z Diagram)
    : gmap Z Diagram :=
  foldl run_action objects actions.

(** the number of active diagrams *)
Abbreviation active_count objects := (count (filter_is_active true objects)).

(** the active diagrams other than [self] *)
Definition other_active (self : Diagram) (objects : gmap Z Diagram) : gmap Z Diagram :=
  filter (fun kv => is_active kv.2 = true /\ pk self <> Some kv.1) objects.

(** *** DiagramCategory *)

(** [diagram] is [diagram_id]; [value] is a Python float; either is None
    on an instance built without it *)
Record DiagramCategory := {
  cat_pk : option Z;
  diagram : option Z;
  name : string;
  value : option PrimFloat.float;
  color : string;
  cat_order : N
}.

Definition set_color (c : string) (self : DiagramCategory) : DiagramCategory :=
  {| cat_pk := cat_pk self; diagram := diagram self; name := name self;
     value := value self; color := c; cat_order := cat_order self |}.

Global Instance DiagramCategory_model : Model DiagramCategory := {|
  get_pk := cat_pk;
  set_pk k self :=
    {| cat_pk := k; diagram := diagram self; name := name self;
       value := value self; color := color self; cat_order := cat_order self |}
|}.

(** [[A-Fa-f0-9]] *)
Definition hex_digit (c : ascii) : bool :=
  PyStr.is_AF c || PyStr.is_af c || PyStr.isdigit c.

(** [^#([A-Fa-f0-9]{6}|[A-Fa-f0-9]{3})$] between its anchors *)
Definition color_pattern : Re.regex :=
  Re.Cat (Re.Chr "#")
         (Re.Alt (Re.Rep 6 (Re.Class hex_digit)) (Re.Rep 3 (Re.Class hex_digit))).

(** [f"#{c[1]}{c[1]}{c[2]}{c[2]}{c[3]}{c[3]}"] when [len(c) == 4] *)
Definition expand_short (c : string) : string :=
  match c with
  | String _ (String r (String g (String b EmptyString))) =>
      String "#" (String r (String r (String g (String g (String b (String b EmptyString))))))
  | _ => c
  end.

(** [DiagramCategory._validate_color] *)
Definition _validate_color (self : DiagramCategory) : result DiagramCategory :=
  if negb (Re.match_dollar color_pattern (color self)) then
    Raise (field_error "color"
             "Неверный формат цвета. Используйте HEX-формат: #FFFFFF или #FFF")
  else
    let self := if (PyStr.len (color self) =? 4)%nat
                then set_color (expand_short (color self)) self else self in
    Ok (set_color (PyStr.upper (color self)) self).

(** [DiagramCategory.clean] *)
Definition cat_clean (self : DiagramCategory) : result DiagramCategory :=
  _validate_color self.

(** the validators of the declared fields; [diagrams] is the table the
    foreign key points into *)
Definition cat_clean_fields (diagrams : gmap Z Diagram) (self : DiagramCategory)
    : gmap string (list string) :=
  foreign_key "diagram" "Диаграмма" (diagram self) diagrams
  ∪ char_field "name" 100 false (name self)
  ∪ float_field_min_zero "value" (value self)
  ∪ char_field "color" 7 false (color self)
  ∪ positive_integer_field "order" (cat_order self).

(** [DiagramCategory.save]: [full_clean] then the inherited save *)
Definition cat_save (diagrams : gmap Z Diagram) (self : DiagramCategory)
    (objects : gmap Z DiagramCategory)
    : result DiagramCategory * gmap Z DiagramCategory :=
  match full_clean (cat_clean_fields diagrams) cat_clean self with
  | Ok self' =>
      let '(saved, objects') := Model_save self' objects in (Ok saved, objects')
  | Raise e => (Raise e, objects)
  end.

(** a colour as the specification wants it stored: [#] and six digits
    of [0-9A-F] *)
Definition upper_hex_digit (c : ascii) : bool := PyStr.is_AF c || PyStr.isdigit c.

Definition is_six_digit_upper_hex (c : string) : bool :=
  match c with
  | String h rest =>
      Ascii.eqb h "#" && (PyStr.len rest =? 6)%nat && PyStr.forallb upper_hex_digit rest
  | EmptyString => false
  end.

End BusinessAnalytics.

(** ** The phone and e-mail patterns

    The same two literals occur in accounts/models.py, applications/models.py
    and contacts/models.py. *)

Module Patterns.

(** [\d] *)
Definition re_d (c : ascii) : bool := PyStr.isdigit c.

(** [[\d\+]], the characters the substitution keeps *)
Definition kept (c : ascii) : bool := re_d c || Ascii.eqb c "+".

(** [re.sub(r'[^\d\+]', '', s)]: every character that is neither a digit
    nor [+] is removed *)
Definition clean_phone (s : string) : string := PyStr.filter kept s.

(** [[\s\-]] *)
Definition sep (c : ascii) : bool := PyStr.isspace c || Ascii.eqb c "-".
(** [[489]] *)
Definition c489 (c : ascii) : bool :=
  Ascii.eqb c "4" || Ascii.eqb c "8" || Ascii.eqb c "9".
(** [[0-9]] *)
Definition d09 (c : ascii) : bool := PyStr.in_range 48 57 c.

(** [^(\+7|7|8)?[\s\-]?\(?[489][0-9]{2}\)?[\s\-]?[0-9]{3}[\s\-]?[0-9]{2}[\s\-]?[0-9]{2}$]
    between its anchors *)
Definition phone_regex : Re.regex :=
  Re.Cat (Re.Opt (Re.Alt (Re.Cat (Re.Chr "+") (Re.Chr "7"))
                         (Re.Alt (Re.Chr "7") (Re.Chr "8"))))
 (Re.Cat (Re.Opt (Re.Class sep))
 (Re.Cat (Re.Opt (Re.Chr "("))
 (Re.Cat (Re.Class c489)
 (Re.Cat (Re.Rep 2 (Re.Class d09))
 (Re.Cat (Re.Opt (Re.Chr ")"))
 (Re.Cat (Re.Opt (Re.Class sep))
 (Re.Cat (Re.Rep 3 (Re.Class d09))
 (Re.Cat (Re.Opt (Re.Class sep))
 (Re.Cat (Re.Rep 2 (Re.Class d09))
 (Re.Cat (Re.Opt (Re.Class sep))
         (Re.Rep 2 (Re.Class d09)))))))))))).

(** [[a-zA-Z0-9._%+-]] *)
Definition local_char (c : ascii) : bool :=
  PyStr.is_az c || PyStr.is_AZ c || d09 c
  || Ascii.eqb c "." || Ascii.eqb c "_" || Ascii.eqb c "%"
  || Ascii.eqb c "+" || Ascii.eqb c "-".
(** [[a-zA-Z0-9.-]] *)
Definition domain_char (c : ascii) : bool :=
  PyStr.is_az c || PyStr.is_AZ c || d09 c || Ascii.eqb c "." || Ascii.eqb c "-".
(** [[a-zA-Z]] *)
Definition alpha (c : ascii) : bool := PyStr.is_az c || PyStr.is_AZ c.

(** [^[a-zA-Z0-9._%+-]+@[a-zA-Z0-9.-]+\.[a-zA-Z]{2,}$] between its anchors *)
Definition email_regex : Re.regex :=
  Re.Cat (Re.Plus (Re.Class local_char))
 (Re.Cat (Re.Chr "@")
 (Re.Cat (Re.Plus (Re.Class domain_char))
 (Re.Cat (Re.Chr ".")
         (Re.AtLeast 2 (Re.Class alpha))))).

(** The phone number as the specification words it: every character but
    the digits and a leading [+] is removed. *)
Definition spec_normalize (s : string) : string :=
  match clean_phone s with
  | String c rest =>
      if Ascii.eqb c "+" then String c (PyStr.filter re_d rest)
      else PyStr.filter re_d (String c rest)
  | EmptyString => EmptyString
  end.

(** ... and the pattern it words: eleven digits that start with 7 or 8,
    or ten digits; a [+] may lead. *)
Definition spec_digits (s : string) : bool :=
  PyStr.forallb d09 s
  && ((PyStr.len s =? 10)%nat
      || ((PyStr.len s =? 11)%nat
          && match s with
             | String c _ => Ascii.eqb c "7" || Ascii.eqb c "8"
             | EmptyString => false
             end)).

Definition spec_russian_phone (s : string) : bool :=
  match s with
  | String c rest => if Ascii.eqb c "+" then spec_digits rest else spec_digits s
  | EmptyString => false
  end.

End Patterns.

(** ** applications/models.py and core/services.py *)

Module Applications.

(** the automatic timestamps of TimeStampedModel are read by none of the
    methods below and are left out of the record *)
Record Application := {
  pk : option Z;
  name : string;
  phone : string;
  email : string;
  message : string;
  status : string;
  manager_comment : string;
  processed_at : option Z          (* a point in time, or None *)
}.

Definition set_phone (p : string) (self : Application) : Application :=
  {| pk := pk self; name := name self; phone := p; email := email self;
     message := message self; status := status self;
     manager_comment := manager_comment self; processed_at := processed_at self |}.

Definition set_processed_at (t : option Z) (self : Application) : Application :=
  {| pk := pk self; name := name self; phone := phone self; email := email self;
     message := message self; status := status self;
     manager_comment := manager_comment self; processed_at := t |}.

Global Instance Application_model : Model Application := {|
  get_pk := pk;
  set_pk k self :=
    {| pk := k; name := name self; phone := phone self; email := email self;
       message := message self; status := status self;
       manager_comment := manager_comment self; processed_at := processed_at self |}
|}.

Definition STATUS_CHOICES : list string :=
  ["new"; "in_progress"; "processed"; "rejected"].

(** [Application._validate_phone] *)
Definition _validate_phone (self : Application) : result Application :=
  let clean_phone := Patterns.clean_phone (phone self) in
  if negb (Re.match_dollar Patterns.phone_regex clean_phone) then
    Raise (field_error "phone"
             "Введите корректный номер телефона в формате: +7 999 123-45-67")
  else Ok (set_phone clean_phone self).

(** [Application._validate_email] *)
Definition _validate_email (self : Application) : result Application :=
  if negb (Re.match_dollar Patterns.email_regex (email self)) then
    Raise (field_error "email" "Введите корректный email адрес")
  else Ok self.

(** [Application.clean] *)
Definition clean (self : Application) : result Application :=
  if negb (PyStr.truthy (phone self)) && negb (PyStr.truthy (email self)) then
    Raise (Message "Необходимо указать либо телефон, либо email адрес.")
  else
    self ← (if PyStr.truthy (phone self) then _validate_phone self else Ok self);
    if PyStr.truthy (email self) then _validate_email self else Ok self.

(** how a call of [EmailService.send_application_notification] ends *)
Inductive NotifyOutcome : Type :=
| Returned (sent : bool)
| Raised (exception : string).

(** what one call of [Application.save] did *)
Record SaveOutcome := {
  save_result : result Application;
  save_objects : gmap Z Application;
  save_notified : list Application;   (* notifications attempted *)
  save_logged : list string           (* lines of [logger.error] *)
}.

Section Save.

(** Django's [EmailValidator], run by the [EmailField] *)
Variable validate_email : string -> bool.

(** [EmailService.send_application_notification], see [Services] *)
Variable send_application_notification : Application -> NotifyOutcome.

(** the validators of the declared fields *)
Definition clean_fields (self : Application) : gmap string (list string) :=
  char_field "name" 100 false (name self)
  ∪ char_field "phone" 20 true (phone self)
  ∪ email_field validate_email "email" (email self)
  ∪ (if PyStr.truthy (message self) then ∅
     else {[ "message" := ["This field cannot be blank."] ]})
  ∪ (if negb (PyStr.truthy (status self)) then
       {[ "status" := ["This field cannot be blank."] ]}
     else if negb (Accounts.in_list (status self) STATUS_CHOICES) then
       {[ "status" := ["Value '" ++ status self ++ "' is not a valid choice."] ]}
     else char_field "status" 20 false (status self)).

Definition notification_error (self : Application) (e : string) : string :=
  "Ошибка отправки уведомления для заявки #"
  ++ match pk self with Some k => pretty k | None => "None" end
  ++ ": " ++ e.

(** [Application.save]; [now] is what [timezone.now()] returns *)
Definition save (now : Z) (self : Application) (objects : gmap Z Application)
    : SaveOutcome :=
  let is_new := negb (pk_truthy (pk self)) in
  let self :=
    if String.eqb (status self) "processed" && is_none (processed_at self)
    then set_processed_at (Some now) self
    else if negb (String.eqb (status self) "processed")
    then set_processed_at None self
    else self in
  match full_clean clean_fields clean self with
  | Raise e =>
      {| save_result := Raise e; save_objects := objects;
         save_notified := []; save_logged := [] |}
  | Ok self =>
      let '(self, objects) := Model_save self objects in
      if is_new then
        match send_application_notification self with
        | Returned _ =>
            {| save_result := Ok self; save_objects := objects;
               save_notified := [self]; save_logged := [] |}
        | Raised e =>
            {| save_result := Ok self; save_objects := objects;
               save_notified := [self];
               save_logged := [notification_error self e] |}
        end
      else
        {| save_result := Ok self; save_objects := objects;
           save_notified := []; save_logged := [] |}
  end.

End Save.

End Applications.

Module Services.

Import Applications.

(** the fields of [core.models.SiteSettings] the service reads *)
Record SiteSettings := {
  site_name : string;
  company_full_name : string;
  notification_emails : string;
  default_email_from : string
}.

(** [s.split(',')] *)
Fixpoint split_comma (s : string) : list string :=
  match s with
  | EmptyString => [EmptyString]
  | String c s' =>
      if Ascii.eqb c ","
      then EmptyString :: split_comma s'
      else match split_comma s' with
           | piece :: pieces => String c piece :: pieces
           | [] => [String c EmptyString]
           end
  end.

Fixpoint lstrip (s : string) : string :=
  match s with
  | EmptyString => EmptyString
  | String c s' => if PyStr.isspace c then lstrip s' else s
  end.

Fixpoint rstrip (s : string) : string :=
  match s with
  | EmptyString => EmptyString
  | String c s' =>
      match rstrip s' with
      | EmptyString => if PyStr.isspace c then EmptyString else String c EmptyString
      | r => String c r
      end
  end.

(** [s.strip()] *)
Definition strip (s : string) : string := rstrip (lstrip s).

(** [SiteSettings.get_notification_emails_list] *)
Definition get_notification_emails_list (self : SiteSettings) : list string :=
  if negb (PyStr.truthy (notification_emails self)) then []
  else List.filter PyStr.truthy (List.map strip (split_comma (notification_emails self))).

(** how [SiteSettings.objects.get()] ends *)
Inductive SettingsLookup : Type :=
| Found (site_settings : SiteSettings)
| DoesNotExist
| LookupRaised (exception : string).

(** the message handed to the mail transport (the rendered bodies are
    templating and are left out) *)
Record Mail := {
  subject : string;
  from_email : string;
  to : list string
}.

Section EmailService.

Variable site_settings_get : SettingsLookup.
(** Django's [validate_email] *)
Variable validate_email : string -> bool.
(** [getattr(settings, 'DEFAULT_FROM_EMAIL', settings.EMAIL_HOST_USER)] *)
Variable DEFAULT_FROM_EMAIL : string.
(** [get_connection] and [email.send()]: [None] when the mail went out,
    the exception otherwise *)
Variable transport : Mail -> option string.
(** whether the two calls of [render_to_string] return; when one raises (a
    template is missing) the bodies are built in the [except] branch *)
Variable templates_render : bool.
(** [application.created_at], a field the record leaves out: None on an
    instance that was never saved *)
Variable created_at : Application -> option Z.

(** what [application.created_at.strftime] raises on None *)
Definition strftime_error : string :=
  "'NoneType' object has no attribute 'strftime'".

(** [EmailService.send_application_notification], with the mail that
    went out.  An exception of [SiteSettings.objects.get()] other than
    DoesNotExist and one raised while the [except] branch builds the bodies
    are in no [try] and propagate. *)
Definition deliver (application : Application) : NotifyOutcome * list Mail :=
  match site_settings_get with
  | LookupRaised e => (Raised e, [])
  | DoesNotExist => (Returned false, [])
  | Found site_settings =>
      let recipient_list := get_notification_emails_list site_settings in
      match recipient_list with
      | [] => (Returned false, [])
      | _ =>
          let valid_recipients := List.filter validate_email recipient_list in
          match valid_recipients with
          | [] => (Returned false, [])
          | _ =>
              let subject :=
                "Новая заявка от " ++ name application ++ " - "
                ++ site_name site_settings in
              if negb templates_render && is_none (created_at application)
              then (Raised strftime_error, [])
              else
                let from_email :=
                  if PyStr.truthy (default_email_from site_settings)
                  then default_email_from site_settings else DEFAULT_FROM_EMAIL in
                let from_email :=
                  if validate_email from_email then from_email
                  else DEFAULT_FROM_EMAIL in
                let email := {| subject := strip subject; from_email := from_email;
                                to := valid_recipients |} in
                match transport email with
                | None => (Returned true, [email])
                | Some _ => (Returned false, [])
                end
          end
      end
  end.

Definition send_application_notification (application : Application)
    : NotifyOutcome :=
  (deliver application).1.

End EmailService.

End Services.

(** ** contacts/models.py *)

Module Contacts.

Record Phone := {
  pk : option Z;
  number : string;
  description : string;
  is_active : bool;
  order : N
}.

Definition set_number (n : string) (self : Phone) : Phone :=
  {| pk := pk self; number := n; description := description self;
     is_active := is_active self; order := order self |}.

Global Instance Phone_model : Model Phone := {|
  get_pk := pk;
  set_pk k self :=
    {| pk := k; number := number self; description := description self;
       is_active := is_active self; order := order self |}
|}.

(** [Phone._validate_phone] *)
Definition _validate_phone (self : Phone) : result Phone :=
  let clean_phone := Patterns.clean_phone (number self) in
  if negb (Re.match_dollar Patterns.phone_regex clean_phone) then
    Raise (field_error "number"
             "Введите корректный номер телефона в формате: +7 999 123-45-67")
  else Ok (set_number clean_phone self).

(** [Phone.clean] *)
Definition clean (self : Phone) : result Phone :=
  if PyStr.truthy (number self) then _validate_phone self else Ok self.

(** the validators of the declared fields; a [bool] always passes those of
    [is_active] *)
Definition clean_fields (self : Phone) : gmap string (list string) :=
  char_field "number" 20 false (number self)
  ∪ char_field "description" 100 true (description self)
  ∪ positive_integer_field "order" (order self).

(** [Phone.save] *)
Definition save (self : Phone) (objects : gmap Z Phone)
    : result Phone * gmap Z Phone :=
  match full_clean clean_fields clean self with
  | Ok self' =>
      let '(saved, objects') := Model_save self' objects in (Ok saved, objects')
  | Raise e => (Raise e, objects)
  end.

(** *** SocialMedia *)





Section SocialMediaClean.

(** Django's [URLValidator] *)
Variable URLValidator : string -> bool.


End SocialMediaClean.

End Contacts.

(** ** dynamic_pages/models.py *)

Module DynamicPages.

Record SectionImage := {
  pk : option Z;
  about_section : option Z;
  service_section : option Z;
  document_section : option Z;
  image : Z;
  order : N
}.

Global Instance SectionImage_model : Model SectionImage := {|
  get_pk := pk;
  set_pk k self :=
    {| pk := k; about_section := about_section self;
       service_section := service_section self;
       document_section := document_section self;
       image := image self; order := order self |}
|}.

(** [[s for s in sections if s is not None]] *)
Definition filled (sections : list (option Z)) : list Z :=
  omap id sections.

(** [SectionImage.clean] *)
Definition clean (self : SectionImage) : result SectionImage :=
  let sections := [about_section self; service_section self; document_section self] in
  let filled_sections := filled sections in
  if negb (length filled_sections =? 1)%nat then
    Raise (Message "Изображение должно быть привязано ровно к одной секции")
  else Ok self.

Record SectionFile := {
  f_pk : option Z;
  f_about_section : option Z;
  f_service_section : option Z;
  f_document_section : option Z;
  file : Z;
  f_order : N
}.

Global Instance SectionFile_model : Model SectionFile := {|
  get_pk := f_pk;
  set_pk k self :=
    {| f_pk := k; f_about_section := f_about_section self;
       f_service_section := f_service_section self;
       f_document_section := f_document_section self;
       file := file self; f_order := f_order self |}
|}.

(** [SectionFile.clean] *)
Definition f_clean (self : SectionFile) : result SectionFile :=
  let sections :=
    [f_about_section self; f_service_section self; f_document_section self] in
  let filled_sections := filled sections in
  if negb (length filled_sections =? 1)%nat then
    Raise (Message "Файл должен быть привязан ровно к одной секции")
  else Ok self.

(** [SectionImage.save] and [SectionFile.save]: neither class defines one,
    so each is the inherited [Model.save], which validates nothing *)
Definition save (self : SectionImage) (objects : gmap Z SectionImage)
    : SectionImage * gmap Z SectionImage :=
  Model_save self objects.

Definition f_save (self : SectionFile) (objects : gmap Z SectionFile)
    : SectionFile * gmap Z SectionFile :=
  Model_save self objects.

(** the parents of a row that are set *)
Definition parents_set (self : SectionImage) : nat :=
  length (filled [about_section self; service_section self; document_section self]).

Definition f_parents_set (self : SectionFile) : nat :=
  length (filled [f_about_section self; f_service_section self; f_document_section self]).

End DynamicPages.

(** ** Sample data *)

Module Samples.

Definition line_feed : string := String "010"%char EmptyString.

Definition crm_user : Accounts.User :=
  {| Accounts.username := "olga"; Accounts.role := "crm_manager" |}.

Definition content_user : Accounts.User :=
  {| Accounts.username := "ivan"; Accounts.role := "content_manager" |}.

Import BusinessAnalytics.

Definition dia (k : option Z) (active : bool) : Diagram :=
  {| pk := k; title := "Перевозки"; description := EmptyString; chart_type := "column";
     measurement_unit := "тонн"; is_active := active; order := 0 |}.

Definition two_active : gmap Z Diagram :=
  <[2%Z := dia (Some 2%Z) true]> (<[1%Z := dia (Some 1%Z) true]> ∅).

Definition three_saves : list AdminAction :=
  [FormSave (dia None true); FormSave (dia None true); FormSave (dia None true);
   MakeActive [3%Z]].

Import DynamicPages.

Definition img (a s d : option Z) : SectionImage :=
  {| DynamicPages.pk := None; about_section := a; service_section := s;
     document_section := d; image := 7; DynamicPages.order := 0 |}.

Definition sfile (a s d : option Z) : SectionFile :=
  {| f_pk := None; f_about_section := a; f_service_section := s;
     f_document_section := d; file := 9; f_order := 0 |}.

Import Applications.

Definition app0 : Application :=
  {| Applications.pk := None; name := "Анна"; phone := "+7 (999) 123-45-67"; email := EmptyString;
     message := "Нужен расчёт перевозки"; status := "processed";
     manager_comment := EmptyString; processed_at := None |}.

Definition app0_saved : Application :=
  {| Applications.pk := Some 1%Z; name := "Анна"; phone := "+79991234567"; email := EmptyString;
     message := "Нужен расчёт перевозки"; status := "processed";
     manager_comment := EmptyString; processed_at := Some 1000%Z |}.

Definition app1 : Application :=
  {| Applications.pk := Some 1%Z; name := "Анна"; phone := "+79991234567"; email := EmptyString;
     message := "Нужен расчёт перевозки"; status := "new";
     manager_comment := EmptyString; processed_at := Some 1000%Z |}.



Definition accepts_all (_ : string) : bool := true.
Definition notify_ok (_ : Application) : NotifyOutcome := Returned true.

Definition office_phone : Contacts.Phone :=
  {| Contacts.pk := None; Contacts.number := "8 (495) 123-45-67";
     Contacts.description := "Главный офис"; Contacts.is_active := true;
     Contacts.order := 0 |}.

Definition office_phone_clean : Contacts.Phone :=
  Contacts.set_number "84951234567" office_phone.

(** the row the first save of [office_phone] stores *)
Definition office_phone_saved : Contacts.Phone :=
  set_pk (Some 1%Z) office_phone_clean.

(** a category of diagram 1 with the value 2.0 *)
Definition category (c : string) : DiagramCategory :=
  {| cat_pk := None; diagram := Some 1%Z; BusinessAnalytics.name := "Уголь";
     value := Some PrimFloat.two; color := c; cat_order := 0 |}.





End Samples.

(** ** core/mixins.py: the tests of the view decorators and view mixins;
    accounts/models.py: module visibility *)

Module Views.

Import Mixins.

(** [getattr(u, 'role', None) == r] *)
Definition role_is (u : RequestUser) (r : string) : bool :=
  match role u with
  | Some x => String.eqb x r
  | None => false
  end.

(** [getattr(u, 'role', None) in roles] *)
Definition role_in (u : RequestUser) (roles : list string) : bool :=
  match role u with
  | Some x => Accounts.in_list x roles
  | None => false
  end.

(** the test of [admin_required], and [AdminRequiredMixin.test_func] *)
Definition admin_required (u : RequestUser) : bool :=
  is_authenticated u && is_staff u && role_is u "admin".

(** the test of [content_manager_required], and
    [ContentManagerRequiredMixin.test_func] *)
Definition content_manager_required (u : RequestUser) : bool :=
  is_authenticated u && is_staff u && role_in u ["admin"; "content_manager"].

(** the test of [crm_manager_required], and [CRMRequiredMixin.test_func] *)
Definition crm_manager_required (u : RequestUser) : bool :=
  is_authenticated u && is_staff u && role_in u ["admin"; "crm_manager"].

(** the test of [staff_required], and [StaffRequiredMixin.test_func] *)
Definition staff_required (u : RequestUser) : bool :=
  is_authenticated u && is_staff u.

End Views.

Module AccountsPerms.

Import Accounts.

(** [User.is_admin], [User.is_content_manager], [User.is_crm_manager] *)
Definition is_admin (u : User) : bool := String.eqb (role u) "admin".
Definition is_content_manager (u : User) : bool := String.eqb (role u) "content_manager".
Definition is_crm_manager (u : User) : bool := String.eqb (role u) "crm_manager".

(** [User.is_superuser] *)
Definition is_superuser (u : User) : bool := String.eqb (role u) "admin".

(** [User.has_module_perms] *)
Definition has_module_perms (u : User) (app_label : string) : bool :=
  if is_admin u then true
  else if is_crm_manager u then String.eqb app_label "applications"
  else if is_content_manager u then
    in_list app_label ["core"; "main_page"; "dynamic_pages";
                       "business_analytics"; "news"; "contacts"]
  else false.

(** the applications whose admin classes use ContentManagerAccessMixin *)
Definition content_apps : list string :=
  ["core"; "main_page"; "dynamic_pages"; "business_analytics"; "news"; "contacts"].

End AccountsPerms.

(** ** accounts/models.py: validation and saving of users *)

Module Users.

Record User := {
  pk : option Z;
  username : string;
  email : string;
  phone : string;
  role : string
}.

Definition set_username (n : string) (self : User) : User :=
  {| pk := pk self; username := n; email := email self;
     phone := phone self; role := role self |}.

Definition set_email (e : string) (self : User) : User :=
  {| pk := pk self; username := username self; email := e;
     phone := phone self; role := role self |}.

Definition set_phone (p : string) (self : User) : User :=
  {| pk := pk self; username := username self; email := email self;
     phone := p; role := role self |}.

Global Instance User_model : Model User := {|
  get_pk := pk;
  set_pk k self :=
    {| pk := k; username := username self; email := email self;
       phone := phone self; role := role self |}
|}.

(** [qs.exclude(pk=k)]; with [k] None the condition is [pk IS NULL], which
    holds of no row *)
Definition exclude_pk (k : option Z) (qs : gmap Z User) : gmap Z User :=
  match k with
  | Some k => delete k qs
  | None => qs
  end.

Section Clean.

(** [BaseUserManager.normalize_email] and [normalize_username], applied by
    [AbstractUser.clean] *)
Variable normalize_email : string -> string.
Variable normalize_username : string -> string.
(** [AbstractUser.get_full_name] *)
Variable get_full_name : User -> string.
(** [qs.first()]: the row the database puts first, None on an empty queryset *)
Variable first : gmap Z User -> option User.

(** [User._validate_email] *)
Definition _validate_email (self : User) (objects : gmap Z User) : result User :=
  if negb (Re.match_dollar Patterns.email_regex (email self)) then
    Raise (field_error "email" "Введите корректный email адрес")
  else
    let duplicate :=
      first (exclude_pk (pk self)
               (filter (fun kv => email kv.2 = email self) objects)) in
    match duplicate with
    | Some duplicate =>
        Raise (field_error "email"
                 ("Этот email уже используется пользователем: "
                  ++ get_full_name duplicate))
    | None => Ok self
    end.

(** [User._validate_phone] *)
Definition _validate_phone (self : User) : result User :=
  let clean_phone := Patterns.clean_phone (phone self) in
  if negb (Re.match_dollar Patterns.phone_regex clean_phone) then
    Raise (field_error "phone"
             "Введите корректный номер телефона в формате: +7 999 123-45-67")
  else Ok (set_phone clean_phone self).

(** [User._check_phone_duplicate] *)
Definition _check_phone_duplicate (self : User) (objects : gmap Z User) : result User :=
  if negb (PyStr.truthy (phone self)) then Ok self
  else
    let duplicate :=
      first (exclude_pk (pk self)
               (filter (fun kv => phone kv.2 = phone self) objects)) in
    match duplicate with
    | Some duplicate =>
        Raise (field_error "phone"
                 ("Этот телефон уже используется пользователем: "
                  ++ get_full_name duplicate))
    | None => Ok self
    end.

(** [User.clean]; [super().clean()] normalizes the user name and the e-mail *)
Definition clean (self : User) (objects : gmap Z User) : result User :=
  let self := set_username (normalize_username (username self)) self in
  let self := set_email (normalize_email (email self)) self in
  self ← (if PyStr.truthy (email self) then _validate_email self objects else Ok self);
  if PyStr.truthy (phone self) then
    self ← _validate_phone self;
    _check_phone_duplicate self objects
  else Ok self.

(** Django's own checks in [full_clean]: the field validators on the
    instance as given, the unique checks on the instance as [clean] left it *)
Variable django_checks_pass : User -> User -> gmap Z User -> bool.

(** [User.save]: [full_clean], then the inherited save; None stands for the
    ValidationError of [full_clean] *)
Definition save (self : User) (objects : gmap Z User) : option User * gmap Z User :=
  match clean self objects with
  | Ok self' =>
      if django_checks_pass self self' objects
      then let '(saved, objects') := Model_save self' objects in (Some saved, objects')
      else (None, objects)
  | Raise _ => (None, objects)
  end.

Definition run_saves (users : list User) (objects : gmap Z User) : gmap Z User :=
  foldl (fun objects u => (save u objects).2) objects users.

End Clean.

(** no two rows share a phone number that is set *)
Definition phones_unique (objects : gmap Z User) : Prop :=
  forall k1 k2 u1 u2,
    objects !! k1 = Some u1 -> objects !! k2 = Some u2 -> k1 <> k2 ->
    PyStr.truthy (phone u1) = true -> phone u1 <> phone u2.

(** no two rows share an e-mail address that is set *)
Definition emails_unique (objects : gmap Z User) : Prop :=
  forall k1 k2 u1 u2,
    objects !! k1 = Some u1 -> objects !! k2 = Some u2 -> k1 <> k2 ->
    PyStr.truthy (email u1) = true -> email u1 <> email u2.

(** a [first] for examples: the row of the least key *)
Definition first_by_key (qs : gmap Z User) : option User :=
  snd <$> head (map_to_list qs).

Definition sample_user (k : option Z) (name mail tel : string) : User :=
  {| pk := k; username := name; email := mail; phone := tel; role := "content_manager" |}.

End Users.

(** ** business_analytics: the limit as the admin shows it *)

Module DiagramAdmin.

Import BusinessAnalytics.

(** [Diagram.is_max_active_reached] *)
Definition is_max_active_reached (self : Diagram) (objects : gmap Z Diagram) : bool :=
  let active_count := Z.of_nat (count (filter_is_active true objects)) in
  let active_count :=
    if pk_truthy (pk self) && is_active self then (active_count - 1)%Z
    else active_count in
  (Z.of_nat MAX_ACTIVE_DIAGRAMS <=? active_count)%Z.

(** the test of [DiagramAdmin.get_readonly_fields] (and of [get_form]):
    [obj and obj.is_max_active_reached and not obj.is_active]; [obj] is None
    on the add view *)
Definition is_active_read_only (obj : option Diagram) (objects : gmap Z Diagram) : bool :=
  match obj with
  | Some obj => is_max_active_reached obj objects && negb (is_active obj)
  | None => false
  end.

(** a diagram passes [_validate_measurement_unit] *)
Definition unit_given (d : Diagram) : bool :=
  is_ok (_validate_measurement_unit d).

(** clearing the flag of a row, as [make_inactive] does *)
Definition deactivate (d : Diagram) : Diagram :=
  if is_active d then set_is_active false d else d.

(** the rows [make_active] writes: inactive rows of the selection, with the
    flag set *)
Definition activated_from (objects : gmap Z Diagram) (selected : list Z) (k : Z)
    (row' : Diagram) : Prop :=
  exists row, objects !! k = Some row /\ is_active row = false /\ k ∈ selected
              /\ row' = set_is_active true (set_pk (Some k) row).

End DiagramAdmin.

(** ** applications: the bulk actions of the admin, the message preview;
    the shapes of accepted phone numbers and addresses *)

Module ApplicationAdmin.

Import Applications.

Definition set_status (s : string) (t : option Z) (self : Application) : Application :=
  {| pk := pk self; name := name self; phone := phone self; email := email self;
     message := message self; status := s;
     manager_comment := manager_comment self; processed_at := t |}.

(** [queryset.update(...)] on the selected rows *)
Definition queryset_update (f : Application -> Application) (selected : list Z)
    (objects : gmap Z Application) : gmap Z Application :=
  foldl (fun objects k => alter f k objects) objects selected.

(** [ApplicationAdmin.mark_as_new] *)
Definition mark_as_new := queryset_update (set_status "new" None).
(** [ApplicationAdmin.mark_in_progress] *)
Definition mark_in_progress := queryset_update (set_status "in_progress" None).
(** [ApplicationAdmin.mark_processed]; [now] is what [tz.now()] returns *)
Definition mark_processed (now : Z) := queryset_update (set_status "processed" (Some now)).
(** [ApplicationAdmin.mark_rejected] *)
Definition mark_rejected := queryset_update (set_status "rejected" None).

(** what is done to the table of inquiries *)
Inductive Action : Type :=
| Save (now : Z) (self : Application)
| MarkNew (selected : list Z)
| MarkInProgress (selected : list Z)
| MarkProcessed (now : Z) (selected : list Z)
| MarkRejected (selected : list Z).

Section Run.

Variable validate_email : string -> bool.
Variable send_application_notification : Application -> NotifyOutcome.

Definition run_action (objects : gmap Z Application) (a : Action) : gmap Z Application :=
  match a with
  | Save now self =>
      save_objects (save validate_email send_application_notification now self objects)
  | MarkNew selected => mark_as_new selected objects
  | MarkInProgress selected => mark_in_progress selected objects
  | MarkProcessed now selected => mark_processed now selected objects
  | MarkRejected selected => mark_rejected selected objects
  end.

Definition run_actions (actions : list Action) (objects : gmap Z Application)
    : gmap Z Application :=
  foldl run_action objects actions.

End Run.

(** a row is stamped exactly when it is processed *)
Definition stamp_consistent (row : Application) : Prop :=
  is_Some (processed_at row) <-> status row = "processed".

(** [Application.message_preview] *)
Definition message_preview (self : Application) : string :=
  if PyStr.truthy (message self) then
    if (50 <? PyStr.len (message self))%nat
    then String.substring 0 50 (message self) ++ "..."
    else message self
  else EmptyString.

End ApplicationAdmin.

Module Shapes.

Import Patterns.

(** ten digits, the first of them 4, 8 or 9 *)
Definition national (s : string) : bool :=
  (PyStr.len s =? 10)%nat && PyStr.forallb d09 s
  && match s with
     | String c _ => c489 c
     | EmptyString => false
     end.

(** a national number, bare or after [+7], [7] or [8] *)
Definition accepted_shape (s : string) : bool :=
  national s
  || match s with
     | String c rest =>
         (Ascii.eqb c "7" || Ascii.eqb c "8") && national rest
         || (Ascii.eqb c "+"
             && match rest with
                | String c' rest' => Ascii.eqb c' "7" && national rest'
                | EmptyString => false
                end)
     | EmptyString => false
     end.

(** how often a character occurs in a string *)
Fixpoint count_char (c : ascii) (s : string) : nat :=
  match s with
  | EmptyString => 0
  | String x s' => (if Ascii.eqb x c then 1 else 0) + count_char c s'
  end.

End Shapes.

Module MoreSamples.

Definition inquiry_by_mail : Applications.Application :=
  {| Applications.pk := None; Applications.name := "Anna";
     Applications.phone := EmptyString; Applications.email := "anna@example.ru";
     Applications.message := "call me"; Applications.status := "new";
     Applications.manager_comment := EmptyString; Applications.processed_at := None |}.

End MoreSamples.

(** ** contacts/models.py: how a phone number and an address are shown *)

Module ContactsDisplay.

Import Contacts.

(** [s[i:j]] for [0 <= i <= j] *)
Definition slice (i j : nat) (s : string) : string := String.substring i (j - i) s.

(** [s[i:]] *)
Definition slice_from (i : nat) (s : string) : string :=
  String.substring i (String.length s - i) s.

(** [Phone.formatted_number]; [re.sub(r'\D', '', number)] keeps the digits *)
Definition formatted_number (self : Phone) : string :=
  let digits := PyStr.filter Patterns.re_d (number self) in
  if (PyStr.len digits =? 11)%nat && String.prefix "7" digits then
    "+7 (" ++ slice 1 4 digits ++ ") " ++ slice 4 7 digits ++ "-"
    ++ slice 7 9 digits ++ "-" ++ slice_from 9 digits
  else if (PyStr.len digits =? 10)%nat then
    "+7 (" ++ slice 0 3 digits ++ ") " ++ slice 3 6 digits ++ "-"
    ++ slice 6 8 digits ++ "-" ++ slice_from 8 digits
  else number self.

(** the fields of [Address] its methods read *)
Record Address := {
  text : string;
  map_link : string
}.

(** [Address.short_address] *)
Definition short_address (self : Address) : string :=
  if (50 <? PyStr.len (text self))%nat
  then slice 0 47 (text self) ++ "..."
  else text self.

(** the last ten characters of a string of at least ten *)
Definition last_ten (s : string) : string :=
  String.substring (String.length s - 10) 10 s.

End ContactsDisplay.

(** ** dynamic_pages/models.py: the section of an image or a file *)

Module SectionLookup.

Import DynamicPages.

(** a section, by the model it belongs to and its key; a model instance is
    always truthy *)
Inductive Section : Type :=
| AboutSection (id : Z)
| ServiceSection (id : Z)
| DocumentSection (id : Z).

(** [SectionImage.get_section] *)
Definition get_section (self : SectionImage) : option Section :=
  match about_section self with
  | Some s => Some (AboutSection s)
  | None =>
      match service_section self with
      | Some s => Some (ServiceSection s)
      | None =>
          match document_section self with
          | Some s => Some (DocumentSection s)
          | None => None
          end
      end
  end.

(** [SectionImage.get_page_type] *)
Definition get_page_type (self : SectionImage) : option string :=
  match get_section self with
  | Some _ =>
      if bool_decide (is_Some (about_section self)) then Some "about"
      else if bool_decide (is_Some (service_section self)) then Some "services"
      else if bool_decide (is_Some (document_section self)) then Some "documents"
      else None
  | None => None
  end.

(** [SectionFile.get_section] *)
Definition f_get_section (self : SectionFile) : option Section :=
  match f_about_section self with
  | Some s => Some (AboutSection s)
  | None =>
      match f_service_section self with
      | Some s => Some (ServiceSection s)
      | None =>
          match f_document_section self with
          | Some s => Some (DocumentSection s)
          | None => None
          end
      end
  end.

(** [SectionFile.get_page_type] *)
Definition f_get_page_type (self : SectionFile) : option string :=
  match f_get_section self with
  | Some _ =>
      if bool_decide (is_Some (f_about_section self)) then Some "about"
      else if bool_decide (is_Some (f_service_section self)) then Some "services"
      else if bool_decide (is_Some (f_document_section self)) then Some "documents"
      else None
  | None => None
  end.

End SectionLookup.

(** ** core/models.py: entries of the notification list *)

Module Recipients.

Import Services.

(** an entry as the list holds it: not empty, no comma, no white space
    at either end *)
Definition plain (entry : string) : Prop :=
  PyStr.truthy entry = true
  /\ Shapes.count_char "," entry = 0
  /\ strip entry = entry.

(** [', '.join(entries)] *)
Definition join (entries : list string) : string := String.concat ", " entries.

Definition sample_settings : SiteSettings :=
  {| site_name := "Ugol-Trans"; company_full_name := "Ugol-Trans LLC";
     notification_emails := "sales@example.ru, office@example.ru";
     default_email_from := EmptyString |}.

End Recipients.

(** * Properties *)

(** ** Strings *)

Module PyStrFacts.

Import PyStr.

Lemma append_nil_r (s : string) : s ++ EmptyString = s.
Proof. induction s as [|c s IH]; simpl; [reflexivity | now rewrite IH]. Qed.

Lemma append_assoc (s1 s2 s3 : string) : (s1 ++ s2) ++ s3 = s1 ++ (s2 ++ s3).
Proof. induction s1 as [|c s1 IH]; simpl; [reflexivity | now rewrite IH]. Qed.

Lemma append_eq_nil (s1 s2 : string) :
  s1 ++ s2 = EmptyString -> s1 = EmptyString /\ s2 = EmptyString.
Proof. destruct s1; simpl; [auto | discriminate]. Qed.

Lemma forallb_filter (p : ascii -> bool) (s : string) :
  forallb p (filter p s) = true.
Proof.
  induction s as [|c s IH]; simpl; [reflexivity |].
  destruct (p c) eqn:Hc; simpl; [rewrite Hc |]; exact IH.
Qed.

Lemma filter_id (p : ascii -> bool) (s : string) :
  forallb p s = true -> filter p s = s.
Proof.
  induction s as [|c s IH]; simpl; [reflexivity |].
  intros [Hc Hs]%andb_prop. rewrite Hc. f_equal. exact (IH Hs).
Qed.

Lemma filter_idempotent (p : ascii -> bool) (s : string) :
  filter p (filter p s) = filter p s.
Proof. apply filter_id, forallb_filter. Qed.

Lemma forallb_impl (p q : ascii -> bool) (s : string) :
  (forall c, p c = true -> q c = true) -> forallb p s = true -> forallb q s = true.
Proof.
  intros Hpq. induction s as [|c s IH]; simpl; [reflexivity |].
  intros [Hc Hs]%andb_prop. rewrite (Hpq _ Hc). exact (IH Hs).
Qed.

(** a string without line feed does not end in one *)
Lemma chop_newline_none (p : ascii -> bool) (s : string) :
  p "010"%char = false -> forallb p s = true -> chop_newline s = None.
Proof.
  intros Hnl. induction s as [|c s IH]; simpl; [reflexivity |].
  intros [Hc Hs]%andb_prop. destruct s as [|d s'].
  - destruct (Ascii.eqb c "010") eqn:E; [| reflexivity].
    apply Ascii.eqb_eq in E. congruence.
  - rewrite (IH Hs). reflexivity.
Qed.

End PyStrFacts.

(** ** The matcher decides the words of a pattern *)

Module ReFacts.

Import Re PyStrFacts.

Lemma nullable_lang (r : regex) : nullable r = true <-> lang r EmptyString.
Proof.
  induction r as [| | p | r1 IH1 r2 IH2 | r1 IH1 r2 IH2 | r IH]; simpl.
  - split; [discriminate | tauto].
  - tauto.
  - split; [discriminate | intros (c & H & _); discriminate].
  - rewrite andb_true_iff, IH1, IH2. split.
    + intros [H1 H2]. now exists EmptyString, EmptyString.
    + intros (s1 & s2 & E & H1 & H2).
      symmetry in E. apply append_eq_nil in E as [-> ->]. tauto.
  - rewrite orb_true_iff, IH1, IH2. tauto.
  - split; [intros _; constructor | reflexivity].
Qed.

Lemma deriv_lang (c : ascii) (r : regex) (s : string) :
  lang (deriv c r) s <-> lang r (String c s).
Proof.
  revert s.
  induction r as [| | p | r1 IH1 r2 IH2 | r1 IH1 r2 IH2 | r IH]; intros s; simpl.
  - tauto.
  - split; [tauto | discriminate].
  - destruct (p c) eqn:Hc; simpl; split.
    + intros ->. now exists c.
    + intros (c' & E & _). now injection E.
    + tauto.
    + intros (c' & E & Hc'). injection E as <- _. congruence.
  - assert (Hcat : (exists s1 s2, s = s1 ++ s2 /\ lang (deriv c r1) s1 /\ lang r2 s2)
                   <-> (exists s1 s2, String c s = String c s1 ++ s2
                                      /\ lang r1 (String c s1) /\ lang r2 s2)).
    { split; intros (s1 & s2 & E & H1 & H2); exists s1, s2.
      - subst s. repeat split; [now apply IH1 | exact H2].
      - injection E as ->. repeat split; [now apply IH1 | exact H2]. }
    destruct (nullable r1) eqn:Hn; simpl.
    + rewrite Hcat, IH2. split.
      * intros [(s1 & s2 & E & H1 & H2) | H2].
        -- now exists (String c s1), s2.
        -- exists EmptyString, (String c s). repeat split; [| exact H2].
           now apply nullable_lang.
      * intros ([|c' s1] & s2 & E & H1 & H2).
        -- simpl in E. subst s2. now right.
        -- injection E as <- E. left. exists s1, s2. subst s. now repeat split.
    + rewrite Hcat. split.
      * intros (s1 & s2 & E & H1 & H2). now exists (String c s1), s2.
      * intros ([|c' s1] & s2 & E & H1 & H2).
        -- apply nullable_lang in H1. congruence.
        -- injection E as <- E. exists s1, s2. subst s. now repeat split.
  - rewrite IH1, IH2. tauto.
  - split.
    + intros (s1 & s2 & -> & H1 & H2).
      apply IH in H1. exact (star_app _ c s1 s2 H1 H2).
    + intros H. inversion H as [| c' s1 s2 H1 H2]; subst.
      exists s1, s2. repeat split; [now apply IH | exact H2].
Qed.

Theorem fullmatch_lang (r : regex) (s : string) :
  fullmatch r s = true <-> lang r s.
Proof.
  revert r. induction s as [|c s IH]; intros r; simpl.
  - apply nullable_lang.
  - rewrite IH. apply deriv_lang.
Qed.

(** [match_dollar] on a string that holds no line feed *)
Lemma match_dollar_no_newline (p : ascii -> bool) (r : regex) (s : string) :
  p "010"%char = false -> PyStr.forallb p s = true ->
  match_dollar r s = fullmatch r s.
Proof.
  intros Hnl Hs. unfold match_dollar.
  rewrite (chop_newline_none p s Hnl Hs). apply orb_false_r.
Qed.

End ReFacts.

(** ** The phone pattern on a cleaned number *)

Module PatternFacts.

Import Patterns PyStr PyStrFacts Re ReFacts.

Ltac by_cases_on_char c :=
  destruct c as [[] [] [] [] [] [] [] []]; vm_compute; congruence.

Lemma sep_not_kept (c : ascii) : sep c = true -> kept c = false.
Proof. by_cases_on_char c. Qed.

Lemma c489_d09 (c : ascii) : c489 c = true -> d09 c = true.
Proof. by_cases_on_char c. Qed.

Lemma c489_not_plus (c : ascii) : c489 c = true -> Ascii.eqb c "+" = false.
Proof. by_cases_on_char c. Qed.

Lemma d09_re_d (c : ascii) : d09 c = true -> re_d c = true.
Proof. by_cases_on_char c. Qed.

Lemma kept_newline : kept "010"%char = false.
Proof. reflexivity. Qed.

Ltac open_lang :=
  repeat match goal with
    | H : exists _, _ |- _ => destruct H
    | H : _ /\ _ |- _ => destruct H
    | H : _ \/ _ |- _ => destruct H
    | H : False |- _ => destruct H
    end.

Lemma kept_paren_l : kept "("%char = false.
Proof. reflexivity. Qed.

Lemma kept_paren_r : kept ")"%char = false.
Proof. reflexivity. Qed.

Ltac split_kept H :=
  cbn [String.append forallb] in H;
  repeat match type of H with
    | (_ && _) = true => let H1 := fresh "K" in apply andb_prop in H as [H1 H]
    end.

Ltac absurd_kept :=
  match goal with
  | S : sep ?x = true, K : kept ?x = true |- _ =>
      rewrite (sep_not_kept x S) in K; discriminate K
  | K : kept "("%char = true |- _ => discriminate K
  | K : kept ")"%char = true |- _ => discriminate K
  end.

Lemma phone_regex_shape (s : string) :
  lang phone_regex s -> forallb kept s = true -> spec_russian_phone s = true.
Proof.
  unfold phone_regex, Opt, Chr. cbn [lang Rep]. intros H Hk.
  open_lang; subst;
    repeat match goal with
      | H : Ascii.eqb _ _ = true |- _ => apply Ascii.eqb_eq in H; subst
      end;
    split_kept Hk; try absurd_kept.
  all: repeat match goal with
    | H : c489 ?x = true |- _ =>
        pose proof (c489_not_plus x H); apply c489_d09 in H
    end.
  all: unfold spec_russian_phone, spec_digits;
       cbn [String.append forallb len String.length Nat.eqb].
  all: repeat match goal with
    | H : Ascii.eqb ?x "+" = false |- _ => rewrite H
    | H : d09 ?x = true |- _ => rewrite H; clear H
    end.
  all: reflexivity.
Qed.

Lemma clean_phone_kept (raw : string) : forallb kept (clean_phone raw) = true.
Proof. exact (forallb_filter kept raw). Qed.

(** what acceptance of a cleaned number entails *)
Lemma accepted_phone (raw : string) :
  match_dollar phone_regex (clean_phone raw) = true ->
  spec_russian_phone (clean_phone raw) = true
  /\ spec_normalize raw = clean_phone raw
  /\ clean_phone (clean_phone raw) = clean_phone raw.
Proof.
  intros Hm.
  rewrite (match_dollar_no_newline kept _ _ kept_newline (clean_phone_kept raw)) in Hm.
  apply fullmatch_lang in Hm.
  pose proof (phone_regex_shape _ Hm (clean_phone_kept raw)) as Hshape.
  split; [exact Hshape |]. split.
  - unfold spec_normalize. unfold spec_russian_phone in Hshape.
    destruct (clean_phone raw) as [|c rest]; [reflexivity |].
    destruct (Ascii.eqb c "+").
    + apply andb_prop in Hshape as [Hd _]. f_equal.
      apply filter_id. exact (forallb_impl _ _ _ d09_re_d Hd).
    + apply andb_prop in Hshape as [Hd _].
      apply filter_id. exact (forallb_impl _ _ _ d09_re_d Hd).
  - exact (filter_idempotent kept raw).
Qed.

End PatternFacts.

(** ** Access policy (core/mixins.py) *)

Module AccessFacts.

Import Mixins Samples.

Lemma role_gated_can (allowed : list string) (op : Operation) (request : HttpRequest) :
  can (role_gated allowed) op request = _has_role_permission request allowed.
Proof. destruct op; reflexivity. Qed.

Lemma no_role_no_permission (request : HttpRequest) (allowed : list string) :
  get_user_role request = None -> _has_role_permission request allowed = false.
Proof. unfold _has_role_permission. now intros ->. Qed.

(** a logged-in user of the accounts model resolves to the stored role
    exactly when that role is one of the three staff roles *)
Lemma get_user_role_of_user (u : Accounts.User) :
  get_user_role (request_of u)
  = if Accounts.is_staff u then Some (Accounts.role u) else None.
Proof. unfold get_user_role, request_of. simpl. now destruct (Accounts.is_staff u). Qed.

(** C1. The decision of the access mixins follows the table of the
    specification, for each of view, add, change and delete: a request
    whose resolved role is crm_manager is denied on the content classes
    (ContentManagerAccessMixin) and allowed on the applications class
    (ApplicationsCRMAccessMixin); one whose resolved role is
    content_manager is denied on the applications class; one whose resolved
    role is None (not authenticated, or not staff) is denied by every
    mixin class. *)
Theorem access_decision_table (request : HttpRequest) (op : Operation) :
  (get_user_role request = Some "crm_manager" ->
     can ContentManagerAccessMixin op request = false
     /\ can ApplicationsCRMAccessMixin op request = true)
  /\ (get_user_role request = Some "content_manager" ->
        can ApplicationsCRMAccessMixin op request = false)
  /\ (get_user_role request = None ->
        forall m, In m all_mixins -> can m op request = false).
Proof.
  split; [| split].
  - intros Hrole. unfold ContentManagerAccessMixin, ApplicationsCRMAccessMixin.
    rewrite !role_gated_can. unfold _has_role_permission. rewrite Hrole.
    split; reflexivity.
  - intros Hrole. unfold ApplicationsCRMAccessMixin.
    rewrite role_gated_can. unfold _has_role_permission. now rewrite Hrole.
  - intros Hrole m Hm. simpl in Hm.
    destruct Hm as [<- | [<- | [<- | [<- | [<- | []]]]]];
      destruct op; simpl; try reflexivity;
      now apply no_role_no_permission.
Qed.

(** the table on a crm manager, a content manager and an anonymous visitor *)
Lemma access_decision_table_witness :
  (can ContentManagerAccessMixin Delete (request_of crm_user) = false
   /\ can ApplicationsCRMAccessMixin Delete (request_of crm_user) = true)
  /\ can ApplicationsCRMAccessMixin View (request_of content_user) = false
  /\ can AdminOnlyAccessMixin Add anonymous_request = false.
Proof.
  split; [| split].
  - exact (proj1 (access_decision_table (request_of crm_user) Delete) eq_refl).
  - exact (proj1 (proj2 (access_decision_table (request_of content_user) View)) eq_refl).
  - apply (proj2 (proj2 (access_decision_table anonymous_request Add)) eq_refl).
    simpl. auto.
Defined.


End AccessFacts.

(** ** Saving through Django *)

Module DjangoFacts.

Lemma next_pk_bound {M} (objects : gmap Z M) (k : Z) :
  is_Some (objects !! k) -> (k < next_pk objects)%Z.
Proof.
  unfold next_pk.
  assert (Hb : forall k, is_Some (objects !! k) ->
               (k <= map_fold (fun k _ acc => Z.max k acc) 0 objects)%Z);
    [| intros Hk; specialize (Hb k Hk); lia].
  apply (map_fold_weak_ind
           (fun r (m : gmap Z M) => forall k, is_Some (m !! k) -> (k <= r)%Z)).
  - intros j [x Hx]. now rewrite lookup_empty in Hx.
  - intros i x m r Hi IH j Hj.
    destruct (decide (i = j)) as [<- | Hne]; [lia |].
    rewrite lookup_insert_ne in Hj by exact Hne.
    specialize (IH j Hj). lia.
Qed.

(** the key handed out next is not in use, and is never 0 *)
Lemma next_pk_fresh {M} (objects : gmap Z M) : objects !! next_pk objects = None.
Proof.
  destruct (objects !! next_pk objects) eqn:E; [| reflexivity].
  pose proof (next_pk_bound objects (next_pk objects) (mk_is_Some _ _ E)). lia.
Qed.

Lemma next_pk_positive {M} (objects : gmap Z M) : (0 < next_pk objects)%Z.
Proof.
  unfold next_pk.
  assert (0 <= map_fold (fun k (_ : M) acc => Z.max k acc) 0 objects)%Z; [| lia].
  apply (map_fold_weak_ind (fun r (m : gmap Z M) => (0 <= r)%Z)); intros; lia.
Qed.

(** a union of error maps is empty only when both are *)
Lemma union_empty_inv (m1 m2 : gmap string (list string)) :
  m1 ∪ m2 = ∅ -> m1 = ∅ /\ m2 = ∅.
Proof.
  intros H. assert (H1 : m1 = ∅) by exact (map_positive_l m1 m2 H).
  split; [exact H1 |]. rewrite H1 in H. now rewrite (left_id_L ∅ (∪)) in H.
Qed.

Lemma singleton_not_empty (field : string) (messages : list string) :
  ({[ field := messages ]} : gmap string (list string)) <> ∅.
Proof.
  intros H. apply (f_equal (fun m => m !! field)) in H.
  rewrite lookup_singleton_eq, lookup_empty in H. discriminate.
Qed.

(** a [CharField] that passes: not blank unless that is allowed, and within
    its length *)
Lemma char_field_empty (field : string) (max_length : nat) (blank : bool)
    (value : string) :
  char_field field max_length blank value = ∅ ->
  (PyStr.truthy value = true \/ blank = true)
  /\ PyStr.len value <= max_length.
Proof.
  unfold char_field. destruct (PyStr.truthy value) eqn:Ht; cbn [negb].
  - destruct (max_length <? PyStr.len value)%nat eqn:E.
    + intros H. now apply singleton_not_empty in H.
    + intros _. apply Nat.ltb_ge in E. auto.
  - destruct blank; [| intros H; now apply singleton_not_empty in H].
    intros _. split; [auto |]. destruct value; [cbn; lia | discriminate].
Qed.

(** [full_clean] returns what [clean] returned *)
Lemma full_clean_ok {M} (clean_fields : M -> gmap string (list string))
    (clean : M -> result M) (self self' : M) :
  full_clean clean_fields clean self = Ok self' ->
  clean self = Ok self' /\ clean_fields self = ∅.
Proof.
  unfold full_clean. destruct (clean self) as [s |]; [| discriminate].
  destruct (decide (clean_fields self = ∅)); [| discriminate].
  intros [= <-]. auto.
Qed.

(** [Model.save] stores the instance under its key *)
Lemma Model_save_stored {M} `{Model M} (self saved : M) (objects objects' : gmap Z M) :
  (forall k s, get_pk (set_pk k s) = k) ->
  Model_save self objects = (saved, objects') ->
  exists k, get_pk saved = Some k /\ objects' !! k = Some saved
            /\ objects' = <[k := saved]> objects
            /\ (get_pk self = None -> objects !! k = None /\ saved = set_pk (Some k) self)
            /\ (forall k0, get_pk self = Some k0 -> k = k0 /\ saved = self).
Proof.
  intros Hget. unfold Model_save. destruct (get_pk self) as [k |] eqn:Hk.
  - intros [= <- <-]. exists k. rewrite lookup_insert_eq.
    repeat split; congruence.
  - intros [= <- <-]. exists (next_pk objects).
    rewrite Hget, lookup_insert_eq.
    repeat split; try discriminate; try reflexivity. apply next_pk_fresh.
Qed.

End DjangoFacts.

(** ** The limit on active diagrams (business_analytics) *)

Module DiagramFacts.

Import BusinessAnalytics Samples.

Implicit Types (objects : gmap Z Diagram) (d obj : Diagram) (k : Z).

Lemma count_delete_le (m : gmap Z Diagram) k : size (delete k m) <= size m.
Proof. apply map_subseteq_size, delete_subseteq. Qed.

Lemma active_count_insert objects k d :
  active_count (<[k := d]> objects)
  = if is_active d then S (size (delete k (filter_is_active true objects)))
    else size (delete k (filter_is_active true objects)).
Proof.
  unfold count, filter_is_active.
  destruct (is_active d) eqn:Hd.
  - rewrite map_filter_insert_True by exact Hd.
    rewrite <- insert_delete_eq.
    rewrite map_size_insert_None by apply lookup_delete_eq. reflexivity.
  - rewrite map_filter_insert_False by (simpl; congruence).
    now rewrite map_filter_delete.
Qed.

Lemma active_count_insert_le objects k d :
  active_count (<[k := d]> objects) <= S (active_count objects).
Proof.
  rewrite active_count_insert. unfold count.
  pose proof (count_delete_le (filter_is_active true objects) k).
  destruct (is_active d); lia.
Qed.

Lemma active_count_insert_inactive objects k d :
  is_active d = false -> active_count (<[k := d]> objects) <= active_count objects.
Proof.
  intros Hd. rewrite active_count_insert, Hd. apply count_delete_le.
Qed.

Lemma active_count_delete objects k :
  active_count (delete k objects) <= active_count objects.
Proof.
  unfold count, filter_is_active. rewrite map_filter_delete. apply count_delete_le.
Qed.

Lemma diagram_clean_ok obj objects obj' :
  clean obj objects = Ok obj' ->
  obj' = obj
  /\ (is_active obj = true -> count (active_qs obj objects) < MAX_ACTIVE_DIAGRAMS).
Proof.
  unfold clean, _validate_active_limit, _validate_measurement_unit.
  destruct (is_active obj) eqn:Ha.
  - destruct (MAX_ACTIVE_DIAGRAMS <=? count (active_qs obj objects))%nat eqn:Hc;
      simpl; [discriminate |].
    apply Nat.leb_gt in Hc.
    destruct (_ || _); [discriminate |]. intros [= <-]. split; [reflexivity | auto].
  - simpl. destruct (_ || _); [discriminate |]. intros [= <-]. split; [reflexivity | discriminate].
Qed.

Lemma form_save_keeps_limit obj objects :
  active_count objects <= MAX_ACTIVE_DIAGRAMS ->
  active_count (form_save obj objects).2 <= MAX_ACTIVE_DIAGRAMS.
Proof.
  intros Hinv. unfold form_save.
  destruct (clean obj objects) as [obj' | e] eqn:Hclean; [| exact Hinv].
  apply diagram_clean_ok in Hclean as [-> Hlim].
  unfold Model_save, active_qs in *. simpl in *.
  destruct (is_active obj) eqn:Ha.
  - specialize (Hlim eq_refl).
    destruct (pk obj) as [k |] eqn:Hpk; simpl.
    + rewrite active_count_insert, Ha.
      destruct (pk_truthy (Some k)).
      * unfold exclude_pk, count in Hlim. lia.
      * pose proof (count_delete_le (filter_is_active true objects) k).
        unfold count in Hlim. lia.
    + rewrite active_count_insert. simpl. rewrite ?Ha. simpl in Hlim.
      pose proof (count_delete_le (filter_is_active true objects) (next_pk objects)).
      unfold count in Hlim. lia.
  - destruct (pk obj) as [k |]; simpl.
    + etransitivity; [apply active_count_insert_inactive; exact Ha | exact Hinv].
    + etransitivity; [apply active_count_insert_inactive; reflexivity | exact Hinv].
Qed.

Lemma activate_rows_count (rows : list Diagram) objects :
  active_count
    (foldl (fun objects diagram => (Model_save (set_is_active true diagram) objects).2)
           objects rows)
  <= active_count objects + length rows.
Proof.
  revert objects. induction rows as [| d rows IH]; intros objects; simpl; [lia |].
  etransitivity; [apply IH |].
  assert (active_count (Model_save (set_is_active true d) objects).2
          <= S (active_count objects)); [| lia].
  unfold Model_save. simpl. destruct (pk d); simpl; apply active_count_insert_le.
Qed.

Lemma make_active_keeps_limit selected objects :
  active_count objects <= MAX_ACTIVE_DIAGRAMS ->
  active_count (make_active selected objects) <= MAX_ACTIVE_DIAGRAMS.
Proof.
  intros Hinv. unfold make_active.
  destruct (_ <=? 0)%Z eqn:Hslots; [exact Hinv |].
  apply Z.leb_gt in Hslots.
  etransitivity; [apply activate_rows_count |].
  rewrite length_take. unfold count in *. lia.
Qed.

Lemma alter_lookup_insert (f : Diagram -> Diagram) k (m : gmap Z Diagram) d :
  m !! k = Some d -> alter f k m = <[k := f d]> m.
Proof.
  intros Hk. apply map_eq. intros j.
  destruct (decide (k = j)) as [<- | Hne].
  - rewrite lookup_alter_eq, lookup_insert_eq, Hk. reflexivity.
  - rewrite lookup_alter_ne, lookup_insert_ne by exact Hne. reflexivity.
Qed.

Lemma alter_lookup_none (f : Diagram -> Diagram) k (m : gmap Z Diagram) :
  m !! k = None -> alter f k m = m.
Proof.
  intros Hk. apply map_eq. intros j.
  destruct (decide (k = j)) as [<- | Hne].
  - rewrite lookup_alter_eq, Hk. reflexivity.
  - rewrite lookup_alter_ne by exact Hne. reflexivity.
Qed.

Lemma make_inactive_keeps_limit selected objects :
  active_count objects <= MAX_ACTIVE_DIAGRAMS ->
  active_count (make_inactive selected objects) <= MAX_ACTIVE_DIAGRAMS.
Proof.
  unfold make_inactive. revert objects.
  induction selected as [| k selected IH]; intros objects Hinv; simpl; [exact Hinv |].
  apply IH.
  destruct (objects !! k) as [d |] eqn:Hk.
  - rewrite (alter_lookup_insert _ _ _ d Hk).
    destruct (is_active d) eqn:Hd.
    + etransitivity; [apply active_count_insert_inactive; reflexivity | exact Hinv].
    + etransitivity; [apply active_count_insert_inactive; exact Hd | exact Hinv].
  - rewrite alter_lookup_none by exact Hk. exact Hinv.
Qed.

Lemma run_actions_keep_limit actions objects :
  active_count objects <= MAX_ACTIVE_DIAGRAMS ->
  active_count (run_actions actions objects) <= MAX_ACTIVE_DIAGRAMS.
Proof.
  unfold run_actions. revert objects.
  induction actions as [| a actions IH]; intros objects Hinv; simpl; [exact Hinv |].
  apply IH. destruct a as [obj | selected | selected | k]; simpl.
  - now apply form_save_keeps_limit.
  - now apply make_active_keeps_limit.
  - now apply make_inactive_keeps_limit.
  - etransitivity; [apply active_count_delete | exact Hinv].
Qed.

Lemma other_active_le_active_qs obj objects :
  size (other_active obj objects) <= count (active_qs obj objects).
Proof.
  apply map_subseteq_size, map_subseteq_spec. intros k d.
  unfold other_active. rewrite map_lookup_filter_Some. simpl.
  intros (Hk & Ha & Hne). unfold active_qs.
  assert (Hin : filter_is_active true objects !! k = Some d).
  { unfold filter_is_active. now apply map_lookup_filter_Some. }
  destruct (pk_truthy (pk obj)); [| exact Hin].
  destruct (pk obj) as [k0 |]; [| exact Hin].
  unfold exclude_pk. rewrite lookup_delete_ne by congruence. exact Hin.
Qed.

Lemma form_save_rejects obj objects :
  is_active obj = true ->
  MAX_ACTIVE_DIAGRAMS <= size (other_active obj objects) ->
  form_save obj objects
  = (Raise (field_error "is_active"
              (active_limit_message (count (active_qs obj objects)))), objects).
Proof.
  intros Ha Hothers.
  pose proof (other_active_le_active_qs obj objects) as Hle.
  unfold form_save, clean, _validate_active_limit. rewrite Ha.
  destruct (MAX_ACTIVE_DIAGRAMS <=? count (active_qs obj objects))%nat eqn:Hc.
  - reflexivity.
  - apply Nat.leb_gt in Hc. lia.
Qed.

(** what [clean] says of an active diagram beside two others *)
Lemma clean_rejects obj objects :
  is_active obj = true ->
  MAX_ACTIVE_DIAGRAMS <= size (other_active obj objects) ->
  clean obj objects
  = Raise (field_error "is_active"
             (active_limit_message (count (active_qs obj objects)))).
Proof.
  intros Ha Hothers.
  pose proof (other_active_le_active_qs obj objects) as Hle.
  unfold clean, _validate_active_limit. rewrite Ha.
  destruct (MAX_ACTIVE_DIAGRAMS <=? count (active_qs obj objects))%nat eqn:Hc.
  - reflexivity.
  - apply Nat.leb_gt in Hc. lia.
Qed.

(** [Diagram.save] stores whatever it is given: a new active diagram makes
    one active diagram more *)
Lemma save_adds_active obj objects :
  pk obj = None -> is_active obj = true ->
  active_count (save obj objects).2 = S (active_count objects).
Proof.
  intros Hpk Ha. unfold save, Model_save. cbn [get_pk Diagram_model]. rewrite Hpk.
  cbn [snd]. rewrite active_count_insert. cbn [is_active set_pk Diagram_model].
  rewrite Ha. f_equal. unfold count. f_equal. apply delete_id.
  unfold filter_is_active.
  destruct (filter _ objects !! next_pk objects) as [row |] eqn:E; [| reflexivity].
  apply map_lookup_filter_Some in E as [E _].
  now rewrite DjangoFacts.next_pk_fresh in E.
Qed.

(** C2 at the input on which the code departs from it.  Two diagrams are
    active; a third one is saved with is_active set.  [Diagram.clean] raises
    the error on is_active for this instance, but [Diagram.save], the
    inherited [Model.save], never calls it: the row is stored under a new
    key and three diagrams are active, one more than MAX_ACTIVE_DIAGRAMS. *)
Theorem diagram_save_exceeds_limit :
  active_count two_active = 2
  /\ (exists message,
        clean (dia None true) two_active = Raise (field_error "is_active" message))
  /\ (exists saved,
        save (dia None true) two_active = (saved, <[3%Z := saved]> two_active)
        /\ pk saved = Some 3%Z /\ is_active saved = true)
  /\ active_count (save (dia None true) two_active).2 = 3
  /\ MAX_ACTIVE_DIAGRAMS < active_count (save (dia None true) two_active).2.
Proof.
  assert (H2 : active_count two_active = 2) by (vm_compute; reflexivity).
  assert (H3 : active_count (save (dia None true) two_active).2 = 3).
  { rewrite save_adds_active by reflexivity. now rewrite H2. }
  split; [exact H2 |]. split; [| split; [| split]].
  - eexists. apply clean_rejects; [reflexivity | vm_compute; lia].
  - eexists. split; [vm_compute; reflexivity |]. split; reflexivity.
  - exact H3.
  - rewrite H3. unfold MAX_ACTIVE_DIAGRAMS. lia.
Qed.

(** C10. For a diagram whose is_active is false the activation-limit check
    returns normally, whatever the other rows are, and no error that [clean]
    raises for it is on the field is_active. *)
Theorem inactive_diagram_passes_active_limit (self : Diagram) (objects : gmap Z Diagram) :
  is_active self = false ->
  _validate_active_limit self objects = Ok self
  /\ forall e, clean self objects = Raise e -> has_field_error "is_active" e = false.
Proof.
  intros Ha. unfold clean, _validate_active_limit. rewrite Ha. split; [reflexivity |].
  intros e. simpl. unfold _validate_measurement_unit.
  destruct (_ || _); [| discriminate].
  intros [= <-]. reflexivity.
Qed.

Lemma inactive_diagram_passes_active_limit_witness :
  _validate_active_limit (dia (Some 3%Z) false) two_active = Ok (dia (Some 3%Z) false).
Proof.
  exact (proj1 (inactive_diagram_passes_active_limit (dia (Some 3%Z) false) two_active eq_refl)).
Defined.

End DiagramFacts.

(** ** Exactly one parent section (dynamic_pages) *)

Module SectionFacts.

Import DynamicPages Samples.

Lemma image_clean_iff (self : SectionImage) :
  clean self = Ok self <-> parents_set self = 1.
Proof.
  unfold clean, parents_set.
  destruct (length _ =? 1)%nat eqn:E; simpl.
  - apply Nat.eqb_eq in E. tauto.
  - apply Nat.eqb_neq in E. split; [discriminate | tauto].
Qed.

Lemma image_clean_ok (self self' : SectionImage) :
  clean self = Ok self' -> parents_set self' = 1.
Proof.
  unfold clean. destruct (negb _) eqn:E; [discriminate |].
  intros [= <-]. apply image_clean_iff. unfold clean. now rewrite E.
Qed.

Lemma image_clean_raise (self : SectionImage) :
  parents_set self <> 1 ->
  clean self = Raise (Message "Изображение должно быть привязано ровно к одной секции").
Proof.
  unfold clean, parents_set. intros Hne.
  apply Nat.eqb_neq in Hne. now rewrite Hne.
Qed.

Lemma file_clean_iff (self : SectionFile) :
  f_clean self = Ok self <-> f_parents_set self = 1.
Proof.
  unfold f_clean, f_parents_set.
  destruct (length _ =? 1)%nat eqn:E; simpl.
  - apply Nat.eqb_eq in E. tauto.
  - apply Nat.eqb_neq in E. split; [discriminate | tauto].
Qed.

Lemma file_clean_ok (self self' : SectionFile) :
  f_clean self = Ok self' -> f_parents_set self' = 1.
Proof.
  unfold f_clean. destruct (negb _) eqn:E; [discriminate |].
  intros [= <-]. apply file_clean_iff. unfold f_clean. now rewrite E.
Qed.

Lemma file_clean_raise (self : SectionFile) :
  f_parents_set self <> 1 ->
  f_clean self = Raise (Message "Файл должен быть привязан ровно к одной секции").
Proof.
  unfold f_clean, f_parents_set. intros Hne.
  apply Nat.eqb_neq in Hne. now rewrite Hne.
Qed.

(** C7 at the inputs on which the code departs from it.  [clean] passes
    exactly when one of about_section, service_section and document_section
    is set, for every image and every file.  But [SectionImage.save] and
    [SectionFile.save] are the inherited [Model.save], which never calls
    [clean]: an image with no parent, an image with two parents and a file
    with no parent, each of which [clean] turns down, are stored. *)
Theorem section_save_skips_clean (i : SectionImage) (f : SectionFile) :
  (clean i = Ok i <-> parents_set i = 1)
  /\ (f_clean f = Ok f <-> f_parents_set f = 1)
  /\ (is_ok (clean (img None None None)) = false
      /\ exists saved,
           save (img None None None) ∅ = (saved, {[ 1%Z := saved ]})
           /\ parents_set saved = 0)
  /\ (is_ok (clean (img (Some 1%Z) (Some 2%Z) None)) = false
      /\ exists saved,
           save (img (Some 1%Z) (Some 2%Z) None) ∅ = (saved, {[ 1%Z := saved ]})
           /\ parents_set saved = 2)
  /\ (is_ok (f_clean (sfile None None None)) = false
      /\ exists saved,
           f_save (sfile None None None) ∅ = (saved, {[ 1%Z := saved ]})
           /\ f_parents_set saved = 0).
Proof.
  split; [apply image_clean_iff |]. split; [apply file_clean_iff |].
  repeat split; try reflexivity; eexists; (split; [vm_compute; reflexivity | reflexivity]).
Qed.

End SectionFacts.

(** ** Inquiries (applications/models.py) *)

Module ApplicationFacts.

Import Applications DjangoFacts Samples.

Lemma _validate_phone_fields (self self' : Application) :
  _validate_phone self = Ok self' ->
  self' = set_phone (Patterns.clean_phone (phone self)) self.
Proof.
  unfold _validate_phone. destruct (negb _); [discriminate |]. now intros [= <-].
Qed.

Lemma _validate_email_fields (self self' : Application) :
  _validate_email self = Ok self' -> self' = self.
Proof.
  unfold _validate_email. destruct (negb _); [discriminate |]. now intros [= <-].
Qed.

(** [clean] changes the phone number and nothing else *)
Lemma clean_fields_kept (self self' : Application) :
  clean self = Ok self' ->
  pk self' = pk self /\ status self' = status self
  /\ processed_at self' = processed_at self
  /\ (self' = self \/ self' = set_phone (Patterns.clean_phone (phone self)) self).
Proof.
  unfold clean. destruct (_ && _); [discriminate |].
  destruct (PyStr.truthy (phone self)).
  - destruct (_validate_phone self) as [s1 |] eqn:H1; [| discriminate]. simpl.
    apply _validate_phone_fields in H1. subst s1. simpl.
    destruct (PyStr.truthy (email self)).
    + intros Hv. apply _validate_email_fields in Hv. subst self'. simpl. auto.
    + intros [= <-]. simpl. auto.
  - simpl. destruct (PyStr.truthy (email self)).
    + intros Hv. apply _validate_email_fields in Hv. subst self'. auto.
    + intros [= <-]. auto.
Qed.


(** neither the field validators nor [clean] read processed_at *)
Lemma clean_set_processed_at (t : option Z) (self : Application) :
  clean (set_processed_at t self)
  = match clean self with
    | Ok self' => Ok (set_processed_at t self')
    | Raise e => Raise e
    end.
Proof.
  unfold clean, _validate_phone, _validate_email. cbn [phone email set_processed_at].
  destruct (negb (PyStr.truthy (phone self)) && negb (PyStr.truthy (email self)));
    [reflexivity |].
  destruct (PyStr.truthy (phone self)).
  - destruct (negb (Re.match_dollar Patterns.phone_regex
                      (Patterns.clean_phone (phone self)))); [reflexivity |].
    cbn [mbind result_bind bind email set_phone set_processed_at].
    destruct (PyStr.truthy (email self)); [| reflexivity].
    destruct (negb (Re.match_dollar Patterns.email_regex (email self))); reflexivity.
  - cbn [mbind result_bind bind email set_processed_at].
    destruct (PyStr.truthy (email self)); [| reflexivity].
    destruct (negb (Re.match_dollar Patterns.email_regex (email self))); reflexivity.
Qed.

Lemma full_clean_set_processed_at (validate_email : string -> bool) (t : option Z)
    (self : Application) :
  is_ok (full_clean (clean_fields validate_email) clean (set_processed_at t self))
  = is_ok (full_clean (clean_fields validate_email) clean self).
Proof.
  unfold full_clean. rewrite clean_set_processed_at.
  change (clean_fields validate_email (set_processed_at t self))
    with (clean_fields validate_email self).
  destruct (clean self); [| reflexivity].
  now destruct (decide (clean_fields validate_email self = ∅)).
Qed.

Section Save.

Variable validate_email : string -> bool.

(** what [save] does, for any notifier *)
Lemma save_spec (notify : Application -> NotifyOutcome) (now : Z)
    (self : Application) (objects : gmap Z Application) :
  let o := save validate_email notify now self objects in
  (exists e, save_result o = Raise e /\ save_objects o = objects
             /\ save_notified o = [] /\ save_logged o = [])
  \/ (exists saved k,
        save_result o = Ok saved
        /\ pk saved = Some k
        /\ save_objects o = <[k := saved]> objects
        /\ save_notified o = (if pk_truthy (pk self) then [] else [saved])
        /\ status saved = status self
        /\ processed_at saved
           = (if String.eqb (status self) "processed"
              then match processed_at self with Some t => Some t | None => Some now end
              else None)
        /\ (pk self = None -> objects !! k = None)
        /\ (forall k0, pk self = Some k0 -> k = k0)).
Proof.
  unfold save.
  set (stamped := if String.eqb (status self) "processed" && is_none (processed_at self)
                  then set_processed_at (Some now) self
                  else if negb (String.eqb (status self) "processed")
                       then set_processed_at None self else self).
  assert (Hst : pk stamped = pk self /\ status stamped = status self
                /\ processed_at stamped
                   = (if String.eqb (status self) "processed"
                      then match processed_at self with Some t => Some t | None => Some now end
                      else None)).
  { unfold stamped. destruct (String.eqb (status self) "processed");
      destruct (processed_at self) eqn:E; simpl; auto. }
  destruct Hst as (Hpk & Hstatus & Hproc).
  destruct (full_clean (clean_fields validate_email) clean stamped) as [cleaned | e] eqn:Hfc.
  - right. apply full_clean_ok in Hfc as [Hclean _].
    apply clean_fields_kept in Hclean as (Cpk & Cstatus & Cproc & _).
    destruct (Model_save cleaned objects) as [saved objects'] eqn:Hms.
    apply Model_save_stored in Hms as (k & Sk & _ & Sobj & Snew & Sold);
      [| reflexivity].
    exists saved, k.
    assert (Hfields : status saved = status self
                      /\ processed_at saved = processed_at stamped).
    { simpl in *. destruct (pk cleaned) as [k0 |] eqn:Ek.
      - destruct (Sold k0 eq_refl) as [_ ->]. split; congruence.
      - destruct (Snew eq_refl) as [_ ->]. simpl. split; congruence. }
    destruct Hfields as [Fs Fp].
    assert (Hnew : pk self = None -> objects !! k = None).
    { intros E. apply Snew. simpl. congruence. }
    assert (Hold : forall k0, pk self = Some k0 -> k = k0).
    { intros k0 E. apply Sold. simpl. congruence. }
    destruct (pk_truthy (pk self)); simpl.
    + repeat split; auto; congruence.
    + destruct (notify saved); simpl; repeat split; auto; congruence.
  - left. exists e. simpl. auto.
Qed.



(** C3. After a successful [Application.save], processed_at is set exactly
    when the status is processed, whatever processed_at the caller
    supplied: with status processed and no processed_at it becomes the time
    of the save, with any other status it becomes None; this is computed
    on every save from the status alone, and the row that is stored is the
    instance so stamped. *)
Theorem processed_at_iff_processed (notify : Application -> NotifyOutcome) (now : Z)
    (self saved : Application) (objects : gmap Z Application) :
  save_result (save validate_email notify now self objects) = Ok saved ->
  (is_Some (processed_at saved) <-> status saved = "processed")
  /\ status saved = status self
  /\ (status self = "processed" -> processed_at self = None ->
        processed_at saved = Some now)
  /\ (status self <> "processed" -> processed_at saved = None)
  /\ exists k, pk saved = Some k
       /\ save_objects (save validate_email notify now self objects) !! k = Some saved.
Proof.
  intros Hok.
  destruct (save_spec notify now self objects)
    as [(e & He & _) | (saved' & k & Hres & Hpk & Hobj & _ & Hst & Hproc & _)].
  - congruence.
  - assert (saved' = saved) by congruence. subst saved'.
    rewrite Hst, Hproc, Hobj.
    destruct (String.eqb (status self) "processed") eqn:E.
    + apply String.eqb_eq in E. repeat split; try congruence.
      * destruct (processed_at self); eauto.
      * intros _ ->. reflexivity.
      * exists k. now rewrite lookup_insert_eq.
    + apply String.eqb_neq in E. repeat split; try congruence.
      * intros [t Ht]. discriminate.
      * exists k. now rewrite lookup_insert_eq.
Qed.

(** a save ends in [Ok] exactly when validation passes *)
Lemma save_result_ok (notify : Application -> NotifyOutcome) (now : Z)
    (self : Application) (objects : gmap Z Application) :
  is_ok (save_result (save validate_email notify now self objects))
  = is_ok (full_clean (clean_fields validate_email) clean self).
Proof.
  unfold save.
  set (stamped := if String.eqb (status self) "processed" && is_none (processed_at self)
                  then set_processed_at (Some now) self
                  else if negb (String.eqb (status self) "processed")
                       then set_processed_at None self else self).
  assert (Hs : is_ok (full_clean (clean_fields validate_email) clean stamped)
               = is_ok (full_clean (clean_fields validate_email) clean self)).
  { unfold stamped. destruct (_ && _); [apply full_clean_set_processed_at |].
    destruct (negb _); [apply full_clean_set_processed_at | reflexivity]. }
  rewrite <- Hs.
  destruct (full_clean (clean_fields validate_email) clean stamped) as [cleaned | e];
    [| reflexivity].
  destruct (Model_save cleaned objects) as [saved objects'].
  destruct (negb (pk_truthy (pk self))); [destruct (notify saved) |]; reflexivity.
Qed.

(** the save of a valid inquiry that is not yet in the table completes *)
Lemma save_completes (notify : Application -> NotifyOutcome) (now : Z)
    (self : Application) (objects : gmap Z Application) :
  is_ok (full_clean (clean_fields validate_email) clean self) = true ->
  (forall k, pk self = Some k -> objects !! k = None) ->
  let o := save validate_email notify now self objects in
  exists saved k,
    save_result o = Ok saved /\ pk saved = Some k /\ objects !! k = None
    /\ save_objects o = <[k := saved]> objects
    /\ save_notified o = (if pk_truthy (pk self) then [] else [saved]).
Proof.
  intros Hvalid Hfresh o.
  pose proof (save_result_ok notify now self objects) as Hok.
  rewrite Hvalid in Hok.
  destruct (save_spec notify now self objects)
    as [(e & He & _) | (saved & k & Hres & Hpk & Hobj & Hnot & _ & _ & Hnew & Hold)].
  - fold o in He. subst o. rewrite He in Hok. discriminate.
  - exists saved, k. repeat split; auto.
    destruct (pk self) as [k0 |] eqn:E; [| auto].
    rewrite (Hold k0 eq_refl). now apply Hfresh.
Qed.

End Save.


Section Notification.

Variable validate_email : string -> bool.


End Notification.

(** a first save as processed stamps the time of the save *)
Lemma processed_at_iff_processed_witness :
  processed_at app0_saved = Some 1000%Z
  /\ (is_Some (processed_at app0_saved) <-> status app0_saved = "processed").
Proof.
  assert (H : save_result (save accepts_all notify_ok 1000 app0 ∅) = Ok app0_saved)
    by (vm_compute; reflexivity).
  destruct (processed_at_iff_processed accepts_all notify_ok 1000 app0 app0_saved ∅ H)
    as (Hiff & _ & Hstamp & _).
  split; [apply Hstamp; reflexivity | exact Hiff].
Defined.


(** the settings cannot be read: the service raises, the inquiry is stored
    all the same and the failure is logged *)
Example save_with_failing_service :
  let notify :=
    Services.send_application_notification
      (Services.LookupRaised "OperationalError") accepts_all EmptyString
      (fun _ => None) true (fun _ => None) in
  save_result (save accepts_all notify 1000 app0 ∅) = Ok app0_saved
  /\ save_objects (save accepts_all notify 1000 app0 ∅) !! 1%Z = Some app0_saved
  /\ length (save_logged (save accepts_all notify 1000 app0 ∅)) = 1.
Proof. vm_compute. repeat split. Qed.

(** saving the processed inquiry again as new clears the stamp *)
Example save_clears_processed_at :
  processed_at <$> (save_objects (save accepts_all notify_ok 2000 app1 {[ 1%Z := app0_saved ]}) !! 1%Z)
  = Some None.
Proof. vm_compute. reflexivity. Qed.

End ApplicationFacts.

(** ** Phone numbers *)

Module PhoneFacts.

Import Patterns PatternFacts DjangoFacts Samples.

(** validating a raw number: the cleaned number, its shape, and a second
    validation of the result *)
Lemma accepted_twice (raw : string) :
  Re.match_dollar phone_regex (clean_phone raw) = true ->
  Re.match_dollar phone_regex (clean_phone (clean_phone raw)) = true
  /\ spec_normalize (clean_phone raw) = clean_phone raw.
Proof.
  intros Hm. destruct (accepted_phone raw Hm) as (_ & _ & Hidem).
  rewrite Hidem. split; [exact Hm |].
  assert (Hm' : Re.match_dollar phone_regex (clean_phone (clean_phone raw)) = true)
    by now rewrite Hidem.
  destruct (accepted_phone (clean_phone raw) Hm') as (_ & Hn & _).
  now rewrite Hn.
Qed.

Lemma application_validate_phone (a a' : Applications.Application) :
  Applications._validate_phone a = Ok a' ->
  Applications.phone a' = clean_phone (Applications.phone a)
  /\ Applications.phone a' = spec_normalize (Applications.phone a)
  /\ spec_russian_phone (Applications.phone a') = true
  /\ Applications._validate_phone a' = Ok a'
  /\ spec_normalize (Applications.phone a') = Applications.phone a'.
Proof.
  unfold Applications._validate_phone.
  destruct (Re.match_dollar phone_regex (clean_phone (Applications.phone a))) eqn:Hm;
    [| discriminate].
  simpl. intros [= <-]. simpl.
  destruct (accepted_phone _ Hm) as (Hshape & Hnorm & Hidem).
  destruct (accepted_twice _ Hm) as (Hm2 & Hn2).
  repeat split; auto.
  rewrite Hm2, Hidem. reflexivity.
Qed.

Lemma contact_validate_phone (p p' : Contacts.Phone) :
  Contacts._validate_phone p = Ok p' ->
  Contacts.number p' = clean_phone (Contacts.number p)
  /\ Contacts.number p' = spec_normalize (Contacts.number p)
  /\ spec_russian_phone (Contacts.number p') = true
  /\ Contacts._validate_phone p' = Ok p'
  /\ spec_normalize (Contacts.number p') = Contacts.number p'.
Proof.
  unfold Contacts._validate_phone.
  destruct (Re.match_dollar phone_regex (clean_phone (Contacts.number p))) eqn:Hm;
    [| discriminate].
  simpl. intros [= <-]. simpl.
  destruct (accepted_phone _ Hm) as (Hshape & Hnorm & Hidem).
  destruct (accepted_twice _ Hm) as (Hm2 & Hn2).
  repeat split; auto.
  rewrite Hm2, Hidem. reflexivity.
Qed.

Lemma blank_number_rejected (p : Contacts.Phone) :
  PyStr.truthy (Contacts.number p) = false -> Contacts.clean_fields p <> ∅.
Proof.
  intros Hb Hempty. unfold Contacts.clean_fields in Hempty.
  apply union_empty_inv in Hempty as [Hempty _].
  apply union_empty_inv in Hempty as [Hempty _].
  apply char_field_empty in Hempty as [[Ht | Hblank] _]; congruence.
Qed.

(** [Phone.save] stores the cleaned number *)
Lemma contact_save_stores_clean (p saved : Contacts.Phone)
    (objects objects' : gmap Z Contacts.Phone) :
  Contacts.save p objects = (Ok saved, objects') ->
  Contacts.number saved = clean_phone (Contacts.number p)
  /\ exists k, Contacts.pk saved = Some k /\ objects' !! k = Some saved.
Proof.
  unfold Contacts.save.
  destruct (full_clean _ _ p) as [cleaned | e] eqn:Hfc; [| discriminate].
  apply full_clean_ok in Hfc as [Hclean Hfields].
  destruct (Model_save cleaned objects) as [saved' objects''] eqn:Hms.
  intros [= <- <-].
  apply Model_save_stored in Hms as (k & Sk & Sl & _ & Snew & Sold); [| reflexivity].
  assert (Hnum : Contacts.number cleaned = clean_phone (Contacts.number p)).
  { unfold Contacts.clean in Hclean.
    destruct (PyStr.truthy (Contacts.number p)) eqn:Ht.
    - now apply contact_validate_phone in Hclean.
    - now apply blank_number_rejected in Ht. }
  split; [| eauto].
  simpl in *. destruct (Contacts.pk cleaned) as [k0 |] eqn:Ek.
  - destruct (Sold k0 eq_refl) as [_ ->]. exact Hnum.
  - destruct (Snew eq_refl) as [_ ->]. exact Hnum.
Qed.

(** [Application.save] stores the cleaned number of an inquiry that has one *)
Lemma application_save_stores_clean (validate_email : string -> bool)
    (notify : Applications.Application -> Applications.NotifyOutcome) (now : Z)
    (self saved : Applications.Application)
    (objects : gmap Z Applications.Application) :
  Applications.save_result (Applications.save validate_email notify now self objects)
  = Ok saved ->
  PyStr.truthy (Applications.phone self) = true ->
  Applications.phone saved = clean_phone (Applications.phone self).
Proof.
  unfold Applications.save.
  set (stamped := if String.eqb (Applications.status self) "processed"
                     && is_none (Applications.processed_at self)
                  then Applications.set_processed_at (Some now) self
                  else if negb (String.eqb (Applications.status self) "processed")
                       then Applications.set_processed_at None self else self).
  assert (Hphone : Applications.phone stamped = Applications.phone self).
  { unfold stamped. destruct (_ && _); [reflexivity |]. now destruct (negb _). }
  destruct (full_clean _ _ stamped) as [cleaned | e] eqn:Hfc; [| discriminate].
  apply full_clean_ok in Hfc as [Hclean _].
  destruct (Model_save cleaned objects) as [saved' objects'] eqn:Hms.
  apply Model_save_stored in Hms as (k & _ & _ & _ & Snew & Sold); [| reflexivity].
  intros Hres Htruthy.
  assert (saved' = saved).
  { destruct (negb (pk_truthy (Applications.pk self)));
      [destruct (notify saved') |]; simpl in Hres; congruence. }
  subst saved'.
  assert (Hc : Applications.phone cleaned = clean_phone (Applications.phone self)).
  { unfold Applications.clean in Hclean. rewrite Hphone, Htruthy in Hclean.
    simpl in Hclean.
    destruct (Applications._validate_phone stamped) as [s1 |] eqn:H1; [| discriminate].
    apply application_validate_phone in H1 as (H1 & _). simpl in Hclean.
    destruct (PyStr.truthy (Applications.email s1)).
    - unfold Applications._validate_email in Hclean.
      destruct (Re.match_dollar email_regex (Applications.email s1));
        [| discriminate].
      injection Hclean as <-. congruence.
    - injection Hclean as <-. congruence. }
  simpl in *. destruct (Applications.pk cleaned) as [k0 |] eqn:Ek.
  - destruct (Sold k0 eq_refl) as [_ ->]. exact Hc.
  - destruct (Snew eq_refl) as [_ ->]. exact Hc.
Qed.

(** [Phone.save] of a new phone whose fields pass and whose number is
    accepted: the save completes and inserts the row with the cleaned
    number *)
Lemma contact_save_completes (p p' : Contacts.Phone)
    (objects : gmap Z Contacts.Phone) :
  Contacts.pk p = None ->
  Contacts.clean_fields p = ∅ ->
  Contacts._validate_phone p = Ok p' ->
  exists k saved,
    objects !! k = None
    /\ Contacts.save p objects = (Ok saved, <[k := saved]> objects)
    /\ Contacts.pk saved = Some k
    /\ Contacts.number saved = clean_phone (Contacts.number p).
Proof.
  intros Hpk Hfields Hv.
  assert (Ht : PyStr.truthy (Contacts.number p) = true).
  { destruct (PyStr.truthy (Contacts.number p)) eqn:E; [reflexivity |].
    now apply blank_number_rejected in E. }
  assert (Hp' : p' = Contacts.set_number (clean_phone (Contacts.number p)) p).
  { unfold Contacts._validate_phone in Hv. destruct (negb _); [discriminate |].
    now injection Hv as <-. }
  exists (next_pk objects), (set_pk (Some (next_pk objects)) p').
  split; [apply next_pk_fresh |].
  unfold Contacts.save, full_clean, Contacts.clean. rewrite Ht, Hv, Hfields.
  destruct (decide (∅ = ∅)) as [_ | Hne]; [| contradiction].
  unfold Model_save. rewrite Hp'. cbn [get_pk Contacts.Phone_model Contacts.pk
                                        Contacts.set_number].
  rewrite Hpk. repeat split.
Qed.

(** [Application.save] of a new inquiry whose fields pass, whose phone is
    accepted and whose e-mail, if there is one, is accepted: the save
    completes and inserts the row with the cleaned number *)
Lemma application_save_completes (validate_email : string -> bool)
    (notify : Applications.Application -> Applications.NotifyOutcome) (now : Z)
    (a a' : Applications.Application)
    (objects : gmap Z Applications.Application) :
  Applications.pk a = None ->
  Applications.clean_fields validate_email a = ∅ ->
  PyStr.truthy (Applications.phone a) = true ->
  Applications._validate_phone a = Ok a' ->
  (PyStr.truthy (Applications.email a) = true ->
   Applications._validate_email a = Ok a) ->
  let o := Applications.save validate_email notify now a objects in
  exists k stored,
    objects !! k = None
    /\ Applications.save_result o = Ok stored
    /\ Applications.save_objects o = <[k := stored]> objects
    /\ Applications.pk stored = Some k
    /\ Applications.phone stored = clean_phone (Applications.phone a).
Proof.
  intros Hpk Hfields Ht Hv He o.
  assert (Hvalid : is_ok (full_clean (Applications.clean_fields validate_email)
                            Applications.clean a) = true).
  { unfold full_clean, Applications.clean. rewrite Ht, Hv, Hfields. cbn [negb andb].
    cbn [mbind result_bind bind].
    assert (Ha' : Applications.email a' = Applications.email a).
    { apply ApplicationFacts._validate_phone_fields in Hv. now subst a'. }
    rewrite Ha'.
    destruct (PyStr.truthy (Applications.email a)) eqn:Hmail.
    - specialize (He eq_refl). unfold Applications._validate_email in *.
      rewrite Ha'. destruct (negb _); [discriminate |].
      now destruct (decide (∅ = ∅)).
    - now destruct (decide (∅ = ∅)). }
  destruct (ApplicationFacts.save_completes validate_email notify now a objects Hvalid)
    as (stored & k & Hres & Hk & Hfresh & Hobj & _).
  { intros k Hk. congruence. }
  exists k, stored. repeat split; auto.
  exact (application_save_stores_clean validate_email notify now a stored objects
           Hres Ht).
Qed.

(** C5. Phone validation (of an inquiry and of a company phone) removes
    every character but digits and [+]; when it accepts, the value it leaves
    on the instance is that cleaned string, which is also what the wording
    of the specification (digits and a leading [+]) produces, and it has
    ten digits or eleven that start with 7 or 8, with at most a [+] in
    front; validating an accepted value again accepts it and changes
    nothing.  [save] persists this value and not the raw input: the save of
    a new company phone, or of a new inquiry, whose fields pass and whose
    number is accepted completes and inserts the row with the cleaned
    number, and whenever a save returns, what it stored has the cleaned
    number. *)
Theorem phone_normalization_idempotent
    (a a' : Applications.Application) (p p' saved : Contacts.Phone)
    (objects objects' : gmap Z Contacts.Phone)
    (validate_email : string -> bool)
    (notify : Applications.Application -> Applications.NotifyOutcome) (now : Z)
    (inquiry stored : Applications.Application)
    (inquiries : gmap Z Applications.Application) :
  (Applications._validate_phone a = Ok a' ->
     Applications.phone a' = clean_phone (Applications.phone a)
     /\ Applications.phone a' = spec_normalize (Applications.phone a)
     /\ spec_russian_phone (Applications.phone a') = true
     /\ Applications._validate_phone a' = Ok a'
     /\ spec_normalize (Applications.phone a') = Applications.phone a')
  /\ (Contacts._validate_phone p = Ok p' ->
       Contacts.number p' = clean_phone (Contacts.number p)
       /\ Contacts.number p' = spec_normalize (Contacts.number p)
       /\ spec_russian_phone (Contacts.number p') = true
       /\ Contacts._validate_phone p' = Ok p'
       /\ spec_normalize (Contacts.number p') = Contacts.number p')
  /\ (Contacts.save p objects = (Ok saved, objects') ->
       Contacts.number saved = clean_phone (Contacts.number p)
       /\ exists k, Contacts.pk saved = Some k /\ objects' !! k = Some saved)
  /\ (Applications.save_result
        (Applications.save validate_email notify now inquiry inquiries) = Ok stored ->
      PyStr.truthy (Applications.phone inquiry) = true ->
      Applications.phone stored = clean_phone (Applications.phone inquiry))
  /\ (Contacts.pk p = None -> Contacts.clean_fields p = ∅ ->
      Contacts._validate_phone p = Ok p' ->
      exists k row,
        objects !! k = None
        /\ Contacts.save p objects = (Ok row, <[k := row]> objects)
        /\ Contacts.pk row = Some k
        /\ Contacts.number row = clean_phone (Contacts.number p))
  /\ (Applications.pk a = None ->
      Applications.clean_fields validate_email a = ∅ ->
      PyStr.truthy (Applications.phone a) = true ->
      Applications._validate_phone a = Ok a' ->
      (PyStr.truthy (Applications.email a) = true ->
       Applications._validate_email a = Ok a) ->
      exists k row,
        inquiries !! k = None
        /\ Applications.save_result
             (Applications.save validate_email notify now a inquiries) = Ok row
        /\ Applications.save_objects
             (Applications.save validate_email notify now a inquiries)
           = <[k := row]> inquiries
        /\ Applications.pk row = Some k
        /\ Applications.phone row = clean_phone (Applications.phone a)).
Proof.
  split; [apply application_validate_phone |].
  split; [apply contact_validate_phone |].
  split; [apply contact_save_stores_clean |].
  split; [apply application_save_stores_clean |].
  split; [apply contact_save_completes |].
  apply application_save_completes.
Qed.

(** a company phone and an inquiry, each typed with spaces, brackets and
    dashes: validated, validated again, and saved into an empty table *)
Lemma phone_normalization_idempotent_witness :
  (Applications.phone (Applications.set_phone "+79991234567" Samples.app0)
   = spec_normalize "+7 (999) 123-45-67"
   /\ Applications._validate_phone (Applications.set_phone "+79991234567" Samples.app0)
      = Ok (Applications.set_phone "+79991234567" Samples.app0))
  /\ Contacts._validate_phone office_phone_clean = Ok office_phone_clean
  /\ Contacts.number office_phone_saved = "84951234567"
  /\ Applications.phone Samples.app0_saved = "+79991234567"
  /\ (exists k row,
        Contacts.save office_phone ∅ = (Ok row, <[k := row]> ∅)
        /\ Contacts.number row = "84951234567")
  /\ (exists k row,
        Applications.save_objects
          (Applications.save Samples.accepts_all Samples.notify_ok 1000 Samples.app0 ∅)
        = <[k := row]> ∅
        /\ Applications.phone row = "+79991234567").
Proof.
  pose proof (phone_normalization_idempotent
                Samples.app0 (Applications.set_phone "+79991234567" Samples.app0)
                office_phone office_phone_clean office_phone_saved
                ∅ {[ 1%Z := office_phone_saved ]}
                Samples.accepts_all Samples.notify_ok 1000 Samples.app0
                Samples.app0_saved ∅)
    as (HA & HP & HS & HI & HC & HN).
  split; [| split; [| split; [| split; [| split]]]].
  - destruct HA as (_ & Hn & _ & Hidem & _); [vm_compute; reflexivity |].
    split; [exact Hn | exact Hidem].
  - destruct HP as (_ & _ & _ & Hidem & _); [vm_compute; reflexivity |].
    exact Hidem.
  - destruct HS as [Hnum _]; [vm_compute; reflexivity |]. exact Hnum.
  - apply HI; [vm_compute; reflexivity | reflexivity].
  - destruct HC as (k & row & _ & Hsave & _ & Hnum);
      [reflexivity | vm_compute; reflexivity | vm_compute; reflexivity |].
    exists k, row. auto.
  - destruct HN as (k & row & _ & _ & Hobj & _ & Hnum);
      [reflexivity | vm_compute; reflexivity | reflexivity | vm_compute; reflexivity
      | intros H; discriminate H |].
    exists k, row. auto.
Defined.

End PhoneFacts.

(** ** Colours of diagram categories *)

Module ColorFacts.

Import BusinessAnalytics PyStr PyStrFacts Re ReFacts PatternFacts Samples.

Lemma hex_upper (c : ascii) :
  hex_digit c = true ->
  upper_hex_digit (upper_char c) = true
  /\ hex_digit (upper_char c) = true
  /\ upper_char (upper_char c) = upper_char c.
Proof. destruct c as [[] [] [] [] [] [] [] []]; vm_compute; intuition congruence. Qed.

Lemma upper_hash : upper_char "#" = "#"%char.
Proof. reflexivity. Qed.

(** the words of the colour pattern *)
Lemma color_pattern_words (c : string) :
  lang color_pattern c ->
  (exists r g b,
     c = String "#" (String r (String g (String b EmptyString)))
     /\ hex_digit r = true /\ hex_digit g = true /\ hex_digit b = true)
  \/ (exists x1 x2 x3 x4 x5 x6,
        c = String "#" (String x1 (String x2 (String x3
              (String x4 (String x5 (String x6 EmptyString))))))
        /\ hex_digit x1 = true /\ hex_digit x2 = true /\ hex_digit x3 = true
        /\ hex_digit x4 = true /\ hex_digit x5 = true /\ hex_digit x6 = true).
Proof.
  unfold color_pattern, Chr. cbn [lang Rep]. intros H. open_lang; subst;
    repeat match goal with
      | H : Ascii.eqb _ _ = true |- _ => apply Ascii.eqb_eq in H; subst
      end; cbn [String.append].
  - right. do 6 eexists. repeat split; eassumption.
  - left. do 3 eexists. repeat split; eassumption.
Qed.

Lemma six_hex_is_word (x1 x2 x3 x4 x5 x6 : ascii) :
  hex_digit x1 = true -> hex_digit x2 = true -> hex_digit x3 = true ->
  hex_digit x4 = true -> hex_digit x5 = true -> hex_digit x6 = true ->
  fullmatch color_pattern
    (String "#" (String x1 (String x2 (String x3
       (String x4 (String x5 (String x6 EmptyString))))))) = true.
Proof.
  intros H1 H2 H3 H4 H5 H6. apply fullmatch_lang.
  unfold color_pattern, Chr. cbn [lang Rep].
  exists (String "#" EmptyString),
         (String x1 (String x2 (String x3 (String x4 (String x5 (String x6 EmptyString)))))).
  split; [reflexivity |]. split; [exists "#"%char; auto |]. left.
  exists (String x1 EmptyString), (String x2 (String x3 (String x4 (String x5 (String x6 EmptyString))))).
  split; [reflexivity |]. split; [eauto |].
  exists (String x2 EmptyString), (String x3 (String x4 (String x5 (String x6 EmptyString)))).
  split; [reflexivity |]. split; [eauto |].
  exists (String x3 EmptyString), (String x4 (String x5 (String x6 EmptyString))).
  split; [reflexivity |]. split; [eauto |].
  exists (String x4 EmptyString), (String x5 (String x6 EmptyString)).
  split; [reflexivity |]. split; [eauto |].
  exists (String x5 EmptyString), (String x6 EmptyString).
  split; [reflexivity |]. split; [eauto |].
  exists (String x6 EmptyString), EmptyString.
  split; [reflexivity |]. split; [eauto | reflexivity].
Qed.

(** On a colour that is a word of the pattern, validation leaves [#] and six
    upper-case digits, and validating the result changes nothing. *)
Lemma validate_color_on_words (self : DiagramCategory) :
  fullmatch color_pattern (color self) = true ->
  exists self',
    _validate_color self = Ok self'
    /\ is_six_digit_upper_hex (color self') = true
    /\ _validate_color self' = Ok self'.
Proof.
  intros Hm. unfold _validate_color at 1. unfold match_dollar. rewrite Hm. cbn [orb negb].
  apply fullmatch_lang, color_pattern_words in Hm.
  destruct Hm as [(r & g & b & Hc & Hr & Hg & Hb)
                 | (x1 & x2 & x3 & x4 & x5 & x6 & Hc & H1 & H2 & H3 & H4 & H5 & H6)];
    rewrite Hc; cbn [len String.length Nat.eqb set_color color expand_short];
    rewrite ?Hc; cbn [upper PyStr.map].
  - destruct (hex_upper r Hr) as (Ur & Hr' & Ir).
    destruct (hex_upper g Hg) as (Ug & Hg' & Ig).
    destruct (hex_upper b Hb) as (Ub & Hb' & Ib).
    eexists. split; [reflexivity |]. split.
    + cbn [color set_color is_six_digit_upper_hex len String.length PyStr.forallb].
      rewrite Ur, Ug, Ub. reflexivity.
    + unfold _validate_color, match_dollar. cbn [color set_color]. rewrite ?upper_hash.
      rewrite (six_hex_is_word _ _ _ _ _ _ Hr' Hr' Hg' Hg' Hb' Hb').
      cbn [orb negb len String.length Nat.eqb set_color color upper PyStr.map].
      rewrite ?upper_hash, Ir, Ig, Ib. reflexivity.
  - destruct (hex_upper x1 H1) as (U1 & H1' & I1).
    destruct (hex_upper x2 H2) as (U2 & H2' & I2).
    destruct (hex_upper x3 H3) as (U3 & H3' & I3).
    destruct (hex_upper x4 H4) as (U4 & H4' & I4).
    destruct (hex_upper x5 H5) as (U5 & H5' & I5).
    destruct (hex_upper x6 H6) as (U6 & H6' & I6).
    eexists. split; [reflexivity |]. split.
    + cbn [color set_color is_six_digit_upper_hex len String.length PyStr.forallb].
      rewrite U1, U2, U3, U4, U5, U6. reflexivity.
    + unfold _validate_color, match_dollar. cbn [color set_color]. rewrite ?upper_hash.
      rewrite (six_hex_is_word _ _ _ _ _ _ H1' H2' H3' H4' H5' H6').
      cbn [orb negb len String.length Nat.eqb set_color color upper PyStr.map].
      rewrite ?upper_hash, I1, I2, I3, I4, I5, I6. reflexivity.
Qed.

(** the two colours the specification names *)
Example short_color_expands :
  _validate_color (category "#ABC") = Ok (category "#AABBCC").
Proof. vm_compute. reflexivity. Qed.

Example long_color_unchanged :
  _validate_color (category "#AABBCC") = Ok (category "#AABBCC").
Proof. vm_compute. reflexivity. Qed.

(** On a colour that validation accepts and that does not end in a line
    feed, the same holds. *)
Lemma validate_color_without_line_feed (self self' : DiagramCategory) :
  chop_newline (color self) = None ->
  _validate_color self = Ok self' ->
  is_six_digit_upper_hex (color self') = true /\ _validate_color self' = Ok self'.
Proof.
  intros Hnl Hv.
  assert (Hm : fullmatch color_pattern (color self) = true).
  { unfold _validate_color, match_dollar in Hv. rewrite Hnl, orb_false_r in Hv.
    destruct (fullmatch color_pattern (color self)); [reflexivity | discriminate]. }
  destruct (validate_color_on_words self Hm) as (s1 & H1 & Hsix & Hidem).
  assert (s1 = self') by congruence. subst s1. auto.
Qed.

(** C6 at the input on which the code departs from it: a category of the
    stored diagram 1 with the name, the value 2.0 and the order 0 in place,
    and the colour [#abc] followed by a line feed.  Every field validator
    passes (the colour has 5 characters); the pattern passes, since its [$]
    also holds before a final line feed; the colour is not expanded, since
    its length is not 4; and [save] stores it upper-cased with its line
    feed: the stored colour is not [#] and six digits. *)
Theorem color_with_line_feed_is_stored :
  cat_clean_fields two_active (category ("#abc" ++ line_feed)) = ∅
  /\ exists saved objects',
       cat_save two_active (category ("#abc" ++ line_feed)) ∅ = (Ok saved, objects')
       /\ objects' !! 1%Z = Some saved
       /\ color saved = "#ABC" ++ line_feed
       /\ is_six_digit_upper_hex (color saved) = false.
Proof.
  split; [vm_compute; reflexivity |].
  eexists _, _. split; [vm_compute; reflexivity |].
  repeat split.
Qed.

End ColorFacts.

(** ** What [clean] reports *)

Module AccumulationFacts.

Import Samples.





Section SocialMedia.

Variable URLValidator : string -> bool.


End SocialMedia.


End AccumulationFacts.

(** ** The whole decision table, the view tests, module visibility *)

Module AccessMoreFacts.

Import Mixins Views AccountsPerms AccessFacts.

Lemma has_role_permission_iff (request : HttpRequest) (allowed : list string) :
  negb (Accounts.in_list EmptyString allowed) = true ->
  _has_role_permission request allowed = true
  <-> exists r, get_user_role request = Some r /\ Accounts.in_list r allowed = true.
Proof.
  intros Hempty. unfold _has_role_permission.
  destruct (get_user_role request) as [r |].
  - destruct r as [| c r']; simpl PyStr.truthy; cbv iota.
    + split; [discriminate |]. intros (r & [= <-] & Hin).
      rewrite Hin in Hempty. discriminate.
    + split; [eauto | now intros (r & [= <-] & Hin)].
  - split; [discriminate | intros (r & [=] & _)].
Qed.

Lemma admin_only_iff (request : HttpRequest) :
  _has_role_permission request ["admin"] = true
  <-> get_user_role request = Some "admin".
Proof.
  rewrite has_role_permission_iff by reflexivity.
  unfold Accounts.in_list. cbn [existsb]. split.
  - intros (r & -> & H). rewrite orb_false_r in H. now apply String.eqb_eq in H as ->.
  - intros ->. eexists. split; reflexivity.
Qed.

(** a request that resolves to no role is denied everything *)
Lemma no_role_denied (request : HttpRequest) (m : AccessMixin) (op : Operation) :
  get_user_role request = None -> In m all_mixins -> can m op request = false.
Proof.
  intros Hrole Hm. simpl in Hm.
  destruct Hm as [<- | [<- | [<- | [<- | [<- | []]]]]];
    destruct op; simpl; try reflexivity;
    now apply no_role_no_permission.
Qed.

(** X1. The three role-gated mixin classes decide every operation by the
    resolved role alone: AdminOnlyAccessMixin allows exactly admin,
    ContentManagerAccessMixin exactly admin and content_manager,
    ApplicationsCRMAccessMixin exactly admin and crm_manager. *)
Theorem role_gated_decisions (request : HttpRequest) (op : Operation) :
  (can AdminOnlyAccessMixin op request = true
   <-> get_user_role request = Some "admin")
  /\ (can ContentManagerAccessMixin op request = true
      <-> get_user_role request = Some "admin"
          \/ get_user_role request = Some "content_manager")
  /\ (can ApplicationsCRMAccessMixin op request = true
      <-> get_user_role request = Some "admin"
          \/ get_user_role request = Some "crm_manager").
Proof.
  unfold AdminOnlyAccessMixin, ContentManagerAccessMixin, ApplicationsCRMAccessMixin.
  rewrite !role_gated_can, !has_role_permission_iff by reflexivity.
  unfold Accounts.in_list. cbn [existsb].
  repeat split.
  - intros (r & -> & H). rewrite orb_false_r in H. now apply String.eqb_eq in H as ->.
  - intros ->. eexists. split; reflexivity.
  - intros (r & -> & H). rewrite orb_false_r in H.
    apply orb_prop in H as [H | H]; apply String.eqb_eq in H as ->; auto.
  - intros [-> | ->]; eexists; split; reflexivity.
  - intros (r & -> & H). rewrite orb_false_r in H.
    apply orb_prop in H as [H | H]; apply String.eqb_eq in H as ->; auto.
  - intros [-> | ->]; eexists; split; reflexivity.
Qed.

(** X2. The action history is append-only for everybody: HistoryAccessMixin
    denies add and change to every request, and allows view and delete
    exactly to a resolved role of admin. *)
Theorem history_is_read_only (request : HttpRequest) :
  can HistoryAccessMixin Add request = false
  /\ can HistoryAccessMixin Change request = false
  /\ (can HistoryAccessMixin View request = true
      <-> get_user_role request = Some "admin")
  /\ (can HistoryAccessMixin Delete request = true
      <-> get_user_role request = Some "admin").
Proof.
  split; [reflexivity |]. split; [reflexivity |].
  pose proof (admin_only_iff request) as H.
  split; exact H.
Qed.

(** X3. The tests of the view decorators (and of the class-based view
    mixins, which are the same expressions) agree with the admin mixins on
    every user: admin_required with AdminOnlyAccessMixin,
    content_manager_required with ContentManagerAccessMixin,
    crm_manager_required with ApplicationsCRMAccessMixin; and each of them
    implies staff_required. *)
Theorem view_tests_agree_with_mixins (request : HttpRequest) :
  admin_required (user request)
  = has_module_permission AdminOnlyAccessMixin request
  /\ content_manager_required (user request)
     = has_module_permission ContentManagerAccessMixin request
  /\ crm_manager_required (user request)
     = has_module_permission ApplicationsCRMAccessMixin request
  /\ (admin_required (user request) = true
      \/ content_manager_required (user request) = true
      \/ crm_manager_required (user request) = true ->
      staff_required (user request) = true).
Proof.
  destruct request as [[auth staff r]].
  unfold admin_required, content_manager_required, crm_manager_required,
    staff_required, role_is, role_in.
  cbn [has_module_permission AdminOnlyAccessMixin ContentManagerAccessMixin
       ApplicationsCRMAccessMixin role_gated].
  unfold _has_role_permission, get_user_role. cbn [user is_authenticated is_staff role].
  destruct auth, staff; cbn [negb orb andb];
    try (repeat split; try reflexivity; intros [H | [H | H]]; discriminate H).
  destruct r as [[| c r'] |]; cbn [PyStr.truthy];
    repeat split; rewrite ?orb_false_r; try reflexivity.
  all: try (intros _; reflexivity).
  unfold Accounts.in_list. cbn [existsb]. now rewrite orb_false_r.
Qed.

(** X4. A logged-in user whose role is none of admin, crm_manager and
    content_manager is not staff, resolves to no role and is denied every
    operation by every mixin class. *)
Theorem unknown_role_fails_closed (u : Accounts.User) (m : AccessMixin) (op : Operation) :
  ~ In (Accounts.role u) ["admin"; "crm_manager"; "content_manager"] ->
  In m all_mixins ->
  Accounts.is_staff u = false
  /\ get_user_role (request_of u) = None
  /\ can m op (request_of u) = false.
Proof.
  intros Hrole Hm.
  assert (Hstaff : Accounts.is_staff u = false).
  { unfold Accounts.is_staff, Accounts.in_list. cbn [existsb].
    destruct (String.eqb (Accounts.role u) "admin") eqn:E1;
      [apply String.eqb_eq in E1; exfalso; apply Hrole; rewrite E1; simpl; auto |].
    destruct (String.eqb (Accounts.role u) "crm_manager") eqn:E2;
      [apply String.eqb_eq in E2; exfalso; apply Hrole; rewrite E2; simpl; auto |].
    destruct (String.eqb (Accounts.role u) "content_manager") eqn:E3;
      [apply String.eqb_eq in E3; exfalso; apply Hrole; rewrite E3; simpl; auto |].
    reflexivity. }
  assert (Hnone : get_user_role (request_of u) = None).
  { rewrite get_user_role_of_user, Hstaff. reflexivity. }
  split; [exact Hstaff |]. split; [exact Hnone |].
  exact (no_role_denied (request_of u) m op Hnone Hm).
Qed.

Lemma unknown_role_fails_closed_witness :
  can ContentManagerAccessMixin View
      (request_of {| Accounts.username := "guest"; Accounts.role := "editor" |}) = false.
Proof.
  refine (proj2 (proj2 (unknown_role_fails_closed
            {| Accounts.username := "guest"; Accounts.role := "editor" |}
            ContentManagerAccessMixin View _ _))).
  - simpl. intros [H | [H | [H | []]]]; discriminate H.
  - simpl. auto.
Defined.

(** X5. What [User.has_module_perms] shows of the admin index agrees with
    what the mixins allow, for every user and role: the applications app
    with ApplicationsCRMAccessMixin, the six content apps with
    ContentManagerAccessMixin, and any other app (accounts, the action
    history) with AdminOnlyAccessMixin. *)
Theorem module_visibility_agrees_with_mixins (u : Accounts.User) (app_label : string) :
  has_module_perms u "applications"
  = can ApplicationsCRMAccessMixin View (request_of u)
  /\ (In app_label content_apps ->
      has_module_perms u app_label
      = can ContentManagerAccessMixin View (request_of u))
  /\ (app_label <> "applications" -> ~ In app_label content_apps ->
      has_module_perms u app_label
      = can AdminOnlyAccessMixin View (request_of u)).
Proof.
  destruct u as [name r].
  unfold has_module_perms, is_admin, is_crm_manager, is_content_manager.
  cbn [can has_view_permission AdminOnlyAccessMixin ContentManagerAccessMixin
       ApplicationsCRMAccessMixin role_gated].
  unfold _has_role_permission. rewrite get_user_role_of_user.
  unfold Accounts.is_staff, Accounts.in_list. cbn [Accounts.role existsb].
  assert (Hcontent : In app_label content_apps ->
            existsb (String.eqb app_label) content_apps = true).
  { intros Hin. apply existsb_exists. exists app_label.
    split; [exact Hin | apply String.eqb_refl]. }
  assert (Hother : ~ In app_label content_apps ->
            existsb (String.eqb app_label) content_apps = false).
  { intros Hnin. destruct (existsb _ _) eqn:E; [| reflexivity].
    apply existsb_exists in E as (x & Hx & Heq).
    apply String.eqb_eq in Heq. subst x. contradiction. }
  assert (Happ : app_label <> "applications" ->
            String.eqb app_label "applications" = false).
  { intros Hne. now apply String.eqb_neq. }
  fold content_apps.
  destruct (String.eqb r "admin") eqn:E1.
  { apply String.eqb_eq in E1. subst r. repeat split. }
  destruct (String.eqb r "crm_manager") eqn:E2.
  { apply String.eqb_eq in E2. subst r. cbn.
    split; [reflexivity |]. split.
    - intros Hin. destruct Hin as [<- | [<- | [<- | [<- | [<- | [<- | []]]]]]];
        reflexivity.
    - intros Hne _. exact (Happ Hne). }
  destruct (String.eqb r "content_manager") eqn:E3.
  { apply String.eqb_eq in E3. subst r. cbn.
    split; [reflexivity |]. split.
    - intros Hin. exact (Hcontent Hin).
    - intros _ Hnin. exact (Hother Hnin). }
  cbn. repeat split.
Qed.

Lemma module_visibility_agrees_with_mixins_witness :
  has_module_perms Samples.crm_user "news"
  = can ContentManagerAccessMixin View (request_of Samples.crm_user)
  /\ has_module_perms Samples.content_user "accounts"
     = can AdminOnlyAccessMixin View (request_of Samples.content_user).
Proof.
  split.
  - apply (proj1 (proj2 (module_visibility_agrees_with_mixins Samples.crm_user "news"))).
    simpl. auto 10.
  - apply (proj2 (proj2 (module_visibility_agrees_with_mixins Samples.content_user "accounts"))).
    + discriminate.
    + simpl. intros H. repeat (destruct H as [H | H]; [discriminate H |]). exact H.
Defined.

End AccessMoreFacts.

(** ** Users: unique phones and e-mail addresses *)

Module UserFacts.

Import Users DjangoFacts.

Lemma Ok_inj {A} (a b : A) : Ok a = Ok b -> a = b.
Proof. congruence. Qed.

Section Clean.

Variable normalize_email : string -> string.
Variable normalize_username : string -> string.
Variable get_full_name : User -> string.
Variable first : gmap Z User -> option User.
Variable django_checks_pass : User -> User -> gmap Z User -> bool.

(** an empty answer of [first] means an empty queryset *)
Hypothesis first_none : forall qs, first qs = None -> qs = ∅.

Lemma no_duplicate (P : Z * User -> Prop) `{!forall kv, Decision (P kv)}
    (k : option Z) (objects : gmap Z User) (j : Z) (u : User) :
  first (exclude_pk k (filter P objects)) = None ->
  objects !! j = Some u -> k <> Some j -> ~ P (j, u).
Proof.
  intros Hf Hj Hne HP. apply first_none in Hf.
  assert (Hin : exclude_pk k (filter P objects) !! j = Some u).
  { unfold exclude_pk. destruct k as [k |].
    - rewrite lookup_delete_ne by congruence. now apply map_lookup_filter_Some.
    - now apply map_lookup_filter_Some. }
  rewrite Hf, lookup_empty in Hin. discriminate.
Qed.

(** what a successful [clean] establishes *)
Lemma clean_ok (self self' : User) (objects : gmap Z User) :
  clean normalize_email normalize_username get_full_name first self objects = Ok self' ->
  pk self' = pk self
  /\ (PyStr.truthy (email self') = true ->
      forall j u, objects !! j = Some u -> pk self <> Some j -> email u <> email self')
  /\ (PyStr.truthy (phone self') = true ->
      forall j u, objects !! j = Some u -> pk self <> Some j -> phone u <> phone self').
Proof.
  unfold clean.
  set (s0 := set_email _ (set_username _ self)).
  assert (Hpk0 : pk s0 = pk self) by reflexivity.
  assert (Hph0 : phone s0 = phone self) by reflexivity.
  clearbody s0.
  destruct (PyStr.truthy (email s0)) eqn:Hte.
  - unfold _validate_email at 1.
    destruct (negb _); [discriminate |].
    destruct (first (exclude_pk (pk s0) (filter (fun kv => email kv.2 = email s0) objects)))
      as [dup |] eqn:Hdup; [discriminate |].
    cbn [mbind result_bind bind].
    assert (Hemail : forall j u, objects !! j = Some u -> pk self <> Some j ->
                       email u <> email s0).
    { intros j u Hj Hne.
      eapply (no_duplicate (fun kv => email kv.2 = email s0)) in Hdup;
        [exact Hdup | exact Hj | congruence]. }
    destruct (PyStr.truthy (phone s0)) eqn:Htp.
    + unfold _validate_phone.
      destruct (negb _); [discriminate |]. cbn [mbind result_bind bind].
      unfold _check_phone_duplicate. cbn [phone set_phone pk].
      destruct (negb _) eqn:Htp'.
      * intros Hok; apply Ok_inj in Hok; subst self'. cbn. split; [exact Hpk0 |]. split; [auto |].
        apply negb_true_iff in Htp'. congruence.
      * match goal with
        | |- context [first ?q] => destruct (first q) as [dup |] eqn:Hdup2
        end; [discriminate |].
        intros Hok; apply Ok_inj in Hok; subst self'. cbn. split; [exact Hpk0 |]. split; [auto |].
        intros _ j u Hj Hne.
        eapply (no_duplicate (fun kv => phone kv.2 = Patterns.clean_phone (phone s0)))
          in Hdup2; [exact Hdup2 | exact Hj | cbn; congruence].
    + intros Hok; apply Ok_inj in Hok; subst self'. split; [exact Hpk0 |]. split; [auto | congruence].
  - cbn [mbind result_bind bind].
    destruct (PyStr.truthy (phone s0)) eqn:Htp.
    + unfold _validate_phone.
      destruct (negb _); [discriminate |]. cbn [mbind result_bind bind].
      unfold _check_phone_duplicate. cbn [phone set_phone pk].
      destruct (negb _) eqn:Htp'.
      * intros Hok; apply Ok_inj in Hok; subst self'. cbn. split; [exact Hpk0 |]. split; [congruence |].
        apply negb_true_iff in Htp'. congruence.
      * match goal with
        | |- context [first ?q] => destruct (first q) as [dup |] eqn:Hdup2
        end; [discriminate |].
        intros Hok; apply Ok_inj in Hok; subst self'. cbn. split; [exact Hpk0 |]. split; [congruence |].
        intros _ j u Hj Hne.
        eapply (no_duplicate (fun kv => phone kv.2 = Patterns.clean_phone (phone s0)))
          in Hdup2; [exact Hdup2 | exact Hj | cbn; congruence].
    + intros Hok; apply Ok_inj in Hok; subst self'. split; [exact Hpk0 |]. split; congruence.
Qed.

(** a field stays unique when a row is stored whose value no other row has *)
Lemma unique_after_insert (field : User -> string) (objects : gmap Z User)
    (k : Z) (saved : User) :
  (forall k1 k2 u1 u2,
     objects !! k1 = Some u1 -> objects !! k2 = Some u2 -> k1 <> k2 ->
     PyStr.truthy (field u1) = true -> field u1 <> field u2) ->
  (PyStr.truthy (field saved) = true ->
   forall j u, objects !! j = Some u -> j <> k -> field u <> field saved) ->
  forall k1 k2 u1 u2,
    <[k := saved]> objects !! k1 = Some u1 ->
    <[k := saved]> objects !! k2 = Some u2 -> k1 <> k2 ->
    PyStr.truthy (field u1) = true -> field u1 <> field u2.
Proof.
  intros Hinv Hnew k1 k2 u1 u2 H1 H2 Hne Ht.
  destruct (decide (k = k1)) as [<- | Hk1]; destruct (decide (k = k2)) as [<- | Hk2].
  - contradiction.
  - rewrite lookup_insert_eq in H1. rewrite lookup_insert_ne in H2 by exact Hk2.
    injection H1 as <-. intros E. symmetry in E. revert E. eapply Hnew; eauto.
  - rewrite lookup_insert_eq in H2. rewrite lookup_insert_ne in H1 by exact Hk1.
    injection H2 as <-.
    destruct (PyStr.truthy (field saved)) eqn:Hs.
    + eapply Hnew; eauto.
    + intros E. rewrite E in Ht. congruence.
  - rewrite lookup_insert_ne in H1 by exact Hk1.
    rewrite lookup_insert_ne in H2 by exact Hk2. eapply Hinv; eauto.
Qed.

Lemma user_save_spec (self : User) (objects : gmap Z User) :
  (save normalize_email normalize_username get_full_name first django_checks_pass self objects).2 = objects
  \/ exists cleaned saved k,
       clean normalize_email normalize_username get_full_name first self objects = Ok cleaned
       /\ save normalize_email normalize_username get_full_name first django_checks_pass self objects
          = (Some saved, <[k := saved]> objects)
       /\ email saved = email cleaned /\ phone saved = phone cleaned
       /\ (pk self = None -> objects !! k = None)
       /\ (forall k0, pk self = Some k0 -> k = k0).
Proof.
  unfold save.
  destruct (clean _ _ _ _ self objects) as [cleaned | e] eqn:Hc; [| now left].
  destruct (django_checks_pass self cleaned objects); [| now left].
  right. apply clean_ok in Hc as (Hpk & _).
  destruct (Model_save cleaned objects) as [saved objects'] eqn:Hms.
  apply Model_save_stored in Hms as (k & _ & _ & -> & Snew & Sold); [| reflexivity].
  exists cleaned, saved, k. split; [reflexivity |]. split; [reflexivity |].
  cbn in Snew, Sold.
  destruct (pk cleaned) as [k0 |] eqn:Ek.
  - destruct (Sold k0 eq_refl) as [-> ->]. repeat split; congruence.
  - destruct (Snew eq_refl) as [Hfresh ->]. cbn. repeat split; auto; congruence.
Qed.

Lemma save_keeps_unique (self : User) (objects : gmap Z User) :
  (phones_unique objects ->
   phones_unique (save normalize_email normalize_username get_full_name first django_checks_pass
                    self objects).2)
  /\ (emails_unique objects ->
      emails_unique (save normalize_email normalize_username get_full_name first django_checks_pass
                       self objects).2).
Proof.
  destruct (user_save_spec self objects)
    as [-> | (cleaned & saved & k & Hc & -> & He & Hp & Hnew & Hold)]; [auto |].
  apply clean_ok in Hc as (Hpk & Hemail & Hphone). cbn [snd].
  assert (Hother : forall j u, objects !! j = Some u -> j <> k -> pk self <> Some j).
  { intros j u Hj Hne E. apply Hne. symmetry. exact (Hold j E). }
  split; intros Hinv.
  - refine (unique_after_insert phone objects k saved Hinv _).
    rewrite Hp. intros Ht j u Hj Hne. eapply Hphone; eauto.
  - refine (unique_after_insert email objects k saved Hinv _).
    rewrite He. intros Ht j u Hj Hne. eapply Hemail; eauto.
Qed.

(** X6. No two users share a phone number: along any sequence of
    [User.save] calls, a table in which the phone numbers that are set are
    pairwise different stays so (a save that would break it is rejected by
    [_check_phone_duplicate]). *)
Theorem user_phones_stay_unique (users : list User) (objects : gmap Z User) :
  phones_unique objects ->
  phones_unique (run_saves normalize_email normalize_username get_full_name first django_checks_pass
                   users objects).
Proof.
  unfold run_saves. revert objects.
  induction users as [| u users IH]; intros objects Hinv; [exact Hinv |].
  cbn [foldl]. apply IH. now apply save_keeps_unique.
Qed.

(** X7. No two users share an e-mail address: along any sequence of
    [User.save] calls, a table in which the addresses that are set are
    pairwise different stays so. *)
Theorem user_emails_stay_unique (users : list User) (objects : gmap Z User) :
  emails_unique objects ->
  emails_unique (run_saves normalize_email normalize_username get_full_name first django_checks_pass
                   users objects).
Proof.
  unfold run_saves. revert objects.
  induction users as [| u users IH]; intros objects Hinv; [exact Hinv |].
  cbn [foldl]. apply IH. now apply save_keeps_unique.
Qed.

End Clean.

Lemma first_by_key_none (qs : gmap Z User) : first_by_key qs = None -> qs = ∅.
Proof.
  unfold first_by_key. destruct (map_to_list qs) as [| kv l] eqn:E; [| discriminate].
  intros _. now apply map_to_list_empty_iff.
Qed.

Lemma empty_phones_unique : phones_unique ∅.
Proof. intros k1 k2 u1 u2 H. now rewrite lookup_empty in H. Qed.

Lemma empty_emails_unique : emails_unique ∅.
Proof. intros k1 k2 u1 u2 H. now rewrite lookup_empty in H. Qed.

(** two registrations with one phone number, written differently *)
Lemma user_phones_stay_unique_witness :
  phones_unique
    (run_saves id id username first_by_key (fun _ _ _ => true)
       [sample_user None "ivan" "ivan@example.com" "+7 (999) 123-45-67";
        sample_user None "petr" "petr@example.com" "+7 999 123 45 67"] ∅).
Proof.
  apply (user_phones_stay_unique id id username first_by_key (fun _ _ _ => true)
           first_by_key_none).
  exact empty_phones_unique.
Defined.

Lemma user_emails_stay_unique_witness :
  emails_unique
    (run_saves id id username first_by_key (fun _ _ _ => true)
       [sample_user None "ivan" "ivan@example.com" "+7 (999) 123-45-67";
        sample_user None "petr" "ivan@example.com" EmptyString] ∅).
Proof.
  apply (user_emails_stay_unique id id username first_by_key (fun _ _ _ => true)
           first_by_key_none).
  exact empty_emails_unique.
Defined.

(** the second of the two registrations is turned down *)
Example second_registration_rejected :
  size (run_saves id id username first_by_key (fun _ _ _ => true)
          [sample_user None "ivan" "ivan@example.com" "+7 (999) 123-45-67";
           sample_user None "petr" "petr@example.com" "+7 999 123 45 67"] ∅) = 1.
Proof. vm_compute. reflexivity. Qed.

End UserFacts.

(** ** Diagrams: the admin's view of the limit, the bulk actions *)

Module DiagramAdminFacts.

Import BusinessAnalytics DiagramAdmin DiagramFacts DjangoFacts.

Implicit Types (objects : gmap Z Diagram) (d obj : Diagram) (k : Z).

(** X8. For a diagram that is inactive, on the form and in the table, the
    admin makes is_active read-only exactly when validation would reject
    its activation: [is_max_active_reached] and [_validate_active_limit]
    count the same rows. *)
Theorem read_only_iff_activation_rejected obj objects :
  is_active obj = false ->
  (forall k row, pk obj = Some k -> objects !! k = Some row -> is_active row = false) ->
  is_active_read_only (Some obj) objects
  = negb (is_ok (_validate_active_limit (set_is_active true obj) objects)).
Proof.
  intros Ha Hrow.
  unfold is_active_read_only, is_max_active_reached, _validate_active_limit.
  rewrite Ha, andb_false_r, andb_true_r. cbn [is_active set_is_active].
  assert (Hqs : active_qs (set_is_active true obj) objects
                = filter_is_active true objects).
  { unfold active_qs. cbn [pk set_is_active].
    destruct (pk_truthy (pk obj)); [| reflexivity].
    destruct (pk obj) as [k |] eqn:Hpk; [| reflexivity].
    unfold exclude_pk. apply delete_id.
    destruct (filter_is_active true objects !! k) as [row |] eqn:E; [| reflexivity].
    unfold filter_is_active in E. apply map_lookup_filter_Some in E as [Hk Hact].
    cbn in Hact. rewrite (Hrow k row eq_refl Hk) in Hact. discriminate. }
  rewrite Hqs.
  destruct (MAX_ACTIVE_DIAGRAMS <=? count (filter_is_active true objects))%nat eqn:E.
  - apply Nat.leb_le in E. cbn [is_ok negb]. apply Z.leb_le. lia.
  - apply Nat.leb_gt in E. cbn [is_ok negb]. apply Z.leb_gt. lia.
Qed.

Lemma read_only_iff_activation_rejected_witness :
  is_active_read_only (Some (Samples.dia None false)) Samples.two_active = true.
Proof.
  rewrite (read_only_iff_activation_rejected (Samples.dia None false) Samples.two_active).
  - vm_compute. reflexivity.
  - reflexivity.
  - intros k row Hpk. discriminate Hpk.
Defined.

Lemma deactivate_inactive d : is_active (deactivate d) = false.
Proof. unfold deactivate. destruct (is_active d) eqn:E; [reflexivity | exact E]. Qed.

Lemma deactivate_idempotent d : deactivate (deactivate d) = deactivate d.
Proof. unfold deactivate at 1. now rewrite deactivate_inactive. Qed.

Lemma make_inactive_lookup (selected : list Z) objects k :
  make_inactive selected objects !! k
  = if bool_decide (k ∈ selected) then deactivate <$> objects !! k else objects !! k.
Proof.
  unfold make_inactive. fold deactivate. revert objects.
  induction selected as [| a selected IH]; intros objects; cbn [foldl].
  - rewrite bool_decide_eq_false_2; [reflexivity | apply not_elem_of_nil].
  - change (fun d => if is_active d then set_is_active false d else d) with deactivate in *.
    rewrite IH. destruct (decide (a = k)) as [-> | Hne].
    + rewrite lookup_alter_eq.
      rewrite (bool_decide_eq_true_2 (k ∈ k :: selected)) by (apply elem_of_cons; auto).
      destruct (bool_decide (k ∈ selected)); [| reflexivity].
      destruct (objects !! k); cbn; [now rewrite deactivate_idempotent | reflexivity].
    + rewrite lookup_alter_ne by exact Hne.
      destruct (decide (k ∈ selected)) as [Hin | Hnin].
      * rewrite !bool_decide_eq_true_2; [reflexivity | apply elem_of_cons; auto | exact Hin].
      * rewrite !bool_decide_eq_false_2; [reflexivity | | exact Hnin].
        intros [E | Hin]%elem_of_cons; [congruence | contradiction].
Qed.

(** X9. [make_inactive] leaves every selected diagram inactive, leaves the
    rows outside the selection as they were, adds and removes no row, and
    changes nothing of a row but its is_active flag. *)
Theorem make_inactive_effect (selected : list Z) objects k :
  (k ∈ selected ->
   forall row, make_inactive selected objects !! k = Some row -> is_active row = false)
  /\ (k ∉ selected -> make_inactive selected objects !! k = objects !! k)
  /\ (is_Some (make_inactive selected objects !! k) <-> is_Some (objects !! k))
  /\ (forall row', make_inactive selected objects !! k = Some row' ->
      exists row, objects !! k = Some row
                  /\ (row' = row \/ row' = set_is_active false row)).
Proof.
  rewrite make_inactive_lookup.
  split; [| split; [| split]].
  - intros Hin row. rewrite bool_decide_eq_true_2 by exact Hin.
    destruct (objects !! k) as [d |]; cbn; [| discriminate].
    intros [= <-]. apply deactivate_inactive.
  - intros Hnin. now rewrite bool_decide_eq_false_2.
  - destruct (bool_decide _); [| reflexivity].
    destruct (objects !! k); cbn; split; intros [x Hx]; eauto; discriminate.
  - intros row'. destruct (bool_decide _); [| eauto].
    destruct (objects !! k) as [d |]; cbn; [| discriminate].
    intros [= <-]. exists d. split; [reflexivity |].
    unfold deactivate. destruct (is_active d); auto.
Qed.

Lemma make_inactive_effect_witness :
  make_inactive [1%Z] Samples.two_active !! 2%Z = Samples.two_active !! 2%Z.
Proof.
  apply (proj1 (proj2 (make_inactive_effect [1%Z] Samples.two_active 2%Z))).
  intros H. apply elem_of_cons in H as [H | H]; [discriminate H |].
  exact (not_elem_of_nil _ H).
Defined.

Lemma activate_rows_lookup (selected : list Z) objects (rows : list Diagram) :
  (forall d, d ∈ rows ->
     exists j row, d = set_pk (Some j) row /\ objects !! j = Some row
                   /\ is_active row = false /\ j ∈ selected) ->
  forall current,
    (forall k, current !! k = objects !! k
               \/ exists row', current !! k = Some row'
                               /\ activated_from objects selected k row') ->
    forall k,
      let result :=
        foldl (fun objects diagram =>
                 (Model_save (set_is_active true diagram) objects).2) current rows in
      result !! k = objects !! k
      \/ exists row', result !! k = Some row' /\ activated_from objects selected k row'.
Proof.
  induction rows as [| d rows IH]; intros Hrows current Hcur k; cbn [foldl].
  - apply Hcur.
  - apply IH.
    + intros d' Hd'. apply Hrows. apply elem_of_cons; auto.
    + clear k. intros k.
      destruct (Hrows d (proj2 (elem_of_cons rows d d) (or_introl eq_refl))) as (j & row & -> & Hj & Hact & Hsel).
      unfold Model_save. cbn [get_pk Diagram_model pk set_is_active set_pk snd].
      destruct (decide (j = k)) as [<- | Hne].
      * right. rewrite lookup_insert_eq. eexists. split; [reflexivity |].
        exists row. auto.
      * rewrite lookup_insert_ne by exact Hne. apply Hcur.
Qed.

Lemma make_active_lookup (selected : list Z) objects k :
  make_active selected objects !! k = objects !! k
  \/ exists row', make_active selected objects !! k = Some row'
                  /\ activated_from objects selected k row'.
Proof.
  unfold make_active. destruct (_ <=? 0)%Z; [now left |].
  apply (activate_rows_lookup selected objects); [| now left].
  intros d Hd. apply subseteq_take in Hd.
  apply list_elem_of_In, filter_In in Hd as [Hd Hact].
  apply list_elem_of_In in Hd. unfold rows_of in Hd.
  apply list_elem_of_omap in Hd as (j & Hj & Hrow).
  destruct (objects !! j) as [row |] eqn:E; [| discriminate].
  cbn in Hrow. injection Hrow as <-.
  exists j, row. repeat split; auto.
  apply negb_true_iff in Hact. exact Hact.
Qed.

(** X10. [make_active] only ever turns inactive rows of the selection
    active: a row outside the selection, and a row that is active, is left
    as it was; no row is added or removed; and when the limit is reached the
    table is returned unchanged. *)
Theorem make_active_effect (selected : list Z) objects k :
  (k ∉ selected -> make_active selected objects !! k = objects !! k)
  /\ (forall row, objects !! k = Some row -> is_active row = true ->
      make_active selected objects !! k = Some row)
  /\ (is_Some (make_active selected objects !! k) <-> is_Some (objects !! k))
  /\ (forall row', make_active selected objects !! k = Some row' ->
      exists row, objects !! k = Some row
                  /\ (row' = row
                      \/ (is_active row = false
                          /\ row' = set_is_active true (set_pk (Some k) row))))
  /\ (MAX_ACTIVE_DIAGRAMS <= count (filter_is_active true objects) ->
      make_active selected objects = objects).
Proof.
  pose proof (make_active_lookup selected objects k) as Hk.
  split; [| split; [| split; [| split]]].
  - intros Hnin. destruct Hk as [-> | (row' & _ & row & _ & _ & Hin & _)];
      [reflexivity | contradiction].
  - intros row Hrow Hact.
    destruct Hk as [-> | (row' & _ & row0 & Hrow0 & Hina & _)]; [exact Hrow |].
    congruence.
  - destruct Hk as [-> | (row' & -> & row & -> & _)]; [reflexivity |].
    split; eauto.
  - intros row' Hres.
    destruct Hk as [E | (row'' & E & row & Hrow & Hina & _ & ->)].
    + rewrite E in Hres. eauto.
    + rewrite E in Hres. injection Hres as <-. eauto.
  - intros Hfull. unfold make_active.
    destruct (_ <=? 0)%Z eqn:E; [reflexivity |].
    apply Z.leb_gt in E. unfold count in *. lia.
Qed.

Lemma make_active_effect_witness :
  make_active [3%Z] Samples.two_active = Samples.two_active.
Proof.
  apply (proj2 (proj2 (proj2 (proj2 (make_active_effect [3%Z] Samples.two_active 0%Z))))).
  vm_compute. lia.
Defined.

Lemma unit_given_set_pk (key : option Z) d : unit_given (set_pk key d) = unit_given d.
Proof.
  unfold unit_given, _validate_measurement_unit. cbn [set_pk Diagram_model measurement_unit].
  now destruct (_ || _).
Qed.

Lemma unit_given_set_is_active b d : unit_given (set_is_active b d) = unit_given d.
Proof.
  unfold unit_given, _validate_measurement_unit. cbn [set_is_active measurement_unit].
  now destruct (_ || _).
Qed.

Lemma form_save_keeps_units obj objects :
  map_Forall (fun _ d => unit_given d = true) objects ->
  map_Forall (fun _ d => unit_given d = true) (form_save obj objects).2.
Proof.
  intros Hall. unfold form_save.
  destruct (clean obj objects) as [obj' | e] eqn:Hc; [| exact Hall].
  assert (Hu : unit_given obj' = true).
  { unfold clean in Hc.
    destruct (_validate_active_limit obj objects) as [o1 |] eqn:H1; [| discriminate].
    cbn [mbind result_bind bind] in Hc.
    assert (o1 = obj).
    { unfold _validate_active_limit in H1.
      destruct (is_active obj); [destruct (_ <=? _)%nat |]; congruence. }
    subst o1. unfold unit_given.
    assert (obj' = obj).
    { unfold _validate_measurement_unit in Hc.
      destruct (_ || _); [discriminate | congruence]. }
    subst obj'. now rewrite Hc. }
  unfold Model_save. destruct (get_pk obj'); cbn [snd];
    apply map_Forall_insert_2; auto.
  now rewrite unit_given_set_pk.
Qed.

(** X11. Every stored diagram names its unit of measurement: along any
    sequence of admin actions (form saves, the bulk actions, deletions) a
    table whose rows all have a unit that is not blank keeps this property. *)
Theorem diagrams_keep_their_unit (actions : list AdminAction) objects :
  map_Forall (fun _ d => unit_given d = true) objects ->
  map_Forall (fun _ d => unit_given d = true) (run_actions actions objects).
Proof.
  unfold run_actions. revert objects.
  induction actions as [| a actions IH]; intros objects Hall; [exact Hall |].
  cbn [foldl]. apply IH. destruct a as [obj | selected | selected | k]; cbn [run_action].
  - now apply form_save_keeps_units.
  - intros k row' Hres.
    destruct (make_active_lookup selected objects k)
      as [E | (row'' & E & row & Hrow & Hina & _ & ->)]; rewrite E in Hres.
    + exact (Hall k row' Hres).
    + assert (Hrow' : row' = set_is_active true (set_pk (Some k) row)) by congruence.
      rewrite Hrow', unit_given_set_is_active, unit_given_set_pk.
      exact (Hall k row Hrow).
  - intros k row' Hres. rewrite make_inactive_lookup in Hres.
    destruct (bool_decide (k ∈ selected)); [| exact (Hall k row' Hres)].
    destruct (objects !! k) as [row |] eqn:Hrow; cbn in Hres; [| discriminate].
    injection Hres as <-. unfold deactivate.
    destruct (is_active row); [rewrite unit_given_set_is_active |];
      exact (Hall k row Hrow).
  - now apply map_Forall_delete.
Qed.

Lemma diagrams_keep_their_unit_witness :
  map_Forall (fun _ d => unit_given d = true)
             (run_actions Samples.three_saves ∅).
Proof.
  apply diagrams_keep_their_unit. apply map_Forall_empty.
Defined.

End DiagramAdminFacts.

(** ** Inquiries: stamps under the bulk actions, contacts, shapes *)

Module ApplicationMoreFacts.

Import Applications ApplicationAdmin ApplicationFacts DjangoFacts.

Lemma queryset_update_lookup (f : Application -> Application) (selected : list Z)
    (objects : gmap Z Application) (k : Z) (row' : Application) :
  queryset_update f selected objects !! k = Some row' ->
  objects !! k = Some row' \/ exists row, row' = f row.
Proof.
  unfold queryset_update. revert objects.
  induction selected as [| a selected IH]; intros objects; cbn [foldl]; [auto |].
  intros H. apply IH in H as [H | H]; [| auto].
  destruct (decide (a = k)) as [-> | Hne].
  - rewrite lookup_alter_eq in H. destruct (objects !! k); cbn in H; [| discriminate].
    injection H as <-. eauto.
  - rewrite lookup_alter_ne in H by exact Hne. auto.
Qed.

Lemma queryset_update_consistent (f : Application -> Application) (selected : list Z)
    (objects : gmap Z Application) :
  (forall row, stamp_consistent (f row)) ->
  map_Forall (fun _ => stamp_consistent) objects ->
  map_Forall (fun _ => stamp_consistent) (queryset_update f selected objects).
Proof.
  intros Hf Hall k row' H.
  apply queryset_update_lookup in H as [H | [row ->]]; [exact (Hall k row' H) | apply Hf].
Qed.

Section Run.

Variable validate_email : string -> bool.
Variable notify : Application -> NotifyOutcome.

(** X12. In the table of inquiries, processed_at is set exactly on the rows
    whose status is processed, and this survives every sequence of saves
    and of the four bulk actions of the admin. *)
Theorem stamps_stay_consistent (actions : list Action) (objects : gmap Z Application) :
  map_Forall (fun _ => stamp_consistent) objects ->
  map_Forall (fun _ => stamp_consistent)
             (run_actions validate_email notify actions objects).
Proof.
  unfold run_actions. revert objects.
  induction actions as [| a actions IH]; intros objects Hall; [exact Hall |].
  cbn [foldl]. apply IH.
  destruct a as [now self | sel | sel | now sel | sel]; cbn [run_action].
  - destruct (save_spec validate_email notify now self objects)
      as [(e & _ & -> & _) | (saved & k & Hres & _ & -> & Hrest)]; [exact Hall |].
    apply map_Forall_insert_2; [| exact Hall].
    destruct Hrest as (_ & Hst & Hpa & _).
    unfold stamp_consistent. rewrite Hst, Hpa.
    destruct (String.eqb_spec (status self) "processed") as [E | E].
    + split; [auto | intros _; destruct (processed_at self); eauto].
    + split; [intros [t Ht]; discriminate | contradiction].
  - apply queryset_update_consistent; [| exact Hall].
    intros row. split; [intros [t Ht]; discriminate | discriminate].
  - apply queryset_update_consistent; [| exact Hall].
    intros row. split; [intros [t Ht]; discriminate | discriminate].
  - apply queryset_update_consistent; [| exact Hall].
    intros row. split; [reflexivity | intros _; cbn; eauto].
  - apply queryset_update_consistent; [| exact Hall].
    intros row. split; [intros [t Ht]; discriminate | discriminate].
Qed.

Lemma full_clean_raises_all (clean_fields : Application -> gmap string (list string))
    (self : Application) (message : string) :
  clean self = Raise (Message message) ->
  exists e, full_clean clean_fields clean self = Raise e
            /\ has_field_error NON_FIELD_ERRORS e = true.
Proof.
  intros Hc. unfold full_clean. rewrite Hc. eexists. split; [reflexivity |].
  cbn [update_error_dict has_field_error].
  apply bool_decide_eq_true_2.
  rewrite lookup_union_with, lookup_singleton_eq.
  destruct (clean_fields self !! NON_FIELD_ERRORS); cbn; eauto.
Qed.

(** X13. An inquiry needs a way to answer it: with neither phone nor
    e-mail the save is rejected with an error that belongs to no field,
    nothing is stored and nobody is notified; and an inquiry that is stored
    has a phone or an e-mail. *)
Theorem inquiry_needs_a_contact (now : Z) (self : Application)
    (objects : gmap Z Application) :
  let o := save validate_email notify now self objects in
  (PyStr.truthy (phone self) = false -> PyStr.truthy (email self) = false ->
   exists e, save_result o = Raise e
             /\ has_field_error NON_FIELD_ERRORS e = true
             /\ save_objects o = objects /\ save_notified o = [])
  /\ (forall saved, save_result o = Ok saved ->
      PyStr.truthy (phone saved) = true \/ PyStr.truthy (email saved) = true).
Proof.
  cbn zeta. split.
  - intros Hp He. unfold save.
    set (stamped := if String.eqb (status self) "processed" && is_none (processed_at self)
                    then set_processed_at (Some now) self
                    else if negb (String.eqb (status self) "processed")
                         then set_processed_at None self else self).
    assert (Hs : phone stamped = phone self /\ email stamped = email self).
    { unfold stamped. destruct (_ && _); [auto |]. now destruct (negb _). }
    destruct Hs as [Hsp Hse].
    assert (Hc : clean stamped
                 = Raise (Message "Необходимо указать либо телефон, либо email адрес.")).
    { unfold clean. now rewrite Hsp, Hse, Hp, He. }
    destruct (full_clean_raises_all (clean_fields validate_email) stamped _ Hc)
      as (e & -> & Hall).
    exists e. cbn. auto.
  - intros saved Hres.
    unfold save in Hres.
    set (stamped := if String.eqb (status self) "processed" && is_none (processed_at self)
                    then set_processed_at (Some now) self
                    else if negb (String.eqb (status self) "processed")
                         then set_processed_at None self else self) in *.
    destruct (full_clean _ _ stamped) as [cleaned | e] eqn:Hfc; [| discriminate].
    apply full_clean_ok in Hfc as [Hclean _].
    destruct (Model_save cleaned objects) as [saved' objects'] eqn:Hms.
    apply Model_save_stored in Hms as (j & _ & _ & _ & Snew & Sold); [| reflexivity].
    assert (saved' = saved).
    { destruct (negb (pk_truthy (pk self)));
        [destruct (notify saved') |]; cbn in Hres; congruence. }
    subst saved'.
    assert (Hcontact : PyStr.truthy (phone cleaned) = true
                       \/ PyStr.truthy (email cleaned) = true).
    { unfold clean in Hclean.
      destruct (PyStr.truthy (phone stamped)) eqn:Hp; cbn [negb andb] in Hclean.
      - destruct (_validate_phone stamped) as [s1 |] eqn:H1; [| discriminate].
        cbn [mbind result_bind bind] in Hclean.
        assert (Hs1 : PyStr.truthy (phone s1) = true).
        { unfold _validate_phone in H1.
          destruct (Re.match_dollar Patterns.phone_regex
                      (Patterns.clean_phone (phone stamped))) eqn:Hm; [| discriminate].
          injection H1 as <-. cbn [phone set_phone].
          destruct (Patterns.clean_phone (phone stamped)); [discriminate Hm | reflexivity]. }
        destruct (PyStr.truthy (email s1)).
        + apply _validate_email_fields in Hclean. subst cleaned. auto.
        + injection Hclean as <-. auto.
      - destruct (PyStr.truthy (email stamped)) eqn:He; cbn [negb] in Hclean;
          [| discriminate].
        cbn [mbind result_bind bind] in Hclean. rewrite He in Hclean.
        apply _validate_email_fields in Hclean. subst cleaned. auto. }
    cbn in Snew, Sold. destruct (pk cleaned) as [k0 |] eqn:Ek.
    + destruct (Sold k0 eq_refl) as [_ ->]. exact Hcontact.
    + destruct (Snew eq_refl) as [_ ->]. exact Hcontact.
Qed.

End Run.

Lemma stamps_stay_consistent_witness :
  map_Forall (fun _ => stamp_consistent)
    (run_actions Samples.accepts_all Samples.notify_ok
       [Save 1000 Samples.app0; MarkNew [1%Z]; MarkProcessed 2000 [1%Z; 5%Z]] ∅).
Proof.
  apply stamps_stay_consistent. apply map_Forall_empty.
Defined.

Lemma inquiry_needs_a_contact_witness :
  exists e,
    save_result (save Samples.accepts_all Samples.notify_ok 1000
                   (set_phone EmptyString Samples.app0) ∅) = Raise e
    /\ has_field_error NON_FIELD_ERRORS e = true.
Proof.
  destruct (proj1 (inquiry_needs_a_contact Samples.accepts_all Samples.notify_ok 1000
                     (set_phone EmptyString Samples.app0) ∅) eq_refl eq_refl)
    as (e & H1 & H2 & _).
  exists e. auto.
Defined.

(** X14. The preview of a message is the message itself when it has at
    most 50 characters, and otherwise its first 50 characters followed by
    three dots: it never has more than 53 characters. *)
Theorem message_preview_bounded (self : Application) :
  PyStr.len (message_preview self) <= 53
  /\ (PyStr.len (message self) <= 50 -> message_preview self = message self)
  /\ (50 < PyStr.len (message self) ->
      message_preview self = String.substring 0 50 (message self) ++ "..."
      /\ PyStr.len (message_preview self) = 53).
Proof.
  unfold message_preview, PyStr.len.
  assert (Hsub : forall n s, n <= String.length s ->
                   String.length (String.substring 0 n s) = n).
  { induction n as [| n IH]; intros [| c s] Hn; cbn in *;
      try reflexivity; try lia.
    rewrite IH; lia. }
  assert (Happ : forall s t, String.length (s ++ t) = String.length s + String.length t).
  { induction s as [| c s IH]; intros t; cbn; [reflexivity | now rewrite IH]. }
  destruct (message self) as [| c s] eqn:Hm; cbn [PyStr.truthy].
  - cbn. split; [lia |]. split; [reflexivity |]. intros; lia.
  - destruct (50 <? String.length (String c s))%nat eqn:E.
    + apply Nat.ltb_lt in E. rewrite Happ, Hsub by lia.
      change (String.length "...") with 3.
      split; [lia |]. split; [intros; lia |]. intros _. split; [reflexivity | lia].
    + apply Nat.ltb_ge in E. split; [lia |]. split; [reflexivity |]. intros; lia.
Qed.

End ApplicationMoreFacts.

(** ** Colours: what validation stores *)

Module ColorMoreFacts.

Import BusinessAnalytics PyStr PyStrFacts Re ReFacts PatternFacts ColorFacts DjangoFacts.

Lemma chop_newline_append (s s' : string) :
  chop_newline s = Some s' -> s = s' ++ String "010" EmptyString.
Proof.
  revert s'. induction s as [| c s IH]; intros s'; [discriminate |].
  cbn [chop_newline]. destruct s as [| c' s''].
  - destruct (Ascii.eqb_spec c "010"); [| discriminate].
    intros [= <-]. now subst c.
  - destruct (chop_newline (String c' s'')) as [t |]; [| discriminate].
    intros [= <-]. cbn [String.append]. f_equal. now apply IH.
Qed.

Lemma chop_newline_snoc (s : string) :
  chop_newline (s ++ String "010" EmptyString) = Some s.
Proof.
  induction s as [| c s IH]; [reflexivity |].
  cbn [String.append chop_newline]. rewrite IH.
  destruct s; reflexivity.
Qed.

Lemma upper_append (s t : string) : upper (s ++ t) = upper s ++ upper t.
Proof.
  unfold upper. induction s as [| c s IH]; cbn [String.append PyStr.map]; [reflexivity |].
  now rewrite IH.
Qed.

Lemma len_append (s t : string) : len (s ++ t) = len s + len t.
Proof.
  unfold len. induction s as [| c s IH]; cbn [String.append String.length]; [reflexivity |].
  now rewrite IH.
Qed.

Lemma len_upper (s : string) : len (upper s) = len s.
Proof.
  unfold len, upper. induction s as [| c s IH]; cbn [PyStr.map String.length]; [reflexivity |].
  now rewrite IH.
Qed.

Lemma three_hex_is_word (r g b : ascii) :
  hex_digit r = true -> hex_digit g = true -> hex_digit b = true ->
  fullmatch color_pattern (String "#" (String r (String g (String b EmptyString)))) = true.
Proof.
  intros Hr Hg Hb. apply fullmatch_lang.
  unfold color_pattern, Chr. cbn [lang Rep].
  exists (String "#" EmptyString), (String r (String g (String b EmptyString))).
  split; [reflexivity |]. split; [exists "#"%char; auto |]. right.
  exists (String r EmptyString), (String g (String b EmptyString)).
  split; [reflexivity |]. split; [eauto |].
  exists (String g EmptyString), (String b EmptyString).
  split; [reflexivity |]. split; [eauto |].
  exists (String b EmptyString), EmptyString.
  split; [reflexivity |]. split; [eauto | reflexivity].
Qed.

(** a word of the pattern, in upper case, is a word of the pattern *)
Lemma upper_word (w : string) :
  fullmatch color_pattern w = true ->
  fullmatch color_pattern (upper w) = true
  /\ upper (upper w) = upper w
  /\ (len w = 4 \/ len w = 7).
Proof.
  intros Hm. apply fullmatch_lang, color_pattern_words in Hm.
  destruct Hm as [(r & g & b & -> & Hr & Hg & Hb)
                 | (x1 & x2 & x3 & x4 & x5 & x6 & -> & H1 & H2 & H3 & H4 & H5 & H6)];
    cbn [upper PyStr.map]; rewrite ?upper_hash.
  - destruct (hex_upper r Hr) as (_ & Hr' & Ir).
    destruct (hex_upper g Hg) as (_ & Hg' & Ig).
    destruct (hex_upper b Hb) as (_ & Hb' & Ib).
    rewrite Ir, Ig, Ib. split; [now apply three_hex_is_word |]. auto.
  - destruct (hex_upper x1 H1) as (_ & H1' & I1).
    destruct (hex_upper x2 H2) as (_ & H2' & I2).
    destruct (hex_upper x3 H3) as (_ & H3' & I3).
    destruct (hex_upper x4 H4) as (_ & H4' & I4).
    destruct (hex_upper x5 H5) as (_ & H5' & I5).
    destruct (hex_upper x6 H6) as (_ & H6' & I6).
    rewrite I1, I2, I3, I4, I5, I6. split; [now apply six_hex_is_word |]. auto.
Qed.

(** validation of a word followed by a line feed *)
Lemma validate_color_line_feed (self : DiagramCategory) (w : string) :
  color self = w ++ String "010" EmptyString ->
  fullmatch color_pattern w = true ->
  _validate_color self
  = Ok (set_color (upper w ++ String "010" EmptyString) self).
Proof.
  intros Hc Hw. unfold _validate_color, match_dollar.
  rewrite Hc, chop_newline_snoc, Hw, orb_true_r. cbn [negb].
  destruct (upper_word w Hw) as (_ & _ & Hlen).
  assert (Hl : (len (w ++ String "010" EmptyString) =? 4)%nat = false).
  { apply Nat.eqb_neq. rewrite len_append. cbn. lia. }
  rewrite Hl, Hc, upper_append. reflexivity.
Qed.

(** X17. Validating a colour is idempotent: what validation returns, valid
    or with a final line feed, is returned unchanged when validated again. *)
Theorem validate_color_idempotent (self self' : DiagramCategory) :
  _validate_color self = Ok self' -> _validate_color self' = Ok self'.
Proof.
  intros Hv.
  destruct (chop_newline (color self)) as [w |] eqn:Hchop;
    [| exact (proj2 (validate_color_without_line_feed self self' Hchop Hv))].
  destruct (fullmatch color_pattern (color self)) eqn:Hm.
  - destruct (validate_color_on_words self Hm) as (s1 & H1 & _ & Hidem). congruence.
  - assert (Hw : fullmatch color_pattern w = true).
    { unfold _validate_color, match_dollar in Hv. rewrite Hm, Hchop in Hv.
      destruct (fullmatch color_pattern w); [reflexivity | discriminate]. }
    apply chop_newline_append in Hchop.
    rewrite (validate_color_line_feed self w Hchop Hw) in Hv. injection Hv as <-.
    destruct (upper_word w Hw) as (Hu & Hi & _).
    rewrite (validate_color_line_feed
               (set_color (upper w ++ String "010" EmptyString) self) (upper w)
               eq_refl Hu), Hi.
    reflexivity.
Qed.

Lemma validate_color_idempotent_witness :
  _validate_color (Samples.category "#AABBCC") = Ok (Samples.category "#AABBCC").
Proof.
  exact (validate_color_idempotent (Samples.category "#abc") (Samples.category "#AABBCC")
           eq_refl).
Defined.

Lemma color_field_bound (diagrams : gmap Z Diagram) (self : DiagramCategory) :
  cat_clean_fields diagrams self = ∅ -> len (color self) <= 7.
Proof.
  unfold cat_clean_fields. intros H.
  apply union_empty_inv in H as [H _].
  apply union_empty_inv in H as [_ H].
  now apply char_field_empty in H as [_ H].
Qed.

(** X18. The colour of a stored category is [#] and six digits of
    [0-9A-F], with one exception: [#], three such digits and a line feed,
    which comes from a three-digit colour entered with a final line feed
    (the six-digit one with a line feed has eight characters and fails the
    length check of the field). *)
Theorem stored_colour_shapes (diagrams : gmap Z Diagram)
    (self saved : DiagramCategory) (objects objects' : gmap Z DiagramCategory) :
  cat_save diagrams self objects = (Ok saved, objects') ->
  is_six_digit_upper_hex (color saved) = true
  \/ exists r g b,
       color saved = String "#" (String r (String g (String b (String "010" EmptyString))))
       /\ upper_hex_digit r = true /\ upper_hex_digit g = true
       /\ upper_hex_digit b = true
       /\ upper (color self) = color saved.
Proof.
  unfold cat_save.
  destruct (full_clean (cat_clean_fields diagrams) cat_clean self)
    as [self' | e] eqn:Hfc; [| discriminate].
  apply full_clean_ok in Hfc as [Hv Hf]. apply color_field_bound in Hf.
  destruct (Model_save self' objects) as [s o] eqn:Hms. intros [= -> ->].
  assert (Hcol : color saved = color self').
  { apply Model_save_stored in Hms as (k & _ & _ & _ & Hnew & Hold); [| reflexivity].
    cbn in Hnew, Hold. destruct (cat_pk self') as [k0 |] eqn:Ek.
    - now destruct (Hold k0 eq_refl) as [_ ->].
    - now destruct (Hnew eq_refl) as [_ ->]. }
  rewrite Hcol. unfold cat_clean in Hv.
  destruct (chop_newline (color self)) as [w |] eqn:Hchop;
    [| left; exact (proj1 (validate_color_without_line_feed self self' Hchop Hv))].
  destruct (fullmatch color_pattern (color self)) eqn:Hm.
  - left. destruct (validate_color_on_words self Hm) as (s1 & H1 & Hsix & _). congruence.
  - assert (Hw : fullmatch color_pattern w = true).
    { unfold _validate_color, match_dollar in Hv. rewrite Hm, Hchop in Hv.
      destruct (fullmatch color_pattern w); [reflexivity | discriminate]. }
    apply chop_newline_append in Hchop.
    rewrite (validate_color_line_feed self w Hchop Hw) in Hv. injection Hv as <-.
    cbn [color set_color]. right.
    rewrite Hchop, len_append in Hf. rewrite Hchop, upper_append.
    apply fullmatch_lang, color_pattern_words in Hw.
    destruct Hw as [(r & g & b & -> & Hr & Hg & Hb)
                   | (x1 & x2 & x3 & x4 & x5 & x6 & -> & _)];
      [| cbn in Hf; lia].
    exists (upper_char r), (upper_char g), (upper_char b).
    cbn [upper PyStr.map String.append]. rewrite upper_hash.
    destruct (hex_upper r Hr) as (Ur & _).
    destruct (hex_upper g Hg) as (Ug & _).
    destruct (hex_upper b Hb) as (Ub & _).
    repeat split; auto.
Qed.

Lemma stored_colour_shapes_witness :
  is_six_digit_upper_hex "#AABBCC" = true
  \/ exists r g b,
       "#AABBCC" = String "#" (String r (String g (String b (String "010" EmptyString))))
       /\ upper_hex_digit r = true /\ upper_hex_digit g = true
       /\ upper_hex_digit b = true
       /\ upper "#abc" = "#AABBCC".
Proof.
  exact (stored_colour_shapes Samples.two_active (Samples.category "#abc")
           (set_pk (Some 1%Z) (Samples.category "#AABBCC")) ∅
           {[ 1%Z := set_pk (Some 1%Z) (Samples.category "#AABBCC") ]} eq_refl).
Defined.

End ColorMoreFacts.

(** ** The numbers and addresses the patterns accept *)

Module ShapeFacts.

Import PyStr Re Patterns Shapes PyStrFacts ReFacts PatternFacts.

Lemma phone_regex_accepted (s : string) :
  lang phone_regex s -> forallb kept s = true -> accepted_shape s = true.
Proof.
  unfold phone_regex, Opt, Chr. cbn [lang Rep]. intros H Hk.
  open_lang; subst;
    repeat match goal with
      | H : Ascii.eqb _ _ = true |- _ => apply Ascii.eqb_eq in H; subst
      end;
    split_kept Hk; try absurd_kept.
  all: repeat match goal with
    | H : c489 ?x = true |- _ => pose proof (c489_d09 x H); revert H
    end; intros.
  all: unfold accepted_shape, national;
       cbn [String.append forallb len String.length].
  all: repeat match goal with
    | H : c489 ?x = true |- _ => rewrite H; clear H
    | H : d09 ?x = true |- _ => rewrite H; clear H
    end.
  all: reflexivity.
Qed.

Lemma national_inv (s : string) :
  national s = true ->
  exists x d1 d2 d3 d4 d5 d6 d7 d8 d9,
    s = String x (String d1 (String d2 (String d3 (String d4 (String d5
          (String d6 (String d7 (String d8 (String d9 EmptyString)))))))))
    /\ c489 x = true
    /\ d09 d1 = true /\ d09 d2 = true /\ d09 d3 = true /\ d09 d4 = true
    /\ d09 d5 = true /\ d09 d6 = true /\ d09 d7 = true /\ d09 d8 = true
    /\ d09 d9 = true.
Proof.
  unfold national. intros H.
  apply andb_prop in H as [H Hx]. apply andb_prop in H as [Hlen Hd].
  do 10 (destruct s as [| ? s]; [discriminate Hlen |]).
  destruct s; [| discriminate Hlen].
  cbn [forallb] in Hd.
  repeat match type of Hd with
    | (_ && _) = true => let K := fresh "K" in apply andb_prop in Hd as [K Hd]
    end.
  do 10 eexists. split; [reflexivity |]. repeat split; assumption.
Qed.

Lemma lang_cat (r1 r2 : regex) (s1 s2 : string) :
  lang r1 s1 -> lang r2 s2 -> lang (Cat r1 r2) (s1 ++ s2).
Proof. intros H1 H2. exists s1, s2. auto. Qed.

Lemma lang_class (p : ascii -> bool) (c : ascii) :
  p c = true -> lang (Class p) (String c EmptyString).
Proof. intros H. exists c. auto. Qed.

Lemma lang_skip (r : regex) : lang (Opt r) EmptyString.
Proof. right. reflexivity. Qed.

(** a national number after any prefix the pattern allows *)
Lemma national_lang (prefix s : string) :
  lang (Opt (Alt (Cat (Chr "+") (Chr "7")) (Alt (Chr "7") (Chr "8")))) prefix ->
  national s = true -> lang phone_regex (prefix ++ s).
Proof.
  intros Hp Hs.
  apply national_inv in Hs
    as (x & d1 & d2 & d3 & d4 & d5 & d6 & d7 & d8 & d9 & -> & Hx
          & H1 & H2 & H3 & H4 & H5 & H6 & H7 & H8 & H9).
  unfold phone_regex.
  apply lang_cat; [exact Hp |].
  refine (lang_cat _ _ EmptyString _ (lang_skip _) _).
  refine (lang_cat _ _ EmptyString _ (lang_skip _) _).
  refine (lang_cat _ _ (String x EmptyString) _ (lang_class _ _ Hx) _).
  refine (lang_cat _ _ (String d1 (String d2 EmptyString)) _ _ _).
  { refine (lang_cat _ _ (String d1 EmptyString) _ (lang_class _ _ H1) _).
    refine (lang_cat _ _ (String d2 EmptyString) _ (lang_class _ _ H2) _).
    reflexivity. }
  refine (lang_cat _ _ EmptyString _ (lang_skip _) _).
  refine (lang_cat _ _ EmptyString _ (lang_skip _) _).
  refine (lang_cat _ _ (String d3 (String d4 (String d5 EmptyString))) _ _ _).
  { refine (lang_cat _ _ (String d3 EmptyString) _ (lang_class _ _ H3) _).
    refine (lang_cat _ _ (String d4 EmptyString) _ (lang_class _ _ H4) _).
    refine (lang_cat _ _ (String d5 EmptyString) _ (lang_class _ _ H5) _).
    reflexivity. }
  refine (lang_cat _ _ EmptyString _ (lang_skip _) _).
  refine (lang_cat _ _ (String d6 (String d7 EmptyString)) _ _ _).
  { refine (lang_cat _ _ (String d6 EmptyString) _ (lang_class _ _ H6) _).
    refine (lang_cat _ _ (String d7 EmptyString) _ (lang_class _ _ H7) _).
    reflexivity. }
  refine (lang_cat _ _ EmptyString _ (lang_skip _) _).
  refine (lang_cat _ _ (String d8 EmptyString) _ (lang_class _ _ H8) _).
  refine (lang_cat _ _ (String d9 EmptyString) _ (lang_class _ _ H9) _).
  reflexivity.
Qed.

Lemma accepted_phone_regex (s : string) :
  accepted_shape s = true -> lang phone_regex s.
Proof.
  unfold accepted_shape. intros H. apply orb_prop in H as [H | H].
  - apply (national_lang EmptyString s); [apply lang_skip | exact H].
  - destruct s as [| c rest]; [discriminate |].
    apply orb_prop in H as [H | H]; apply andb_prop in H as [Hc H].
    + apply (national_lang (String c EmptyString) rest); [| exact H].
      left. right.
      apply orb_prop in Hc as [Hc | Hc]; apply Ascii.eqb_eq in Hc; subst c;
        [left | right]; eexists; split; reflexivity.
    + destruct rest as [| c' rest']; [discriminate |].
      apply andb_prop in H as [Hc' H].
      apply Ascii.eqb_eq in Hc, Hc'. subst c c'.
      apply (national_lang "+7" rest'); [| exact H].
      left. left. exists "+", "7". split; [reflexivity |].
      split; eexists; split; reflexivity.
Qed.

Lemma match_accepted (raw : string) :
  match_dollar phone_regex (clean_phone raw) = accepted_shape (clean_phone raw).
Proof.
  rewrite (match_dollar_no_newline kept _ _ kept_newline (clean_phone_kept raw)).
  apply eq_true_iff_eq. rewrite fullmatch_lang. split.
  - intros H. exact (phone_regex_accepted _ H (clean_phone_kept raw)).
  - apply accepted_phone_regex.
Qed.

(** X15. The three phone validators (inquiry, company phone, user) accept
    the same numbers: those whose digits and plus signs, read in order, are
    ten digits of which the first is 4, 8 or 9, bare or after +7, 7 or 8.
    What they store is exactly that string. *)
Theorem phone_validators_accept (raw : string) :
  let cleaned := clean_phone raw in
  (forall a : Applications.Application, Applications.phone a = raw ->
     Applications._validate_phone a
     = if accepted_shape cleaned then Ok (Applications.set_phone cleaned a)
       else Raise (Django.field_error "phone"
              "Введите корректный номер телефона в формате: +7 999 123-45-67"))
  /\ (forall p : Contacts.Phone, Contacts.number p = raw ->
     Contacts._validate_phone p
     = if accepted_shape cleaned then Ok (Contacts.set_number cleaned p)
       else Raise (Django.field_error "number"
              "Введите корректный номер телефона в формате: +7 999 123-45-67"))
  /\ (forall u : Users.User, Users.phone u = raw ->
     Users._validate_phone u
     = if accepted_shape cleaned then Ok (Users.set_phone cleaned u)
       else Raise (Django.field_error "phone"
              "Введите корректный номер телефона в формате: +7 999 123-45-67")).
Proof.
  cbn zeta. repeat split; intros x <-.
  - unfold Applications._validate_phone. rewrite match_accepted.
    now destruct (accepted_shape _).
  - unfold Contacts._validate_phone. rewrite match_accepted.
    now destruct (accepted_shape _).
  - unfold Users._validate_phone. rewrite match_accepted.
    now destruct (accepted_shape _).
Qed.

Lemma phone_validators_accept_witness :
  Contacts._validate_phone Samples.office_phone
  = Ok (Contacts.set_number (clean_phone (Contacts.number Samples.office_phone))
          Samples.office_phone).
Proof.
  exact (proj1 (proj2 (phone_validators_accept (Contacts.number Samples.office_phone)))
           Samples.office_phone eq_refl).
Defined.

(** *** e-mail addresses *)

Lemma count_char_app (c : ascii) (s t : string) :
  count_char c (s ++ t) = count_char c s + count_char c t.
Proof.
  induction s as [| x s IH]; cbn [String.append count_char]; [reflexivity |].
  rewrite IH. lia.
Qed.

Lemma count_char_none (p : ascii -> bool) (c : ascii) (s : string) :
  p c = false -> forallb p s = true -> count_char c s = 0.
Proof.
  intros Hc. induction s as [| x s IH]; cbn [forallb count_char]; [reflexivity |].
  intros H. apply andb_prop in H as [Hx Hs]. rewrite (IH Hs).
  destruct (Ascii.eqb_spec x c) as [-> | _]; [congruence | reflexivity].
Qed.

Lemma star_class (p : ascii -> bool) (s : string) :
  lang (Star (Class p)) s -> forallb p s = true.
Proof.
  cbn [lang]. induction 1 as [| c s1 s2 (c' & E & Hc) _ IH]; [reflexivity |].
  injection E as -> ->. cbn [String.append forallb]. now rewrite Hc.
Qed.

Lemma plus_class (p : ascii -> bool) (s : string) :
  lang (Plus (Class p)) s -> forallb p s = true /\ truthy s = true.
Proof.
  intros (s1 & s2 & -> & (c & -> & Hc) & Hs).
  apply star_class in Hs. cbn [String.append forallb truthy]. now rewrite Hc.
Qed.

Lemma email_regex_shape (s : string) :
  lang email_regex s ->
  exists local domain tld,
    s = local ++ "@" ++ domain ++ "." ++ tld
    /\ truthy local = true /\ forallb local_char local = true
    /\ truthy domain = true /\ forallb domain_char domain = true
    /\ 2 <= len tld /\ forallb alpha tld = true.
Proof.
  unfold email_regex, AtLeast, Chr. cbn [Rep].
  intros (local & s1 & -> & Hl & (at_ & s2 & -> & (c1 & -> & E1)
           & (domain & s3 & -> & Hd & (dot & tld & -> & (c2 & -> & E2)
           & (two & more & -> & Htwo & Hmore))))).
  apply Ascii.eqb_eq in E1, E2. subst c1 c2.
  apply plus_class in Hl as [Hl Hl'], Hd as [Hd Hd'].
  apply star_class in Hmore.
  destruct Htwo as (a1 & r1 & -> & (x1 & -> & K1) & (a2 & r2 & -> & (x2 & -> & K2) & ->)).
  exists local, domain, (String x1 (String x2 more)).
  cbn [String.append forallb len String.length]. rewrite K1, K2, Hmore.
  repeat split; auto; lia.
Qed.

Lemma forallb_app (p : ascii -> bool) (s t : string) :
  forallb p (s ++ t) = forallb p s && forallb p t.
Proof.
  induction s as [| c s IH]; cbn [String.append forallb]; [reflexivity |].
  now rewrite IH, andb_assoc.
Qed.

Lemma local_char_at : local_char "@" = false.
Proof. reflexivity. Qed.
Lemma domain_char_at : domain_char "@" = false.
Proof. reflexivity. Qed.
Lemma alpha_at : alpha "@" = false.
Proof. reflexivity. Qed.

(** X16. An e-mail address the pattern of the inquiry accepts has the form
    local@domain.tld: a non-empty local part of letters, digits and
    [._%+-], exactly one [@], a non-empty domain of letters, digits, dots
    and hyphens, and after its last dot at least two letters; one line feed
    may follow, and is kept. *)
Theorem accepted_email_shape (a a' : Applications.Application) :
  Applications._validate_email a = Ok a' ->
  a' = a
  /\ exists local domain tld tail,
       Applications.email a = local ++ "@" ++ domain ++ "." ++ tld ++ tail
       /\ truthy local = true /\ forallb local_char local = true
       /\ truthy domain = true /\ forallb domain_char domain = true
       /\ 2 <= len tld /\ forallb alpha tld = true
       /\ (tail = EmptyString \/ tail = String "010" EmptyString)
       /\ count_char "@" (Applications.email a) = 1.
Proof.
  unfold Applications._validate_email.
  destruct (match_dollar email_regex (Applications.email a)) eqn:Hm; [| discriminate].
  intros [= <-]. split; [reflexivity |].
  assert (Hcount : forall local domain tld tail,
            forallb local_char local = true -> forallb domain_char domain = true ->
            forallb alpha tld = true ->
            (tail = EmptyString \/ tail = String "010" EmptyString) ->
            count_char "@" (local ++ "@" ++ domain ++ "." ++ tld ++ tail) = 1).
  { intros local domain tld tail Hl Hd Ht Htail.
    rewrite count_char_app. cbn [String.append count_char].
    rewrite count_char_app. cbn [String.append count_char].
    rewrite count_char_app.
    rewrite (count_char_none _ _ _ local_char_at Hl),
            (count_char_none _ _ _ domain_char_at Hd),
            (count_char_none _ _ _ alpha_at Ht).
    destruct Htail as [-> | ->]; reflexivity. }
  unfold match_dollar in Hm. apply orb_prop in Hm as [Hm | Hm].
  - apply fullmatch_lang, email_regex_shape in Hm
      as (local & domain & tld & E & H1 & H2 & H3 & H4 & H5 & H6).
    exists local, domain, tld, EmptyString.
    assert (E' : Applications.email a = local ++ "@" ++ domain ++ "." ++ tld ++ EmptyString).
    { now rewrite E, append_nil_r. }
    rewrite E'. repeat split; auto.
  - destruct (chop_newline (Applications.email a)) as [s' |] eqn:Hchop; [| discriminate].
    apply ColorMoreFacts.chop_newline_append in Hchop.
    apply fullmatch_lang, email_regex_shape in Hm
      as (local & domain & tld & E & H1 & H2 & H3 & H4 & H5 & H6).
    exists local, domain, tld, (String "010" EmptyString).
    assert (E' : Applications.email a
                 = local ++ "@" ++ domain ++ "." ++ tld ++ String "010" EmptyString).
    { rewrite Hchop, E, append_assoc. cbn [String.append].
      now rewrite append_assoc. }
    rewrite E'. repeat split; auto.
Qed.

Lemma accepted_email_shape_witness :
  count_char "@" (Applications.email MoreSamples.inquiry_by_mail) = 1.
Proof.
  destruct (accepted_email_shape MoreSamples.inquiry_by_mail MoreSamples.inquiry_by_mail eq_refl)
    as (_ & local & domain & tld & tail & _ & _ & _ & _ & _ & _ & _ & _ & H).
  exact H.
Defined.

End ShapeFacts.

(** ** Phone numbers and addresses as shown *)

Module DisplayFacts.

Import PyStr Patterns Shapes Contacts ContactsDisplay PyStrFacts PatternFacts ShapeFacts.

Lemma d09_kept (c : ascii) : d09 c = true -> kept c = true.
Proof. by_cases_on_char c. Qed.

Lemma filter_keep (p : ascii -> bool) (c : ascii) (s : string) :
  p c = true -> filter p (String c s) = String c (filter p s).
Proof. intros H. cbn [filter]. now rewrite H. Qed.

Lemma filter_drop (p : ascii -> bool) (c : ascii) (s : string) :
  p c = false -> filter p (String c s) = filter p s.
Proof. intros H. cbn [filter]. now rewrite H. Qed.

Ltac run_filter :=
  repeat first [ rewrite filter_keep by (assumption || reflexivity)
               | rewrite filter_drop by reflexivity ];
  cbn [filter].

Ltac national_chars H :=
  apply national_inv in H
    as (x & d1 & d2 & d3 & d4 & d5 & d6 & d7 & d8 & d9 & -> & Hx
          & H1 & H2 & H3 & H4 & H5 & H6 & H7 & H8 & H9);
  pose proof (c489_d09 x Hx) as Hx';
  pose proof (d09_re_d _ Hx') as Rx; pose proof (d09_kept _ Hx') as Kx;
  pose proof (d09_re_d _ H1) as R1; pose proof (d09_kept _ H1) as K1;
  pose proof (d09_re_d _ H2) as R2; pose proof (d09_kept _ H2) as K2;
  pose proof (d09_re_d _ H3) as R3; pose proof (d09_kept _ H3) as K3;
  pose proof (d09_re_d _ H4) as R4; pose proof (d09_kept _ H4) as K4;
  pose proof (d09_re_d _ H5) as R5; pose proof (d09_kept _ H5) as K5;
  pose proof (d09_re_d _ H6) as R6; pose proof (d09_kept _ H6) as K6;
  pose proof (d09_re_d _ H7) as R7; pose proof (d09_kept _ H7) as K7;
  pose proof (d09_re_d _ H8) as R8; pose proof (d09_kept _ H8) as K8;
  pose proof (d09_re_d _ H9) as R9; pose proof (d09_kept _ H9) as K9.

Ltac shape_holds :=
  unfold accepted_shape, national;
  cbn [String.append forallb len String.length];
  repeat match goal with
    | H : c489 ?x = true |- _ => rewrite H; clear H
    | H : d09 ?x = true |- _ => rewrite H; clear H
    end;
  reflexivity.

Lemma prefix_same (c : ascii) (s : string) :
  String.prefix (String c EmptyString) (String c s) = true.
Proof.
  cbn [String.prefix]. destruct (ascii_dec c c); [now destruct s | congruence].
Qed.

Lemma prefix_other (c c' : ascii) (s : string) :
  c <> c' -> String.prefix (String c EmptyString) (String c' s) = false.
Proof.
  intros H. cbn [String.prefix]. destruct (ascii_dec c c'); [congruence | reflexivity].
Qed.

Ltac run_format :=
  rewrite ?prefix_same, ?prefix_other by discriminate;
  cbn [len String.length Nat.eqb andb];
  rewrite ?andb_false_r;
  cbn [slice slice_from String.substring String.length Nat.sub String.append last_ten].

(** how a number is shown, by the shape of the stored number *)
Lemma formatted_number_cases (p : Phone) :
  accepted_shape (number p) = true ->
  let shown := formatted_number p in
  (if String.prefix "8" (number p) && (len (number p) =? 11)%nat
   then shown = number p
   else len shown = 18
        /\ clean_phone shown = "+7" ++ last_ten (number p))
  /\ accepted_shape (clean_phone shown) = true.
Proof.
  destruct p as [key n description active position].
  cbn zeta. unfold formatted_number. cbn [number]. unfold accepted_shape at 1.
  intros H. apply orb_prop in H as [H | H].
  - national_chars H. run_filter. run_format.
    split; [split; [reflexivity |] |]; unfold clean_phone; run_filter.
    + reflexivity.
    + shape_holds.
  - destruct n as [| c rest]; [discriminate |].
    apply orb_prop in H as [H | H]; apply andb_prop in H as [Hc H].
    + national_chars H.
      apply orb_prop in Hc as [Hc | Hc]; apply Ascii.eqb_eq in Hc; subst c.
      * run_filter. run_format.
        split; [split; [reflexivity |] |]; unfold clean_phone; run_filter.
        -- reflexivity.
        -- shape_holds.
      * run_filter. run_format. split; [reflexivity |].
        unfold clean_phone; run_filter. shape_holds.
    + destruct rest as [| c' rest']; [discriminate |].
      apply andb_prop in H as [Hc' H].
      apply Ascii.eqb_eq in Hc, Hc'. subst c c'.
      national_chars H. run_filter. run_format.
      split; [split; [reflexivity |] |]; unfold clean_phone; run_filter.
      * reflexivity.
      * shape_holds.
Qed.

(** X19. A stored phone number is shown as [+7 (abc) def-gh-ij] from its
    last ten digits, except that an eleven-digit number that starts with 8
    is shown as stored.  What is shown passes the validation of the phone
    again, and is then stored with the same ten digits. *)
Theorem formatted_number_round_trip (p0 p : Phone) :
  _validate_phone p0 = Ok p ->
  let shown := formatted_number p in
  (if String.prefix "8" (number p) && (len (number p) =? 11)%nat
   then shown = number p
   else len shown = 18
        /\ clean_phone shown = "+7" ++ last_ten (number p))
  /\ _validate_phone (set_number shown p) = Ok (set_number (clean_phone shown) p).
Proof.
  intros Hv. cbn zeta.
  assert (Hs : accepted_shape (number p) = true).
  { unfold _validate_phone in Hv. rewrite match_accepted in Hv.
    destruct (accepted_shape (clean_phone (number p0))) eqn:Hs; [| discriminate].
    injection Hv as <-. exact Hs. }
  destruct (formatted_number_cases p Hs) as [Hshown Hagain].
  split; [exact Hshown |].
  unfold _validate_phone. cbn [number set_number].
  rewrite match_accepted, Hagain. reflexivity.
Qed.

Lemma formatted_number_round_trip_witness :
  (len (formatted_number (set_number "+74951234567" Samples.office_phone)) = 18
   /\ clean_phone (formatted_number (set_number "+74951234567" Samples.office_phone))
      = "+74951234567")
  /\ _validate_phone
       (set_number (formatted_number (set_number "+74951234567" Samples.office_phone))
          (set_number "+74951234567" Samples.office_phone))
     = Ok (set_number "+74951234567" Samples.office_phone).
Proof.
  exact (formatted_number_round_trip
           (set_number "+7 495 123 45 67" Samples.office_phone)
           (set_number "+74951234567" Samples.office_phone) eq_refl).
Defined.

Lemma length_substring (n : nat) (s : string) :
  n <= String.length s -> String.length (String.substring 0 n s) = n.
Proof.
  revert s. induction n as [| n IH]; intros [| c s] Hn; cbn in *;
    try reflexivity; try lia.
  rewrite IH; lia.
Qed.

Lemma length_append (s t : string) :
  String.length (s ++ t) = String.length s + String.length t.
Proof. induction s as [| c s IH]; cbn; [reflexivity | now rewrite IH]. Qed.

(** X20. The short form of an address never has more than 50 characters:
    an address of at most 50 characters is shown whole, a longer one as its
    first 47 characters and three dots. *)
Theorem short_address_bounded (self : Address) :
  len (short_address self) <= 50
  /\ (len (text self) <= 50 -> short_address self = text self)
  /\ (50 < len (text self) ->
      short_address self = String.substring 0 47 (text self) ++ "..."
      /\ len (short_address self) = 50).
Proof.
  unfold short_address, slice, len.
  destruct (50 <? String.length (text self))%nat eqn:E.
  - apply Nat.ltb_lt in E. cbn [Nat.sub].
    rewrite length_append, length_substring by lia.
    change (String.length "...") with 3.
    split; [lia |]. split; [intros; lia |]. intros _. split; [reflexivity | lia].
  - apply Nat.ltb_ge in E. split; [lia |]. split; [reflexivity |]. intros; lia.
Qed.

End DisplayFacts.

(** ** The section of a validated image or file *)

Module SectionLookupFacts.

Import DynamicPages SectionLookup.

(** X21. An image or a file that passed validation has a section and a
    page type, and they name the one parent that is set: about, services
    or documents, with the other two parents empty. *)
Theorem validated_row_has_one_section :
  (forall self self' : SectionImage, clean self = Ok self' ->
     (exists s, about_section self = Some s /\ service_section self = None
                /\ document_section self = None
                /\ get_section self = Some (AboutSection s)
                /\ get_page_type self = Some "about")
     \/ (exists s, about_section self = None /\ service_section self = Some s
                   /\ document_section self = None
                   /\ get_section self = Some (ServiceSection s)
                   /\ get_page_type self = Some "services")
     \/ (exists s, about_section self = None /\ service_section self = None
                   /\ document_section self = Some s
                   /\ get_section self = Some (DocumentSection s)
                   /\ get_page_type self = Some "documents"))
  /\ (forall self self' : SectionFile, f_clean self = Ok self' ->
     (exists s, f_about_section self = Some s /\ f_service_section self = None
                /\ f_document_section self = None
                /\ f_get_section self = Some (AboutSection s)
                /\ f_get_page_type self = Some "about")
     \/ (exists s, f_about_section self = None /\ f_service_section self = Some s
                   /\ f_document_section self = None
                   /\ f_get_section self = Some (ServiceSection s)
                   /\ f_get_page_type self = Some "services")
     \/ (exists s, f_about_section self = None /\ f_service_section self = None
                   /\ f_document_section self = Some s
                   /\ f_get_section self = Some (DocumentSection s)
                   /\ f_get_page_type self = Some "documents")).
Proof.
  split.
  - intros [key a s d i o] self'.
    unfold clean, get_page_type, get_section. cbn.
    destruct a, s, d; cbn; try discriminate; intros _.
    + left. eauto 10.
    + right. left. eauto 10.
    + right. right. eauto 10.
  - intros [key a s d i o] self'.
    unfold f_clean, f_get_page_type, f_get_section. cbn.
    destruct a, s, d; cbn; try discriminate; intros _.
    + left. eauto 10.
    + right. left. eauto 10.
    + right. right. eauto 10.
Qed.

Lemma validated_row_has_one_section_witness :
  get_page_type (Samples.img (Some 3%Z) None None) = Some "about".
Proof.
  destruct (proj1 validated_row_has_one_section (Samples.img (Some 3%Z) None None)
              (Samples.img (Some 3%Z) None None) eq_refl)
    as [(s & _ & _ & _ & _ & H) | [(s & E & _) | (s & E & _)]];
    [exact H | discriminate E | discriminate E].
Defined.

End SectionLookupFacts.

(** ** Who is notified *)

Module RecipientFacts.

Import PyStr Services Shapes Recipients.

Lemma lstrip_head (s : string) :
  lstrip s = EmptyString
  \/ exists c s', lstrip s = String c s' /\ isspace c = false.
Proof.
  induction s as [| c s IH]; [now left |].
  cbn [lstrip]. destruct (isspace c) eqn:E; [exact IH |]. right. eauto.
Qed.

Lemma rstrip_cons (c : ascii) (s : string) :
  rstrip (String c s)
  = match rstrip s with
    | EmptyString => if isspace c then EmptyString else String c EmptyString
    | r => String c r
    end.
Proof. reflexivity. Qed.

Lemma rstrip_fixed (s : string) : rstrip (rstrip s) = rstrip s.
Proof.
  induction s as [| c s IH]; [reflexivity |].
  rewrite rstrip_cons. destruct (rstrip s) as [| d r] eqn:E.
  - destruct (isspace c) eqn:Ec; [reflexivity |]. cbn [rstrip]. now rewrite Ec.
  - rewrite rstrip_cons, IH. reflexivity.
Qed.

Lemma rstrip_head (c : ascii) (s : string) :
  isspace c = false -> exists s', rstrip (String c s) = String c s'.
Proof.
  intros E. cbn [rstrip]. destruct (rstrip s); [rewrite E |]; eauto.
Qed.

Lemma strip_fixed (s : string) : strip (strip s) = strip s.
Proof.
  unfold strip. destruct (lstrip_head s) as [-> | (c & s' & -> & E)]; [reflexivity |].
  destruct (rstrip_head c s' E) as (u & Hu). rewrite Hu.
  cbn [lstrip]. rewrite E, <- Hu. apply rstrip_fixed.
Qed.

Lemma lstrip_count (c : ascii) (s : string) :
  count_char c s = 0 -> count_char c (lstrip s) = 0.
Proof.
  induction s as [| x s IH]; [reflexivity |].
  cbn [lstrip]. destruct (isspace x); [| auto].
  cbn [count_char]. intros H. apply IH. lia.
Qed.

Lemma rstrip_count (c : ascii) (s : string) :
  count_char c s = 0 -> count_char c (rstrip s) = 0.
Proof.
  induction s as [| x s IH]; [reflexivity |].
  cbn [count_char]. intros H.
  assert (Hx : (if Ascii.eqb x c then 1 else 0) = 0) by lia.
  assert (Hs : count_char c (rstrip s) = 0) by (apply IH; lia).
  cbn [rstrip]. destruct (rstrip s) as [| d r].
  - destruct (isspace x); cbn [count_char]; lia.
  - cbn [count_char] in *. lia.
Qed.

Lemma split_comma_pieces (s : string) :
  split_comma s <> [] /\ Forall (fun piece => count_char "," piece = 0) (split_comma s).
Proof.
  induction s as [| c s [Hne IH]]; cbn [split_comma].
  - split; [discriminate |]. repeat constructor.
  - destruct (Ascii.eqb c ",") eqn:E.
    + split; [discriminate |]. constructor; [reflexivity | exact IH].
    + destruct (split_comma s) as [| piece pieces]; [contradiction |].
      split; [discriminate |].
      apply Forall_cons in IH as [Hp Hps].
      constructor; [| exact Hps]. cbn [count_char]. now rewrite E.
Qed.

Lemma notification_entries_plain_aux (self : SiteSettings) :
  Forall plain (get_notification_emails_list self)
  /\ (notification_emails self = EmptyString -> get_notification_emails_list self = []).
Proof.
  unfold get_notification_emails_list. split.
  - destruct (negb (truthy (notification_emails self))); [constructor |].
    apply Forall_forall. intros e He.
    apply list_elem_of_In, filter_In in He as [He Ht].
    apply in_map_iff in He as (piece & <- & Hp).
    destruct (split_comma_pieces (notification_emails self)) as [_ Hall].
    rewrite Forall_forall in Hall.
    repeat split.
    + exact Ht.
    + unfold strip. apply rstrip_count, lstrip_count, Hall, list_elem_of_In, Hp.
    + apply strip_fixed.
  - now intros ->.
Qed.

(** X22. Every entry of the notification list is a non-empty string
    without comma and without white space at its ends; a setting that is
    empty gives the empty list. *)
Theorem notification_entries_are_plain (self : SiteSettings) :
  Forall plain (get_notification_emails_list self)
  /\ (notification_emails self = EmptyString -> get_notification_emails_list self = []).
Proof. exact (notification_entries_plain_aux self). Qed.

Lemma split_comma_plain (a : string) :
  count_char "," a = 0 -> split_comma a = [a].
Proof.
  induction a as [| c a IH]; [reflexivity |].
  cbn [count_char split_comma]. destruct (Ascii.eqb c ","); [discriminate |].
  intros H. now rewrite IH.
Qed.

Lemma split_comma_cons (a rest : string) :
  count_char "," a = 0 ->
  split_comma (a ++ String "," rest) = a :: split_comma rest.
Proof.
  induction a as [| c a IH]; [reflexivity |].
  cbn [count_char split_comma String.append]. destruct (Ascii.eqb c ","); [discriminate |].
  intros H. now rewrite IH.
Qed.

Lemma split_join (a : string) (l : list string) :
  Forall plain (a :: l) ->
  List.map strip (split_comma (join (a :: l))) = a :: l.
Proof.
  revert a. induction l as [| b l IH]; intros a Hall.
  - apply Forall_cons in Hall as [(_ & Hc & Hs) _].
    cbn. rewrite split_comma_plain by exact Hc. cbn. now rewrite Hs.
  - apply Forall_cons in Hall as [(_ & Hc & Hs) Hl].
    change (join (a :: b :: l)) with (a ++ String "," (String " " (join (b :: l)))).
    rewrite split_comma_cons by exact Hc. cbn [List.map]. rewrite Hs. f_equal.
    specialize (IH b Hl).
    destruct (split_comma_pieces (join (b :: l))) as [Hne _].
    cbn [split_comma]. change (Ascii.eqb " " ",") with false. cbn iota.
    destruct (split_comma (join (b :: l))) as [| piece pieces]; [contradiction |].
    cbn [List.map] in *. injection IH as Hb Hrest.
    f_equal; [| exact Hrest].
    unfold strip in *. cbn [lstrip]. exact Hb.
Qed.

(** X23. A list of plain entries written into the setting, separated by a
    comma and a blank, is read back as that list. *)
Theorem notification_list_round_trip (self : SiteSettings) (entries : list string) :
  Forall plain entries ->
  notification_emails self = join entries ->
  get_notification_emails_list self = entries.
Proof.
  intros Hall Hn. unfold get_notification_emails_list. rewrite Hn.
  destruct entries as [| a l]; [reflexivity |].
  assert (Ht : truthy (join (a :: l)) = true).
  { apply Forall_cons in Hall as [(Ha & _) _].
    destruct a; [discriminate |]. now destruct l. }
  rewrite Ht. cbn [negb]. rewrite split_join by exact Hall.
  clear Ht Hn. induction Hall as [| e es (He & _) _ IH]; [reflexivity |].
  cbn [List.filter]. now rewrite He, IH.
Qed.

Lemma notification_list_round_trip_witness :
  get_notification_emails_list sample_settings
  = ["sales@example.ru"; "office@example.ru"].
Proof.
  apply notification_list_round_trip; [| reflexivity].
  repeat constructor.
Defined.

(** X24. A notification either goes out as one mail, to at least one
    recipient, all of them valid and plain entries of the setting, from a
    valid sender or else the configured default, and True is returned; or
    no mail goes out, and False is returned or an exception leaves the
    service: the one of the settings lookup, or the AttributeError of
    [created_at.strftime] when a template is missing and the inquiry was
    never saved. *)
Theorem mail_is_well_addressed (site_settings_get : SettingsLookup)
    (validate_email : string -> bool) (DEFAULT_FROM_EMAIL : string)
    (transport : Mail -> option string) (templates_render : bool)
    (created_at : Applications.Application -> option Z)
    (application : Applications.Application) :
  let r := deliver site_settings_get validate_email DEFAULT_FROM_EMAIL transport
             templates_render created_at application in
  ((r.1 = Applications.Returned true
    /\ exists mail, r.2 = [mail] /\ transport mail = None
         /\ to mail <> []
         /\ Forall (fun e => validate_email e = true /\ plain e) (to mail)
         /\ (validate_email (from_email mail) = true
             \/ from_email mail = DEFAULT_FROM_EMAIL))
   \/ (r.2 = []
       /\ (r.1 = Applications.Returned false
           \/ (exists e, r.1 = Applications.Raised e
                         /\ site_settings_get = LookupRaised e)
           \/ (r.1 = Applications.Raised strftime_error
               /\ templates_render = false /\ created_at application = None
               /\ exists site_settings,
                    site_settings_get = Found site_settings
                    /\ List.filter validate_email
                         (get_notification_emails_list site_settings) <> []))))
  /\ (templates_render = true \/ is_Some (created_at application) ->
      r.1 = Applications.Returned true \/ r.1 = Applications.Returned false
      \/ exists e, r.1 = Applications.Raised e /\ site_settings_get = LookupRaised e).
Proof.
  cbn zeta. unfold deliver.
  destruct site_settings_get as [site_settings | | e];
    [| split; [right; auto | auto] |].
  2: { split.
       - right. split; [reflexivity |]. right. left. exists e. auto.
       - intros _. right. right. exists e. auto. }
  pose proof (proj1 (notification_entries_plain_aux site_settings)) as Hplain.
  destruct (get_notification_emails_list site_settings) as [| r rs] eqn:Hr;
    [split; [right; auto | auto] |].
  destruct (List.filter validate_email (r :: rs)) as [| v vs] eqn:Hv;
    [split; [right; auto | auto] |].
  destruct templates_render; cbn [negb andb].
  - match goal with |- context [transport ?m] => destruct (transport m) eqn:Ht end;
      [split; [right; auto | auto] |].
    split; [| auto].
    left. split; [reflexivity |]. eexists. split; [reflexivity |].
    split; [exact Ht |]. cbn [to from_email]. split; [discriminate |]. split.
    + rewrite <- Hv. apply Forall_forall. intros x Hx.
      apply list_elem_of_In, filter_In in Hx as [Hx Hx'].
      split; [exact Hx' |].
      rewrite Forall_forall in Hplain. apply Hplain, list_elem_of_In, Hx.
    + set (sender := if truthy (default_email_from site_settings)
                     then default_email_from site_settings else DEFAULT_FROM_EMAIL).
      destruct (validate_email sender) eqn:Hf; auto.
  - destruct (created_at application) as [t |] eqn:Hc; cbn [is_none].
    + match goal with |- context [transport ?m] => destruct (transport m) eqn:Ht end;
        [split; [right; auto | auto] |].
      split; [| auto].
      left. split; [reflexivity |]. eexists. split; [reflexivity |].
      split; [exact Ht |]. cbn [to from_email]. split; [discriminate |]. split.
      * rewrite <- Hv. apply Forall_forall. intros x Hx.
        apply list_elem_of_In, filter_In in Hx as [Hx Hx'].
        split; [exact Hx' |].
        rewrite Forall_forall in Hplain. apply Hplain, list_elem_of_In, Hx.
      * set (sender := if truthy (default_email_from site_settings)
                       then default_email_from site_settings else DEFAULT_FROM_EMAIL).
        destruct (validate_email sender) eqn:Hf; auto.
    + split.
      * right. split; [reflexivity |]. right. right.
        repeat split. exists site_settings. split; [reflexivity |].
        rewrite Hr, Hv. discriminate.
      * intros [H | [x H]]; discriminate H.
Qed.

(** a missing template and an inquiry that was never saved: the service
    raises *)
Example notification_without_template :
  send_application_notification (Found sample_settings) Samples.accepts_all
    EmptyString (fun _ => None) false (fun _ => None) Samples.app0
  = Applications.Raised strftime_error.
Proof. vm_compute. reflexivity. Qed.

End RecipientFacts.
